(** * Lead-Miner: enrichment and scoring pipeline

    A shallow embedding of the analyzers of the lead-generation pipeline
    (website trust classifier, e-mail discovery, social profile verifier,
    website intelligence extractor, automation-need scorer) and the
    properties checked against them.

    Modelling conventions.
    - A JavaScript string is a [string] of ASCII characters.  Case mapping
      and the whitespace class are those of ECMAScript restricted to the
      ASCII range; characters above 127 are left alone by the case
      mappings and are not whitespace.
    - A JavaScript [number] that is only ever compared is a [number]
      (a rational, an infinity or NaN); a number built by the program
      from integer constants is a [Z].
    - A plain object used as a dictionary is a [gmap string _]; a [Set]
      and an array are lists in insertion order.
    - Platform services (the URL parser, the regular-expression engine on
      the patterns that scan HTML, [fetch], DNS) are parameters of the
      sections that use them. *)

From Stdlib Require Import ZArith QArith Qround Ascii Sorted Lia.
From stdpp Require Import gmap strings list fin_maps pretty.

Local Open Scope Z_scope.

(** ** JavaScript built-ins *)

Module JS.

(** *** Numbers *)

Inductive number :=
| NaN
| NegInf
| Fin (q : Q)
| PosInf.

Definition Qltb (a b : Q) : bool := negb (Qle_bool b a).

(** [a < b] *)
Definition lt (a b : number) : bool :=
  match a, b with
  | NaN, _ | _, NaN => false
  | _, NegInf => false
  | NegInf, _ => true
  | PosInf, _ => false
  | Fin _, PosInf => true
  | Fin x, Fin y => Qltb x y
  end.

(** [a <= b] *)
Definition le (a b : number) : bool :=
  match a, b with
  | NaN, _ | _, NaN => false
  | NegInf, _ => true
  | _, PosInf => true
  | _, NegInf => false
  | PosInf, Fin _ => false
  | Fin x, Fin y => Qle_bool x y
  end.

(** [a > b] *)
Definition gt (a b : number) : bool := lt b a.

Definition ofZ (z : Z) : number := Fin (inject_Z z).

(** [Math.round]: the nearest integer, halves rounded up. *)
Definition Math_round (q : Q) : Z := Qfloor (q + (1 # 2)).

(** *** Characters *)

Definition code (c : ascii) : N := N_of_ascii c.

Definition isUpper (c : ascii) : bool := ((65 <=? code c) && (code c <=? 90))%N.
Definition isLower (c : ascii) : bool := ((97 <=? code c) && (code c <=? 122))%N.
Definition isDigit (c : ascii) : bool := ((48 <=? code c) && (code c <=? 57))%N.
Definition isLetter (c : ascii) : bool := isUpper c || isLower c.

(** The class [\s]: TAB, LF, VT, FF, CR and SPACE. *)
Definition isSpace (c : ascii) : bool :=
  ((9 <=? code c) && (code c <=? 13) || (code c =? 32))%N.

Definition lowerChar (c : ascii) : ascii :=
  if isUpper c then ascii_of_N (code c + 32) else c.
Definition upperChar (c : ascii) : ascii :=
  if isLower c then ascii_of_N (code c - 32) else c.

(** *** Strings *)

Fixpoint mapChars (f : ascii -> ascii) (s : string) : string :=
  match s with
  | EmptyString => EmptyString
  | String c s' => String (f c) (mapChars f s')
  end.

Definition toLowerCase : string -> string := mapChars lowerChar.
Definition toUpperCase : string -> string := mapChars upperChar.

Definition isEmpty (s : string) : bool :=
  match s with EmptyString => true | _ => false end.

(** [!x] for a string that may be [null] or [undefined]. *)
Definition falsy (x : option string) : bool :=
  match x with
  | None => true
  | Some s => isEmpty s
  end.

Fixpoint allChars (p : ascii -> bool) (s : string) : bool :=
  match s with
  | EmptyString => true
  | String c s' => p c && allChars p s'
  end.

Fixpoint trimStart (s : string) : string :=
  match s with
  | EmptyString => EmptyString
  | String c s' => if isSpace c then trimStart s' else s
  end.

Fixpoint trimEnd (s : string) : string :=
  match s with
  | EmptyString => EmptyString
  | String c s' =>
      let r := trimEnd s' in
      if isSpace c && isEmpty r then EmptyString else String c r
  end.

Definition trim (s : string) : string := trimEnd (trimStart s).

(** [s.startsWith(p)] *)
Fixpoint startsWith (s p : string) {struct p} : bool :=
  match p, s with
  | EmptyString, _ => true
  | String _ _, EmptyString => false
  | String a p', String b s' => Ascii.eqb a b && startsWith s' p'
  end.

(** [s.includes(p)] *)
Fixpoint includes (s p : string) : bool :=
  startsWith s p ||
  match s with
  | EmptyString => false
  | String _ s' => includes s' p
  end.

(** [s.endsWith(p)] *)
Fixpoint endsWith (s p : string) : bool :=
  String.eqb s p ||
  match s with
  | EmptyString => false
  | String _ s' => endsWith s' p
  end.

(** [s.split(sep)] for a one-character separator. *)
Fixpoint splitChar (sep : ascii) (s : string) : list string :=
  match s with
  | EmptyString => [EmptyString]
  | String c s' =>
      if Ascii.eqb c sep then EmptyString :: splitChar sep s'
      else match splitChar sep s' with
           | [] => [String c EmptyString]
           | w :: ws => String c w :: ws
           end
  end.

(** [s.split(/\s+/)[0]]: the characters before the first whitespace. *)
Fixpoint firstField (s : string) : string :=
  match s with
  | EmptyString => EmptyString
  | String c s' => if isSpace c then EmptyString else String c (firstField s')
  end.

(** [s.replace(/[^a-z0-9\s]/g, "")] *)
Fixpoint keepAlnumSpace (s : string) : string :=
  match s with
  | EmptyString => EmptyString
  | String c s' =>
      if isLower c || isDigit c || isSpace c
      then String c (keepAlnumSpace s')
      else keepAlnumSpace s'
  end.

(** [s.replace(/\s+/g, sep)]: every maximal run of whitespace becomes
    one copy of [sep]. *)
Fixpoint replaceSpaceRuns (sep : string) (s : string) : string :=
  match s with
  | EmptyString => EmptyString
  | String c s' =>
      if isSpace c then
        match s' with
        | String d _ =>
            if isSpace d then replaceSpaceRuns sep s'
            else sep +:+ replaceSpaceRuns sep s'
        | EmptyString => sep
        end
      else String c (replaceSpaceRuns sep s')
  end.

(** *** Sets and arrays *)

(** [set.add(x)] on a [Set] kept in insertion order. *)
Definition Set_add (seen : list string) (x : string) : list string :=
  if bool_decide (x ∈ seen) then seen else seen ++ [x].

(** [Array.from(new Set(xs))] *)
Definition Array_from_Set (xs : list string) : list string :=
  foldl Set_add [] xs.

(** [xs.some(p)] *)
Definition some {A} (p : A -> bool) (xs : list A) : bool := existsb p xs.

(** [xs.sort(cmp)] for a consistent comparator: the stable sort that
    ECMAScript prescribes, written as an insertion sort. *)
Section Sort.
Context {A : Type} (cmp : A -> A -> Z).

Fixpoint insertSorted (x : A) (l : list A) : list A :=
  match l with
  | [] => [x]
  | y :: l' => if cmp x y <=? 0 then x :: l else y :: insertSorted x l'
  end.

Fixpoint sort (l : list A) : list A :=
  match l with
  | [] => []
  | x :: l' => insertSorted x (sort l')
  end.
End Sort.

(** The comparator [(a, b) => key(b) - key(a)]. *)
Definition descending {A} (key : A -> Z) (a b : A) : Z := key b - key a.

Definition clamp (n lo hi : Z) : Z := Z.max lo (Z.min hi n).

(** *** Regular expressions used with [test]

    A pattern without back-references or look-around denotes a regular
    language, and [re.test(s)] says whether some match exists, so it
    is decided here by derivatives.  [matches r s] is the test of the
    pattern [^r$]; a pattern anchored only at the start is followed by
    [anything]. *)

Inductive regex :=
| Void
| Eps
| Class (p : ascii -> bool)
| Cat (r1 r2 : regex)
| Alt (r1 r2 : regex)
| Star (r : regex).

Fixpoint nullable (r : regex) : bool :=
  match r with
  | Void => false
  | Eps => true
  | Class _ => false
  | Cat r1 r2 => nullable r1 && nullable r2
  | Alt r1 r2 => nullable r1 || nullable r2
  | Star _ => true
  end.

Definition cat (r1 r2 : regex) : regex :=
  match r1, r2 with
  | Void, _ | _, Void => Void
  | Eps, r | r, Eps => r
  | _, _ => Cat r1 r2
  end.

Definition alt (r1 r2 : regex) : regex :=
  match r1, r2 with
  | Void, r | r, Void => r
  | _, _ => Alt r1 r2
  end.

Fixpoint deriv (c : ascii) (r : regex) : regex :=
  match r with
  | Void | Eps => Void
  | Class p => if p c then Eps else Void
  | Cat r1 r2 =>
      if nullable r1 then alt (cat (deriv c r1) r2) (deriv c r2)
      else cat (deriv c r1) r2
  | Alt r1 r2 => alt (deriv c r1) (deriv c r2)
  | Star r1 => cat (deriv c r1) (Star r1)
  end.

Fixpoint matches (r : regex) (s : string) : bool :=
  match s with
  | EmptyString => nullable r
  | String c s' => matches (deriv c r) s'
  end.

Definition chr (a : ascii) : regex := Class (Ascii.eqb a).
Definition plus (r : regex) : regex := Cat r (Star r).
Definition opt (r : regex) : regex := Alt Eps r.
Definition anything : regex := Star (Class (fun _ => true)).

Definition oneOf (chars : string) (c : ascii) : bool :=
  includes chars (String c EmptyString).

(** *** Calls that may throw, and HTTP responses *)

Inductive outcome (A : Type) :=
| Returned (a : A)
| Thrown (message : string).
Arguments Returned {A} a.
Arguments Thrown {A} message.

(** A response: [url] is the address after redirects, [text] what
    reading the body gives, [header] the [headers.get] lookup. *)
Record Response := {
  ok : bool;
  status : Z;
  statusText : string;
  url : string;
  text : outcome string;
  header : string -> option string;
}.

(** *** Numbers read from text

    [parseInt] on the captures that the patterns of this program hand
    to it, which start with decimal digits or are not numbers at all:
    the value of the leading digits, or NaN. *)

Inductive parsed :=
| ParsedNaN
| Parsed (z : Z).

Definition digitValue (c : ascii) : Z := Z.of_N (code c) - 48.

Fixpoint leadingDigits (acc : option Z) (s : string) : option Z :=
  match s with
  | String c s' =>
      if isDigit c
      then leadingDigits (Some (10 * default 0 acc + digitValue c)) s'
      else acc
  | EmptyString => acc
  end.

Definition parseInt (s : string) : parsed :=
  match leadingDigits None s with
  | Some z => Parsed z
  | None => ParsedNaN
  end.

(** Truthiness of a number that may be [undefined]. *)
Definition truthy (n : option parsed) : bool :=
  match n with
  | Some (Parsed z) => negb (z =? 0)
  | _ => false
  end.

(** The text a number takes inside a template string. *)
Definition showParsed (n : parsed) : string :=
  match n with
  | Parsed z => pretty z
  | ParsedNaN => "NaN"
  end.

(** [xs.join(sep)] *)
Definition join (sep : string) (xs : list string) : string := String.concat sep xs.

(** The number of occurrences of a non-empty [p] in [s]. *)
Fixpoint countOccurrences (s p : string) : nat :=
  match s with
  | EmptyString => 0
  | String _ s' => (if startsWith s p then 1 else 0) + countOccurrences s' p
  end.

(** *** A URL parser for plain URLs

    A stand-in for [new URL(u).hostname] on URLs of the plain shape
    [scheme://host] or [scheme://host/path], with an ASCII host name
    and no port, user info, query or fragment: there the host name is
    the lower-cased text between ["://"] and the next ["/"].  Every
    other string is rejected.  It is used to run the analyzers on
    concrete inputs; the properties are stated for every parser. *)

Fixpoint untilSlash (s : string) : string :=
  match s with
  | EmptyString => EmptyString
  | String c s' => if Ascii.eqb c "/" then EmptyString else String c (untilSlash s')
  end.

Definition plainHost (s : string) : option string :=
  let h := toLowerCase (untilSlash s) in
  if isEmpty h then None
  else if allChars (fun c => isLower c || isDigit c || oneOf ".-" c) h
  then Some h else None.

Definition plainHostname (u : string) : option string :=
  if startsWith u "https://" then plainHost (String.substring 8 (String.length u) u)
  else if startsWith u "http://" then plainHost (String.substring 7 (String.length u) u)
  else None.

End JS.

(** ** Automation-need scorer (src/scoring.ts) *)

Module Scoring.
Import JS.

Record ScoreInput := {
  rating : option number;
  user_ratings_total : option number;
  website : option string;
  phone : option string;
  business_status : option string;
}.

Record ScoreOutput := {
  score : Z;
  reasons : list string;
  signals : gmap string Z;
}.

Definition builderPenalty (website : string) : Z :=
  let w := toLowerCase website in
  if includes w "wixsite" ||
     includes w "wix.com" ||
     includes w "square.site" ||
     includes w "squarespace" ||
     includes w "weebly" ||
     includes w "godaddysites" ||
     includes w "webflow"
  then 8 else 0.

(** The three locals [score], [reasons] and [signals] that the body
    of the scorer updates in place. *)
Record tally := {
  t_score : Z;
  t_reasons : list string;
  t_signals : gmap string Z;
}.

Definition bump (key : string) (pts : Z) (t : tally) : tally :=
  {| t_score := t_score t + pts;
     t_reasons := t_reasons t;
     t_signals := <[key := pts]> (t_signals t) |}.

Definition note (reason : string) (t : tally) : tally :=
  {| t_score := t_score t;
     t_reasons := t_reasons t ++ [reason];
     t_signals := t_signals t |}.

(** 1) Website signal *)
Definition websiteSignal (website : string) (t : tally) : tally :=
  if isEmpty website then
    note "No website (big automation + marketing gap)" (bump "no_website" 25 t)
  else
    let bp := builderPenalty website in
    if 0 <? bp then
      note "Website looks like a site-builder (upgrade opportunity)"
           (bump "site_builder" bp t)
    else bump "has_website" 0 t.

(** 2) Reviews volume *)
Definition reviewTier (reviews : number) : Z * string :=
  if le reviews (ofZ 5) then
    (18, "Very low review volume (weak online footprint)")
  else if le reviews (ofZ 20) then
    (14, "Low review volume (weak online footprint)")
  else if le reviews (ofZ 60) then
    (10, "Moderate review volume (growth opportunity)")
  else if le reviews (ofZ 150) then
    (6, "Decent review volume (established presence)")
  else
    (2, "High review volume (strong presence)").

Definition reviewSignal (reviews : number) (t : tally) : tally :=
  let '(reviewPoints, reason) := reviewTier reviews in
  bump "low_reviews" reviewPoints (note reason t).

(** 3) Rating *)
Definition ratingTier (rating : number) : Z * string :=
  if gt rating (ofZ 0) then
    if lt rating (Fin 3.6) then
      (18, "Poor rating (major ops / CX gap)")
    else if lt rating (Fin 4.0) then
      (14, "Below average rating (ops / CX improvement needed)")
    else if lt rating (Fin 4.3) then
      (9, "Mediocre rating (ops / CX gap)")
    else if lt rating (Fin 4.6) then
      (4, "Good rating (minor improvement opportunities)")
    else
      (1, "Excellent rating (well-established business)")
  else
    (6, "No rating data (possible low activity / incomplete profile)").

Definition ratingSignal (rating : number) (t : tally) : tally :=
  let '(ratingPoints, reason) := ratingTier rating in
  bump "rating_gap" ratingPoints (note reason t).

(** 4) Missing phone *)
Definition phoneSignal (phone : string) (t : tally) : tally :=
  if isEmpty phone then
    note "No phone listed (conversion friction)" (bump "no_phone" 8 t)
  else bump "phone_present" 0 t.

(** 5) Discount for operational businesses *)
Definition operationalSignal (status : string) (t : tally) : tally :=
  if includes (toUpperCase status) "OPERATIONAL" then
    let t' := bump "operational" (-2) t in
    if 20 <? t_score t' then
      note "Currently operational (active business)" t'
    else t'
  else t.

Definition isPermanentlyClosed (status : string) : bool :=
  includes (toUpperCase status) "CLOSED_PERMANENTLY".

(** The state of the three locals just before the "Normalize" step,
    on the path that is not cut short. *)
Definition accumulate (input : ScoreInput) : tally :=
  let rating := default (ofZ 0) (rating input) in
  let reviews := default (ofZ 0) (user_ratings_total input) in
  let website := trim (default "" (website input)) in
  let phone := trim (default "" (phone input)) in
  let status := trim (default "" (business_status input)) in
  operationalSignal status
    (phoneSignal phone
      (ratingSignal rating
        (reviewSignal reviews
          (websiteSignal website
            {| t_score := 0; t_reasons := []; t_signals := ∅ |})))).

Definition computeAutomationNeedScoreDetailed (input : ScoreInput) : ScoreOutput :=
  let status := trim (default "" (business_status input)) in
  if isPermanentlyClosed status then
    {| score := 0;
       reasons := ["Permanently closed (skip)"];
       signals := {["closed" := 100]} |}
  else
    let t := accumulate input in
    let score := clamp (Math_round (inject_Z (t_score t))) 0 100 in
    let dedupReasons := Array_from_Set (t_reasons t) in
    let dedupReasons :=
      if (0 <? score) && (length dedupReasons =? 0)%nat
      then dedupReasons ++ ["Automation opportunity detected"]
      else dedupReasons in
    {| score := score; reasons := dedupReasons; signals := t_signals t |}.

Definition computeAutomationNeedScore (input : ScoreInput) : Z :=
  score (computeAutomationNeedScoreDetailed input).

End Scoring.


(** ** Website trust classifier (src/websiteVerification.ts) *)

Module WebsiteVerification.
Import JS.

Record WebsiteVerificationResult := {
  isValid : bool;
  isLikelySpam : bool;
  isSuspicious : bool;
  flags : list string;
  trustScore : Z;
}.

Definition SPAM_DOMAINS : list string :=
  ["bit.ly"; "tinyurl.com"; "goo.gl"; "ow.ly"; "short.link"; "spam-domain.com"].

Definition SUSPICIOUS_KEYWORDS : list string :=
  ["casino"; "viagra"; "porn"; "xxx"; "loan"; "crypto"; "bitcoin"; "pharma";
   "click here"; "buy now"; "limited time"].

Definition suspiciousTLDs : list string :=
  [".tk"; ".ml"; ".ga"; ".cf"; ".gq"; ".xyz"; ".top"; ".win"].

Definition isSpamDomain (domain : string) : bool :=
  some (fun spam => includes domain spam) SPAM_DOMAINS.

Definition hasSuspiciousKeywords (text : string) : bool :=
  let lower := toLowerCase text in
  some (fun kw => includes lower kw) SUSPICIOUS_KEYWORDS.

(** The pattern [^\d{1,3}\.\d{1,3}\.\d{1,3}\.\d{1,3}], open at the end. *)
Definition dottedQuad : regex :=
  let d := Class isDigit in
  let group := Cat d (Cat (opt d) (opt d)) in
  let dot := chr "." in
  Cat group (Cat dot (Cat group (Cat dot (Cat group (Cat dot (Cat group anything)))))).

Definition looksLikeIPv4 (s : string) : bool := matches dottedQuad s.

(** [if (guard) { flags.push(flag); trustScore -= pts; }] on the pair
    of locals [(flags, trustScore)]. *)
Definition penalize (guard : bool) (flag : string) (pts : Z)
    (st : list string * Z) : list string * Z :=
  if guard then (st.1 ++ [flag], st.2 - pts) else st.

Section WithURL.
(** [hostname u] is [new URL(u).hostname], or [None] when the
    constructor throws. *)
Variable hostname : string -> option string.

Definition extractDomain (url : string) : string :=
  match hostname (if startsWith url "http" then url else "https://" +:+ url) with
  | Some h => toLowerCase h
  | None => ""
  end.

Definition quickVerifyWebsite (url : option string) : WebsiteVerificationResult :=
  match url with
  | None =>
      {| isValid := false; isLikelySpam := false; isSuspicious := false;
         flags := ["No website provided"]; trustScore := 0 |}
  | Some url =>
      if isEmpty url || isEmpty (trim url) then
        {| isValid := false; isLikelySpam := false; isSuspicious := false;
           flags := ["No website provided"]; trustScore := 0 |}
      else
        let cleanUrl := trim url in
        let domain := extractDomain cleanUrl in
        if isEmpty domain then
          {| isValid := false; isLikelySpam := false; isSuspicious := true;
             flags := ["Invalid URL format"]; trustScore := 0 |}
        else
          let st := ([], 100) in
          let st := penalize (isSpamDomain domain)
                      "Known spam/redirect domain" 80 st in
          let st := penalize (some (fun tld => endsWith domain tld) suspiciousTLDs)
                      "Suspicious TLD" 30 st in
          let st := penalize (looksLikeIPv4 domain)
                      "IP address instead of domain" 50 st in
          let subdomains := splitChar "." domain in
          let st := penalize (4 <? length subdomains)%nat
                      "Excessive subdomains" 20 st in
          let st := penalize (hasSuspiciousKeywords cleanUrl)
                      "Contains suspicious keywords" 40 st in
          let st := penalize (200 <? String.length cleanUrl)%nat
                      "Unusually long URL" 15 st in
          let trustScore := Z.max 0 (Z.min 100 st.2) in
          {| isValid := 50 <=? trustScore;
             isLikelySpam := trustScore <? 30;
             isSuspicious := trustScore <? 50;
             flags := st.1; trustScore := trustScore |}
  end.
End WithURL.

End WebsiteVerification.

(** ** E-mail discovery (src/emailDiscovery.ts) *)

Module EmailDiscovery.
Import JS.

Inductive validation := valid | invalid | unknown.

Record EmailDiscoveryResult := {
  emails : list string;
  patterns : list string;
  confidence : gmap string Z;
  validationResults : gmap string validation;
  sources : gmap string string;
}.

Definition EMAIL_PATTERNS : list string :=
  ["info"; "contact"; "sales"; "hello"; "support"; "admin"; "office";
   "inquiries"; "team"; "mail"].

Fixpoint dropChars (n : nat) (s : string) : string :=
  match n, s with
  | S n', String _ s' => dropChars n' s'
  | _, _ => s
  end.

(** [h.replace(/^www\./, "")] *)
Definition stripWww (h : string) : string :=
  if startsWith h "www." then dropChars 4 h else h.

(** The pattern [^[a-zA-Z0-9._%+-]+@[a-zA-Z0-9.-]+\.[a-zA-Z]{2,}$]. *)
Definition emailFormat : regex :=
  let localChar := Class (fun c => isLetter c || isDigit c || oneOf "._%+-" c) in
  let hostChar := Class (fun c => isLetter c || isDigit c || oneOf ".-" c) in
  let letter := Class isLetter in
  Cat (plus localChar)
    (Cat (chr "@")
      (Cat (plus hostChar)
        (Cat (chr ".") (Cat letter (Cat letter (Star letter)))))).

Definition isValidEmailFormat (email : string) : bool := matches emailFormat email.

(** The filter that drops placeholder addresses and image names from
    the addresses matched in the page text. *)
Definition notJunk (email : string) : bool :=
  let lower := toLowerCase email in
  negb (includes lower "example.com") &&
  negb (includes lower "test.com") &&
  negb (includes lower "sample.com") &&
  negb (includes lower "domain.com") &&
  negb (includes lower "yoursite.com") &&
  negb (includes lower "yourdomain.com") &&
  negb (includes lower "noreply") &&
  negb (includes lower "no-reply") &&
  negb (includes lower "mailer-daemon") &&
  negb (includes lower "postmaster") &&
  negb (includes lower ".png") &&
  negb (includes lower ".jpg") &&
  negb (endsWith lower ".gif").

(** The local [cleanName] of [generateEmailPatterns]: the first word
    of the business name, lower-cased and stripped of punctuation. *)
Definition cleanName (businessName : string) : string :=
  firstField (trim (keepAlnumSpace (toLowerCase businessName))).

(** The part of an address after its first ["@"]. *)
Fixpoint afterAt (email : string) : string :=
  match email with
  | EmptyString => EmptyString
  | String c s => if Ascii.eqb c "@" then s else afterAt s
  end.

(** [email.split("@")[0]] *)
Definition beforeAt (email : string) : string :=
  default "" (head (splitChar "@" email)).

Definition scoreEmailConfidence (email : string) (source : option string)
    (validationResult : validation) (domain : string) : Z :=
  let score := 50 in
  let score :=
    if bool_decide (source = Some "scraped-mailto") then score + 30
    else if bool_decide (source = Some "scraped-html") then score + 20
    else if bool_decide (source = Some "pattern-common") then score + 10
    else score in
  let score :=
    match validationResult with
    | valid => score + 20
    | invalid => score - 40
    | unknown => score
    end in
  let prefix := toLowerCase (beforeAt email) in
  let score :=
    if bool_decide (prefix ∈ ["info"; "contact"; "hello"; "sales"]) then score + 15
    else if bool_decide (prefix ∈ ["support"; "admin"; "team"]) then score + 10
    else if bool_decide (prefix ∈ ["estimate"; "quote"; "service"]) then score + 8
    else score in
  let score := if includes email domain then score + 10 else score in
  Z.max 0 (Z.min 100 score).

(** [confidence[e] || 0] *)
Definition confidenceOf (confidence : gmap string Z) (e : string) : Z :=
  default 0 (confidence !! e).

Section WithPlatform.
(** [hostname u] is [new URL(u).hostname], [None] when it throws. *)
Variable hostname : string -> option string.
(** The page served at a URL, or the error [fetch] throws. *)
Variable fetch : string -> outcome Response.
(** [html.match(emailRegex)] with the global flag: every address-like
    text of the page, in order ([[]] for [null]). *)
Variable matchEmails : string -> list string.
(** The capture of every match of the [mailto:] pattern, in order. *)
Variable matchMailto : string -> list string.
(** The number of MX records of a domain, or the resolver's error. *)
Variable resolveMx : string -> outcome nat.

Definition extractDomain (website : string) : option string :=
  let url := if startsWith website "http" then website else "https://" +:+ website in
  match hostname url with
  | Some h => Some (stripWww h)
  | None => None
  end.

Definition generateEmailPatterns (businessName website : string) : list string :=
  let domain := extractDomain website in
  if falsy domain then []
  else
    let domain := default "" domain in
    let emails := map (fun prefix => prefix +:+ "@" +:+ domain) EMAIL_PATTERNS in
    let cleanName := cleanName businessName in
    let emails :=
      if negb (isEmpty cleanName) && (2 <? String.length cleanName)%nat
      then emails ++ [cleanName +:+ "@" +:+ domain;
                      "contact@" +:+ cleanName +:+ ".com"]
      else emails in
    let emails :=
      emails ++ ["estimate@" +:+ domain; "quote@" +:+ domain;
                 "service@" +:+ domain; "booking@" +:+ domain;
                 "appointments@" +:+ domain] in
    Array_from_Set emails.

Definition checkMXRecords (domain : string) : bool :=
  match resolveMx domain with
  | Returned n => (0 <? n)%nat
  | Thrown _ => false
  end.

(** The addresses pushed for a page: the text matches that pass the
    junk filter, then the [mailto:] targets. *)
Definition pageEmails (html : string) : list string :=
  filter (fun e => notJunk e = true) (matchEmails html) ++ matchMailto html.

Definition scrapeEmailsFromWebsite (website : string) : list string :=
  let url := if startsWith website "http" then website else "https://" +:+ website in
  match fetch url with
  | Thrown _ => []
  | Returned response =>
      if negb (ok response) then []
      else match text response with
           | Thrown _ => []
           | Returned html => Array_from_Set (pageEmails html)
           end
  end.

(** Step 1: the scraped addresses enter the set, all tagged alike. *)
Definition addScraped (st : list string * gmap string string) (email : string)
  : list string * gmap string string :=
  (Set_add st.1 (toLowerCase email),
   <[toLowerCase email := "scraped-html"]> st.2).

(** Step 2: the generated addresses enter the set, tagged unless
    already tagged. *)
Definition addPattern (st : list string * gmap string string) (email : string)
  : list string * gmap string string :=
  (Set_add st.1 (toLowerCase email),
   if falsy (st.2 !! toLowerCase email)
   then <[toLowerCase email := "pattern-common"]> st.2
   else st.2).

Definition collect (scrapedEmails patternEmails : list string)
  : list string * gmap string string :=
  foldl addPattern (foldl addScraped ([], ∅) scrapedEmails) patternEmails.

(** Step 3: one turn of the validation loop. *)
Definition validateOne (hasMX : bool) (domain : string)
    (sources : gmap string string)
    (st : gmap string Z * gmap string validation) (email : string)
  : gmap string Z * gmap string validation :=
  if negb (isValidEmailFormat email) then
    (<[email := 0]> st.1, <[email := invalid]> st.2)
  else
    let v := if negb hasMX then invalid else unknown in
    (<[email := scoreEmailConfidence email (sources !! email) v domain]> st.1,
     <[email := v]> st.2).

Definition byConfidence (confidence : gmap string Z) (a b : string) : Z :=
  confidenceOf confidence b - confidenceOf confidence a.

Definition notInvalid (validationResults : gmap string validation)
    (email : string) : bool :=
  match validationResults !! email with
  | Some invalid => false
  | _ => true
  end.

(** The array [emailArray] of [discoverEmails]: the set of candidate
    addresses in insertion order. *)
Definition emailArray (businessName website : string) : list string :=
  (collect (scrapeEmailsFromWebsite website)
           (generateEmailPatterns businessName website)).1.

Definition discoverEmails (businessName website : string) : EmailDiscoveryResult :=
  let domain := extractDomain website in
  if falsy domain then
    {| emails := []; patterns := []; confidence := ∅;
       validationResults := ∅; sources := ∅ |}
  else
    let domain := default "" domain in
    let scrapedEmails := scrapeEmailsFromWebsite website in
    let patternEmails := generateEmailPatterns businessName website in
    let '(allEmails, sources) := collect scrapedEmails patternEmails in
    let hasMX := checkMXRecords domain in
    let '(confidence, validationResults) :=
      foldl (validateOne hasMX domain sources) (∅, ∅) allEmails in
    let validEmails :=
      sort (byConfidence confidence)
           (filter (fun e => notInvalid validationResults e = true) allEmails) in
    {| emails := validEmails; patterns := patternEmails;
       confidence := confidence; validationResults := validationResults;
       sources := sources |}.

Definition getBestEmail (result : EmailDiscoveryResult) : option string :=
  if (length (emails result) =? 0)%nat then None
  else emails result !! 0%nat.

Definition getEmailsByConfidence (result : EmailDiscoveryResult)
    (minConfidence : Z) : list string :=
  filter (fun e => minConfidence <= confidenceOf (confidence result) e)
         (emails result).
End WithPlatform.

End EmailDiscovery.

(** ** Website intelligence extractor (src/websiteIntelligence.ts) *)

Module WebsiteIntelligence.
Import JS.

Record TechnologyStack := {
  cms : option string;
  analytics : option (list string);
  chatWidgets : option (list string);
  bookingSystems : option (list string);
}.

Record ContactMethods := {
  hasContactForm : bool;
  hasLiveChat : bool;
  hasBookingSystem : bool;
  hasPhoneClick : bool;
  contactFormUrl : option string;
  bookingUrl : option string;
}.

Record BusinessIntelligence := {
  employeeCount : option parsed;
  foundedYear : option parsed;
  certifications : option (list string);
  serviceAreas : option (list string);
}.

Record WebsiteIntelligenceResult := {
  technology : TechnologyStack;
  contactMethods : ContactMethods;
  businessIntel : BusinessIntelligence;
  completeness : Z;
  rawFindings : list string;
}.

Definition createEmptyResult (rawFindings : list string) : WebsiteIntelligenceResult :=
  {| technology := {| cms := None; analytics := None; chatWidgets := None;
                      bookingSystems := None |};
     contactMethods := {| hasContactForm := false; hasLiveChat := false;
                          hasBookingSystem := false; hasPhoneClick := false;
                          contactFormUrl := None; bookingUrl := None |};
     businessIntel := {| employeeCount := None; foundedYear := None;
                         certifications := None; serviceAreas := None |};
     completeness := 0;
     rawFindings := rawFindings |}.

Definition findingsOf (r : WebsiteIntelligenceResult) : list string := rawFindings r.

(** The all-empty snapshot: no technology, no contact method, no
    business fact, completeness 0. *)
Definition allEmpty (r : WebsiteIntelligenceResult) : Prop :=
  technology r = {| cms := None; analytics := None; chatWidgets := None;
                    bookingSystems := None |} /\
  contactMethods r = {| hasContactForm := false; hasLiveChat := false;
                        hasBookingSystem := false; hasPhoneClick := false;
                        contactFormUrl := None; bookingUrl := None |} /\
  businessIntel r = {| employeeCount := None; foundedYear := None;
                       certifications := None; serviceAreas := None |} /\
  completeness r = 0.

(** The patterns that are searched for in the page with captures. *)
Inductive pattern :=
| CalendlyLink
| ContactHref
| EmployeesCount | TeamOf | TeamMembers | StaffOf | Professionals
| TeamSection
| FoundedWord | CopyrightYear | YearRange
| Serving | WeServe
| CityNames.

(** [labelled lower table]: the labels whose keywords occur in the
    page, in table order; one row is one [if (...) xs.push(label)]. *)
Definition labelled (lower : string) (table : list (list string * string))
  : list string :=
  omap (fun row => if some (includes lower) row.1 then Some row.2 else None) table.

Definition detectAnalytics (html : string) : list string :=
  labelled (toLowerCase html)
    [ (["google-analytics"; "googletagmanager"], "Google Analytics");
      (["facebook.com/tr"; "fbevents"], "Facebook Pixel");
      (["hotjar"], "Hotjar");
      (["mixpanel"], "Mixpanel") ].

Definition detectChatWidgets (html : string) : list string :=
  labelled (toLowerCase html)
    [ (["intercom"; "intercomcdn"], "Intercom");
      (["drift.com"; "js.driftt.com"], "Drift");
      (["tawk.to"; "tawkto"], "Tawk.to");
      (["livechat"], "LiveChat");
      (["zendesk"; "zdassets"], "Zendesk Chat");
      (["crisp.chat"], "Crisp") ].

Definition commonCerts : list string :=
  ["BBB Accredited"; "Licensed & Insured"; "Certified"; "ISO Certified";
   "Insured"; "Bonded"; "Veteran Owned"; "Woman Owned"; "Minority Owned";
   "Green Certified"; "Energy Star Partner"].

Definition extractCertifications (html : string) : list string :=
  let lower := toLowerCase html in
  filter (fun cert => includes lower (toLowerCase cert) = true) commonCerts.

Section WithPlatform.
(** [search p s] is [s.match(p)] for a pattern without the global
    flag: the match followed by its captures, if any. *)
Variable search : pattern -> string -> option (list string).
(** [searchAll p s]: every successive match of a global pattern,
    each with its captures. *)
Variable searchAll : pattern -> string -> list (list string).
(** [new Date().getFullYear()] *)
Variable currentYear : Z.
Variable fetch : string -> outcome Response.

Definition capture (m : list string) : string := default "" (m !! 1%nat).

Definition detectCMS (html : string) (headers : string -> option string)
  : option string :=
  let lower := toLowerCase html in
  if includes lower "wp-content" || includes lower "wordpress" then Some "WordPress"
  else if includes lower "shopify" || includes lower "cdn.shopify.com" then Some "Shopify"
  else if includes lower "wixsite" || includes lower "wix.com" then Some "Wix"
  else if includes lower "squarespace" then Some "Squarespace"
  else if includes lower "webflow" then Some "Webflow"
  else if includes lower "weebly" then Some "Weebly"
  else if includes lower "godaddy" then Some "GoDaddy Website Builder"
  else
    match toLowerCase <$> headers "x-powered-by" with
    | Some serverHeader =>
        if isEmpty serverHeader then None
        else if includes serverHeader "wordpress" then Some "WordPress"
        else if includes serverHeader "wix" then Some "Wix"
        else None
    | None => None
    end.

Definition detectBookingSystems (html : string) : list string * list string :=
  let lower := toLowerCase html in
  let calendly := includes lower "calendly" in
  let urls :=
    if calendly then
      match search CalendlyLink html with
      | Some m => ["https://calendly.com/" +:+ capture m]
      | None => []
      end
    else [] in
  ((if calendly then ["Calendly"] else []) ++
   (if includes lower "acuityscheduling" then ["Acuity Scheduling"] else []) ++
   (if includes lower "squareup.com" && includes lower "appointments"
    then ["Square Appointments"] else []) ++
   (if includes lower "scheduleonce" || includes lower "oncehub"
    then ["ScheduleOnce"] else []) ++
   (if includes lower "setmore" then ["Setmore"] else []) ++
   (if includes lower "simplybook" then ["SimplyBook.me"] else []),
   urls).

Definition detectContactForm (html : string) : bool * option string :=
  let lower := toLowerCase html in
  let hasForm :=
    includes lower "<form" || includes lower "contact" ||
    includes lower "get in touch" || includes lower "send message" in
  (hasForm, capture <$> search ContactHref html).

(** The first pattern of the list that matches, with its match. *)
Fixpoint firstMatch (ps : list pattern) (s : string) : option (list string) :=
  match ps with
  | [] => None
  | p :: ps' =>
      match search p s with
      | Some m => Some m
      | None => firstMatch ps' s
      end
  end.

Definition extractEmployeeCount (html : string) : option parsed :=
  match firstMatch [EmployeesCount; TeamOf; TeamMembers; StaffOf; Professionals] html with
  | Some m => Some (parseInt (capture m))
  | None =>
      match search TeamSection html with
      | Some m =>
          let imgCount :=
            countOccurrences (toLowerCase (default "" (m !! 0%nat))) "<img" in
          if (3 <=? imgCount)%nat && (imgCount <=? 100)%nat
          then Some (Parsed (Z.of_nat imgCount))
          else None
      | None => None
      end
  end.

Fixpoint firstYear (ps : list pattern) (html : string) : option parsed :=
  match ps with
  | [] => None
  | p :: ps' =>
      match search p html with
      | Some m =>
          match parseInt (capture m) with
          | Parsed year =>
              if (1900 <=? year) && (year <=? currentYear)
              then Some (Parsed year)
              else firstYear ps' html
          | ParsedNaN => firstYear ps' html
          end
      | None => firstYear ps' html
      end
  end.

Definition extractFoundedYear (html : string) : option parsed :=
  firstYear [FoundedWord; CopyrightYear; YearRange] html.

Definition extractServiceAreas (html : string) : list string :=
  let citiesOf (m : list string) : list string :=
    (fun c => default "" (c !! 0%nat)) <$> searchAll CityNames (capture m) in
  let areas :=
    concat (citiesOf <$> searchAll Serving html) ++
    concat (citiesOf <$> searchAll WeServe html) in
  take 10 (Array_from_Set areas).

(** [if (cond) rawFindings.push(line)] *)
Definition finding (cond : bool) (line : string) (rawFindings : list string)
  : list string :=
  if cond then rawFindings ++ [line] else rawFindings.

Definition nonEmpty {A} (l : list A) : bool := negb (length l =? 0)%nat.

(** The part of the [try] block that follows a successful read of
    the body; nothing in it can throw. *)
Definition analyse (html : string) (headers : string -> option string)
    (rawFindings : list string) : WebsiteIntelligenceResult :=
  let rawFindings :=
    rawFindings ++
    ["Fetched " +:+
     pretty (Math_round (Z.of_nat (String.length html) # 1024)) +:+ "KB of HTML"] in
  let cms := detectCMS html headers in
  let analytics := detectAnalytics html in
  let chatWidgets := detectChatWidgets html in
  let booking := detectBookingSystems html in
  let rawFindings := finding (negb (falsy cms)) ("CMS: " +:+ default "" cms) rawFindings in
  let rawFindings := finding (nonEmpty analytics)
                       ("Analytics: " +:+ join ", " analytics) rawFindings in
  let rawFindings := finding (nonEmpty chatWidgets)
                       ("Chat: " +:+ join ", " chatWidgets) rawFindings in
  let rawFindings := finding (nonEmpty booking.1)
                       ("Booking: " +:+ join ", " booking.1) rawFindings in
  let contactForm := detectContactForm html in
  let hasLiveChat := nonEmpty chatWidgets in
  let hasBookingSystem := nonEmpty booking.1 in
  let hasPhoneClick := includes (toLowerCase html) "tel:" in
  let employeeCount := extractEmployeeCount html in
  let foundedYear := extractFoundedYear html in
  let certifications := extractCertifications html in
  let serviceAreas := extractServiceAreas html in
  let rawFindings := finding (truthy employeeCount)
                       ("Employees: ~" +:+ showParsed (default ParsedNaN employeeCount))
                       rawFindings in
  let rawFindings := finding (truthy foundedYear)
                       ("Founded: " +:+ showParsed (default ParsedNaN foundedYear))
                       rawFindings in
  let rawFindings := finding (nonEmpty certifications)
                       ("Certs: " +:+ join ", " certifications) rawFindings in
  let rawFindings := finding (nonEmpty serviceAreas)
                       ("Service areas: " +:+ pretty (length serviceAreas) +:+ " found")
                       rawFindings in
  let completeness :=
    (if negb (falsy cms) then 15 else 0) +
    (if nonEmpty analytics then 10 else 0) +
    (if contactForm.1 then 15 else 0) +
    (if hasLiveChat then 10 else 0) +
    (if hasBookingSystem then 15 else 0) +
    (if truthy employeeCount then 15 else 0) +
    (if truthy foundedYear then 10 else 0) +
    (if nonEmpty certifications then 10 else 0) in
  {| technology := {| cms := cms; analytics := Some analytics;
                      chatWidgets := Some chatWidgets;
                      bookingSystems := Some booking.1 |};
     contactMethods := {| hasContactForm := contactForm.1;
                          hasLiveChat := hasLiveChat;
                          hasBookingSystem := hasBookingSystem;
                          hasPhoneClick := hasPhoneClick;
                          contactFormUrl := contactForm.2;
                          bookingUrl := head booking.2 |};
     businessIntel := {| employeeCount := employeeCount;
                         foundedYear := foundedYear;
                         certifications := Some certifications;
                         serviceAreas := Some serviceAreas |};
     completeness := Z.min 100 completeness;
     rawFindings := rawFindings |}.

(** The [try] block: the shared array [rawFindings] is threaded
    through, so that what was pushed before a throw is still there
    in the handler. *)
Definition tryBlock (website : string) (rawFindings : list string)
  : outcome WebsiteIntelligenceResult * list string :=
  let url := if startsWith website "http" then website else "https://" +:+ website in
  let rawFindings := rawFindings ++ ["Fetching " +:+ url +:+ "..."] in
  match fetch url with
  | Thrown err => (Thrown err, rawFindings)
  | Returned response =>
      if negb (ok response) then
        let rawFindings :=
          rawFindings ++
          ["HTTP " +:+ pretty (status response) +:+ ": " +:+ statusText response] in
        (Returned (createEmptyResult rawFindings), rawFindings)
      else
        match text response with
        | Thrown err => (Thrown err, rawFindings)
        | Returned html =>
            let r := analyse html (header response) rawFindings in
            (Returned r, findingsOf r)
        end
  end.

(** What the caller of [extractWebsiteIntelligence] gets: a result,
    or an exception that escaped. *)
Definition extractWebsiteIntelligence (website : string)
  : outcome WebsiteIntelligenceResult :=
  match tryBlock website [] with
  | (Returned r, _) => Returned r
  | (Thrown message, rawFindings) =>
      Returned (createEmptyResult (rawFindings ++ ["Error: " +:+ message]))
  end.
End WithPlatform.

End WebsiteIntelligence.

(** ** Social profile verifier (src/socialVerifier.ts) *)

Module SocialVerifier.
Import JS.

Inductive platform := linkedin | facebook | instagram | twitter | yelp | bbb.

#[global] Instance platform_eq_dec : EqDecision platform.
Proof. solve_decision. Defined.

(** The [metrics] of a profile are absent or [null] ([None]), or an
    object whose [followers] may be undefined. *)
Record Metrics := { followers : option parsed }.

Record VerifiedSocialProfile := {
  url : string;
  platform_ : platform;
  exists_ : bool;
  confidence : Z;
  metrics : option Metrics;
}.

Record Summary := {
  totalFound : nat;
  platforms : list platform;
  bestProfile : option string;
}.

Record SocialVerificationResult := {
  profiles : list VerifiedSocialProfile;
  summary : Summary;
}.

Definition suffixWords : list string :=
  ["llc"; "inc"; "corp"; "ltd"; "limited"; "company"; "co"; "group"].

(** Whether [s] has the shape [\s+(llc|inc|...|group)\s*$]. *)
Definition isSuffixTail (s : string) : bool :=
  match s with
  | String c _ =>
      isSpace c &&
      bool_decide (trimEnd (trimStart s) ∈ suffixWords)
  | EmptyString => false
  end.

(** [s.replace(/\s+(llc|inc|corp|ltd|limited|company|co|group)\s*$/i, "")]
    on a lower-case name: the leftmost tail of that shape is cut. *)
Fixpoint stripSuffix (s : string) : string :=
  if isSuffixTail s then EmptyString
  else match s with
       | EmptyString => EmptyString
       | String c s' => String c (stripSuffix s')
       end.

Definition cleanName (businessName : string) : string :=
  keepAlnumSpace (toLowerCase businessName).

Definition withFirstWord (base tail : string) (clean : string) : list string :=
  let firstWord := firstField clean in
  if negb (isEmpty firstWord) && (2 <? String.length firstWord)%nat
  then [base +:+ firstWord +:+ tail] else [].

Definition linkedInBase : string := "https://www.linkedin.com/company/".
Definition facebookBase : string := "https://www.facebook.com/".
Definition instagramBase : string := "https://www.instagram.com/".

Definition generateLinkedInUrls (businessName : string) : list string :=
  let clean := cleanName businessName in
  let slug1 := replaceSpaceRuns "-" clean in
  let slug3 := replaceSpaceRuns "" clean in
  let withoutSuffixes := replaceSpaceRuns "-" (stripSuffix clean) in
  Array_from_Set
    ([linkedInBase +:+ slug1] ++
     withFirstWord linkedInBase "" clean ++
     [linkedInBase +:+ slug3; linkedInBase +:+ withoutSuffixes]).

Definition generateFacebookUrls (businessName : string) : list string :=
  let clean := cleanName businessName in
  let slug1 := replaceSpaceRuns "" clean in
  let slug2 := replaceSpaceRuns "." clean in
  Array_from_Set
    ([facebookBase +:+ slug1; facebookBase +:+ slug2] ++
     withFirstWord facebookBase "" clean).

Definition generateInstagramUrls (businessName : string) : list string :=
  let clean := cleanName businessName in
  let slug1 := replaceSpaceRuns "_" clean in
  let slug2 := replaceSpaceRuns "" clean in
  Array_from_Set
    ([instagramBase +:+ slug1 +:+ "/"; instagramBase +:+ slug2 +:+ "/"] ++
     withFirstWord instagramBase "/" clean).

(** *** The network, as a trace of requests

    Every request and every pause of a run is recorded, oldest first.
    What the network answers may depend on everything that happened
    before. *)

Inductive event :=
| Get (url : string)
| Head (url : string)
| Sleep (ms : Z).

Abbreviation trace := (list event).

Definition M (A : Type) : Type := trace -> A * trace.

Definition ret {A} (a : A) : M A := fun t => (a, t).
Definition bind {A B} (m : M A) (k : A -> M B) : M B :=
  fun t => let '(a, t') := m t in k a t'.
Definition emit (e : event) : M unit := fun t => (tt, t ++ [e]).
Definition history : M trace := fun t => (t, t).

Notation "x <- m ;; k" := (bind m (fun x => k))
  (at level 100, m at next level, right associativity).
Notation "m ;;; k" := (bind m (fun _ => k))
  (at level 100, right associativity).

(** The platform whose profile pages a URL belongs to, for the three
    platforms that are probed. *)
Definition probedPlatform (u : string) : option platform :=
  if startsWith u linkedInBase then Some linkedin
  else if startsWith u facebookBase then Some facebook
  else if startsWith u instagramBase then Some instagram
  else None.

Definition isProbeOf (p : platform) (e : event) : bool :=
  match e with
  | Head u => bool_decide (probedPlatform u = Some p)
  | _ => false
  end.

(** The number of existence probes sent to a platform. *)
Definition probeCount (p : platform) (t : trace) : nat :=
  length (filter (fun e => isProbeOf p e = true) t).

(** A computation [appends P] when all it does to the trace is to
    add events that satisfy [P]. *)
Definition appends {A} (m : M A) (P : event -> Prop) : Prop :=
  forall t, exists evs, (m t).2 = t ++ evs /\ Forall P evs.

(** An event that is not an existence probe of platform [p]. *)
Definition notProbeOf (p : platform) (e : event) : Prop := isProbeOf p e = false.

(** The follower patterns of the metrics scrapers. *)
Inductive followerPattern := LinkedInFollowers | FacebookFollowers.

Section WithPlatform.
(** The answers of the network to [GET] and [HEAD], given the past. *)
Variable httpGet : trace -> string -> outcome Response.
Variable httpHead : trace -> string -> outcome Response.
(** The capture of the profile-link pattern of a platform in a
    page, if the pattern matches. *)
Variable profileLink : platform -> string -> option string.
(** The capture of a follower pattern in a page. *)
Variable followerText : followerPattern -> string -> option string.

Definition fetchGet (u : string) : M (outcome Response) :=
  t <- history ;; emit (Get u) ;;; ret (httpGet t u).

Definition fetchHead (u : string) : M (outcome Response) :=
  t <- history ;; emit (Head u) ;;; ret (httpHead t u).

Definition sleep (ms : Z) : M unit := emit (Sleep ms).

(** Only the [exists] field of the answer is read by the callers. *)
Definition checkUrlExists (u : string) : M bool :=
  r <- fetchHead u ;;
  ret match r with
      | Returned response => ok response
      | Thrown _ => false
      end.

Definition removeCommas (s : string) : string :=
  String.concat "" (splitChar "," s).

Definition scrapeLinkedInMetrics (u : string) : M (option Metrics) :=
  r <- fetchGet u ;;
  ret match r with
      | Thrown _ => None
      | Returned response =>
          if negb (ok response) then None
          else match text response with
               | Thrown _ => None
               | Returned html =>
                   Some {| followers :=
                             (fun m => parseInt (removeCommas m)) <$>
                             followerText LinkedInFollowers html |}
               end
      end.

(** The count of a Facebook page: the capture starts with digits and
    holds no decimal point, so [parseFloat] reads its leading digits. *)
Definition facebookCount (m : string) : parsed :=
  let value := toLowerCase m in
  let scaled (k : Z) :=
    match parseInt value with
    | Parsed z => Parsed (z * k)
    | ParsedNaN => ParsedNaN
    end in
  if includes value "k" then scaled 1000
  else if includes value "m" then scaled 1000000
  else parseInt (removeCommas value).

Definition scrapeFacebookMetrics (u : string) : M (option Metrics) :=
  r <- fetchGet u ;;
  ret match r with
      | Thrown _ => None
      | Returned response =>
          if negb (ok response) then None
          else match text response with
               | Thrown _ => None
               | Returned html =>
                   Some {| followers :=
                             facebookCount <$> followerText FacebookFollowers html |}
               end
      end.

(** The loop shared by the three verifiers: probe the candidates in
    order, stop at the first that exists, pause after each miss. *)
Fixpoint probeInOrder (found : string -> M VerifiedSocialProfile)
    (urls : list string) : M (option VerifiedSocialProfile) :=
  match urls with
  | [] => ret None
  | u :: rest =>
      present <- checkUrlExists u ;;
      if present then
        p <- found u ;; ret (Some p)
      else
        sleep 500 ;;; probeInOrder found rest
  end.

Definition verifyLinkedIn (businessName : string) : M (option VerifiedSocialProfile) :=
  probeInOrder
    (fun u =>
       metrics <- scrapeLinkedInMetrics u ;;
       ret {| url := u; platform_ := linkedin; exists_ := true;
              confidence := 85; metrics := metrics |})
    (generateLinkedInUrls businessName).

Definition verifyFacebook (businessName : string) : M (option VerifiedSocialProfile) :=
  probeInOrder
    (fun u =>
       metrics <- scrapeFacebookMetrics u ;;
       ret {| url := u; platform_ := facebook; exists_ := true;
              confidence := 80; metrics := metrics |})
    (generateFacebookUrls businessName).

Definition verifyInstagram (businessName : string) : M (option VerifiedSocialProfile) :=
  probeInOrder
    (fun u =>
       ret {| url := u; platform_ := instagram; exists_ := true;
              confidence := 75; metrics := None |})
    (generateInstagramUrls businessName).

Definition linkedProfile (html : string) (p : platform) : list VerifiedSocialProfile :=
  match profileLink p html with
  | Some link =>
      [{| url := link; platform_ := p; exists_ := true;
          confidence := 95; metrics := None |}]
  | None => []
  end.

Definition extractSocialsFromWebsite (website : string)
  : M (list VerifiedSocialProfile) :=
  let u := if startsWith website "http" then website else "https://" +:+ website in
  r <- fetchGet u ;;
  ret match r with
      | Thrown _ => []
      | Returned response =>
          if negb (ok response) then []
          else match text response with
               | Thrown _ => []
               | Returned html =>
                   linkedProfile html linkedin ++
                   linkedProfile html facebook ++
                   linkedProfile html instagram ++
                   linkedProfile html twitter
               end
      end.

(** [profiles.find((p) => p.platform === q)] as a test. *)
Definition hasPlatform (q : platform) (profiles : list VerifiedSocialProfile) : bool :=
  some (fun p => bool_decide (platform_ p = q)) profiles.

(** Steps 2 to 4: run a verifier unless the platform is there. *)
Definition unlessFound (q : platform)
    (verify : M (option VerifiedSocialProfile))
    (profiles : list VerifiedSocialProfile) : M (list VerifiedSocialProfile) :=
  if hasPlatform q profiles then ret profiles
  else
    found <- verify ;;
    ret match found with
        | Some p => profiles ++ [p]
        | None => profiles
        end.

Definition websiteStep (website : option string) : M (list VerifiedSocialProfile) :=
  if falsy website then ret []
  else extractSocialsFromWebsite (default "" website).

Definition verifySocialProfiles (businessName : string) (website : option string)
  : M SocialVerificationResult :=
  profiles <- websiteStep website ;;
  profiles <- unlessFound linkedin (verifyLinkedIn businessName) profiles ;;
  profiles <- unlessFound facebook (verifyFacebook businessName) profiles ;;
  profiles <- unlessFound instagram (verifyInstagram businessName) profiles ;;
  let profiles := sort (fun a b => confidence b - confidence a) profiles in
  ret {| profiles := profiles;
         summary := {| totalFound := length profiles;
                       platforms := platform_ <$> profiles;
                       bestProfile := url <$> head profiles |} |}.
End WithPlatform.

End SocialVerifier.

(** ** Score filter of the orchestrator (src/googlePlaces.ts) *)

Module Pipeline.
Import JS Scoring.

(** [typeof config.minScore === "number" && scored.score < config.minScore]:
    the candidate is skipped and not persisted. *)
Definition skippedForScore (minScore : option number) (input : ScoreInput) : bool :=
  match minScore with
  | Some m => lt (ofZ (score (computeAutomationNeedScoreDetailed input))) m
  | None => false
  end.

End Pipeline.

(** ** Deep website verification (src/websiteVerification.ts) *)

Module DeepVerification.
Import JS WebsiteVerification.

Record Details := {
  hasValidSSL : bool;
  statusCode : Z;
  contentType : option string;
  finalUrl : string;
  redirectCount : Z;
}.

(** A verdict with its [details]; [None] stands for the empty object. *)
Record DeepResult := {
  verdict : WebsiteVerificationResult;
  details : option Details;
}.

(** What the [HEAD] request gives: a response, or an error with its
    [name] and [message]. *)
Inductive fetched :=
| Answered (response : Response)
| Failed (name message : string).

(** [x || undefined] for a header value. *)
Definition orUndefined (x : option string) : option string :=
  if falsy x then None else x.

Section WithPlatform.
Variable hostname : string -> option string.
Variable fetchHead : string -> fetched.

Definition deepVerifyWebsite (url : string) : DeepResult :=
  let quickCheck := quickVerifyWebsite hostname (Some url) in
  if isLikelySpam quickCheck then {| verdict := quickCheck; details := None |}
  else
    let st := (flags quickCheck, trustScore quickCheck) in
    match fetchHead (if startsWith url "http" then url else "https://" +:+ url) with
    | Answered response =>
        let details :=
          {| hasValidSSL := startsWith (JS.url response) "https://";
             statusCode := status response;
             contentType := orUndefined (header response "content-type");
             finalUrl := JS.url response;
             redirectCount := 0 |} in
        let st :=
          if status response =? 404 then
            penalize true "Website not found (404)" 50 st
          else
            penalize (400 <=? status response)
              ("HTTP error: " +:+ pretty (status response)) 30 st in
        let st := penalize (negb (hasValidSSL details)) "No HTTPS/SSL" 20 st in
        let st :=
          penalize (negb (String.eqb (finalUrl details) url) &&
                    negb (startsWith (finalUrl details) url))
            "Suspicious redirect" 25 st in
        let trustScore := Z.max 0 (Z.min 100 st.2) in
        {| verdict := {| isValid := 50 <=? trustScore;
                         isLikelySpam := trustScore <? 30;
                         isSuspicious := trustScore <? 50;
                         flags := st.1; trustScore := trustScore |};
           details := Some details |}
    | Failed name message =>
        let st :=
          if String.eqb name "AbortError" then
            penalize true "Request timeout" 20 st
          else
            penalize true ("Fetch error: " +:+ message) 15 st in
        {| verdict := {| isValid := 50 <=? st.2;
                         isLikelySpam := false;
                         isSuspicious := true;
                         flags := st.1; trustScore := st.2 |};
           details := None |}
    end.
End WithPlatform.

End DeepVerification.

(** ** Validation of one address (src/emailDiscovery.ts) *)

Module EmailValidation.
Import JS EmailDiscovery.

Section WithPlatform.
Variable resolveMx : string -> outcome nat.

(** [email.split("@")[1]] is [undefined] when there is no ["@"]; the
    resolver then throws inside [checkMXRecords], which answers false. *)
Definition validateEmailSMTP (email : string) : validation :=
  if negb (isValidEmailFormat email) then invalid
  else
    let hasMX :=
      match splitChar "@" email !! 1%nat with
      | Some domain => checkMXRecords resolveMx domain
      | None => false
      end in
    if negb hasMX then invalid else unknown.
End WithPlatform.

End EmailValidation.

(** ** The orchestrator (src/googlePlaces.ts) *)

Module Orchestrator.
Import JS Scoring WebsiteVerification.

(** A search result, with the fields that the decisions of the pipeline
    read (the address, the geometry and the types are only passed on). *)
Record SearchResult := {
  result_place_id : string;
  result_name : string;
  result_rating : option number;
  result_user_ratings_total : option number;
  result_business_status : option string;
}.

Record PlaceResult := {
  place_id : string;
  name : string;
  place_rating : option number;
  place_user_ratings_total : option number;
  place_website : option string;
  formatted_phone_number : option string;
  place_business_status : option string;
}.

(** The fields a details lookup may add; [None] is a field that the
    answer does not hold. *)
Record PlaceDetails := {
  details_website : option string;
  details_phone : option string;
  details_business_status : option string;
}.

(** The policy part of [SearchConfig]. *)
Record SearchConfig := {
  minScore : option number;
  enrichEmails : bool;
  enrichSocial : bool;
  enrichIntelligence : bool;
  skipSuspicious : bool;
}.

Record Counters := {
  totalSeen : nat;
  totalInserted : nat;
  totalSkippedSpam : nat;
  totalSkippedScore : nat;
}.

Inductive fate := SkippedSpam | SkippedScore | Saved.

#[global] Instance fate_eq_dec : EqDecision fate.
Proof. solve_decision. Defined.

(** One field of [{ ...base, ...details }]. *)
Definition spread {A} (base details : option A) : option A :=
  match details with
  | Some v => Some v
  | None => base
  end.

(** The object [base]: it has no website and no phone. *)
Definition baseOf (r : SearchResult) : PlaceResult :=
  {| place_id := result_place_id r;
     name := result_name r;
     place_rating := result_rating r;
     place_user_ratings_total := result_user_ratings_total r;
     place_website := None;
     formatted_phone_number := None;
     place_business_status := result_business_status r |}.

Definition merge (base : PlaceResult) (details : PlaceDetails) : PlaceResult :=
  {| place_id := place_id base;
     name := name base;
     place_rating := place_rating base;
     place_user_ratings_total := place_user_ratings_total base;
     place_website := spread (place_website base) (details_website details);
     formatted_phone_number :=
       spread (formatted_phone_number base) (details_phone details);
     place_business_status :=
       spread (place_business_status base) (details_business_status details) |}.

Definition noDetails : PlaceDetails :=
  {| details_website := None; details_phone := None;
     details_business_status := None |}.

Section WithPlatform.
Variable hostname : string -> option string.
(** The details lookup of a place, or the error it throws. *)
Variable googlePlaceDetails : string -> outcome PlaceDetails.
(** The results of a page and the token of the next one, or the error
    the search throws; the first page is asked for without a token. *)
Variable googleTextSearchPage :
  option string -> outcome (list SearchResult * option string).

(** [merged]: a failed lookup leaves [details] empty. *)
Definition lookUp (r : SearchResult) : PlaceResult :=
  match googlePlaceDetails (result_place_id r) with
  | Returned details => merge (baseOf r) details
  | Thrown _ => merge (baseOf r) noDetails
  end.

(** [websiteVerification]: the verdict, or [null] without a website. *)
Definition websiteVerification (merged : PlaceResult) : option WebsiteVerificationResult :=
  if falsy (place_website merged) then None
  else Some (quickVerifyWebsite hostname (place_website merged)).

(** [websiteVerification?.isValid], as a condition. *)
Definition verifiedValid (merged : PlaceResult) : bool :=
  match websiteVerification merged with
  | Some v => isValid v
  | None => false
  end.

Definition skipsAsSpam (config : SearchConfig) (merged : PlaceResult) : bool :=
  match websiteVerification merged with
  | Some v => skipSuspicious config && isLikelySpam v
  | None => false
  end.

(** The guards of the three enrichment steps, which a candidate reaches
    when it is not skipped as spam. *)
Definition emailGuard (config : SearchConfig) (merged : PlaceResult) : bool :=
  enrichEmails config && negb (falsy (place_website merged)) && verifiedValid merged.

Definition socialGuard (config : SearchConfig) (merged : PlaceResult) : bool :=
  enrichSocial config.

Definition intelligenceGuard (config : SearchConfig) (merged : PlaceResult) : bool :=
  enrichIntelligence config && negb (falsy (place_website merged)) && verifiedValid merged.

Definition scoreInput (merged : PlaceResult) : ScoreInput :=
  {| rating := place_rating merged;
     user_ratings_total := place_user_ratings_total merged;
     website := place_website merged;
     phone := formatted_phone_number merged;
     business_status := place_business_status merged |}.

(** What becomes of one result: skipped as spam before any enrichment,
    skipped for its score after it, or handed to the datastore. *)
Definition candidateFate (config : SearchConfig) (r : SearchResult) : fate :=
  let merged := lookUp r in
  if skipsAsSpam config merged then SkippedSpam
  else if Pipeline.skippedForScore (minScore config) (scoreInput merged) then SkippedScore
  else Saved.

(** One turn of the loop over the results of a page. *)
Definition countCandidate (config : SearchConfig) (c : Counters) (r : SearchResult)
  : Counters :=
  let seen := S (totalSeen c) in
  match candidateFate config r with
  | SkippedSpam =>
      {| totalSeen := seen; totalInserted := totalInserted c;
         totalSkippedSpam := S (totalSkippedSpam c);
         totalSkippedScore := totalSkippedScore c |}
  | SkippedScore =>
      {| totalSeen := seen; totalInserted := totalInserted c;
         totalSkippedSpam := totalSkippedSpam c;
         totalSkippedScore := S (totalSkippedScore c) |}
  | Saved =>
      {| totalSeen := seen; totalInserted := S (totalInserted c);
         totalSkippedSpam := totalSkippedSpam c;
         totalSkippedScore := totalSkippedScore c |}
  end.

Definition countPage (config : SearchConfig) (c : Counters) (results : list SearchResult)
  : Counters :=
  foldl (countCandidate config) c results.

(** The loop over pages, [pagesLeft] pages before its end.  It returns
    the counters and the number of pages fetched, or the error of a
    search, which ends the run. *)
Fixpoint searchPages (config : SearchConfig) (pagesLeft : nat)
    (nextToken : option string) (c : Counters) (fetched : nat)
  : outcome (Counters * nat) :=
  match pagesLeft with
  | O => Returned (c, fetched)
  | S pagesLeft' =>
      match googleTextSearchPage nextToken with
      | Thrown err => Thrown err
      | Returned (results, next_page_token) =>
          if (length results =? 0)%nat then Returned (c, S fetched)
          else
            let c := countPage config c results in
            if falsy next_page_token then Returned (c, S fetched)
            else searchPages config pagesLeft' next_page_token c (S fetched)
      end
  end.

Definition runPlacesSearch (config : SearchConfig) (maxPages : nat)
  : outcome (Counters * nat) :=
  searchPages config maxPages None
    {| totalSeen := 0; totalInserted := 0; totalSkippedSpam := 0;
       totalSkippedScore := 0 |} 0.
End WithPlatform.

End Orchestrator.

(** ** Measures used to state properties *)

Module Measures.
Import JS Scoring SocialVerifier.

(** The sum of the contributions recorded in a signals map. *)
Definition signalTotal (signals : gmap string Z) : Z :=
  map_fold (fun _ points total => total + points) 0 signals.

(** The points of the website, phone and operating-status signals. *)
Definition websitePoints (website : string) : Z :=
  if isEmpty website then 25 else builderPenalty website.
Definition phonePoints (phone : string) : Z :=
  if isEmpty phone then 8 else 0.
Definition operationalPoints (status : string) : Z :=
  if includes (toUpperCase status) "OPERATIONAL" then -2 else 0.

(** Whether the scorer takes its short cut on an input. *)
Definition closedInput (input : ScoreInput) : bool :=
  isPermanentlyClosed (trim (default "" (business_status input))).

(** The counters account for every result seen. *)
Definition addsUp (c : Orchestrator.Counters) : Prop :=
  Orchestrator.totalSeen c
  = (Orchestrator.totalInserted c + Orchestrator.totalSkippedSpam c
     + Orchestrator.totalSkippedScore c)%nat.

(** The number of results of a page that meet a given fate. *)
Definition fateCount (fateOf : Orchestrator.SearchResult -> Orchestrator.fate)
    (f : Orchestrator.fate) (results : list Orchestrator.SearchResult) : nat :=
  length (filter (fun r => fateOf r = f) results).

(** Whether a string starts with whitespace. *)
Definition leadingSpace (s : string) : bool :=
  match s with
  | String c _ => isSpace c
  | EmptyString => false
  end.

Definition isHead (e : event) : bool :=
  match e with
  | Head _ => true
  | _ => false
  end.

(** The number of [HEAD] requests of a trace. *)
Definition headCount (t : list event) : nat :=
  length (filter (fun e => isHead e = true) t).

(** A name that has no ASCII letter, digit or whitespace. *)
Definition symbolsOnly (businessName : string) : Prop :=
  allChars (fun c => negb (isLetter c || isDigit c || isSpace c)) businessName = true.

(** A profile as the verifier builds them: it exists, and its confidence
    is 95 when it was linked on the website and otherwise the fixed
    confidence of its platform. *)
Definition knownTier (p : VerifiedSocialProfile) : Prop :=
  exists_ p = true /\
  (confidence p = 95 \/
   (platform_ p = linkedin /\ confidence p = 85) \/
   (platform_ p = facebook /\ confidence p = 80) \/
   (platform_ p = instagram /\ confidence p = 75)).

(** A computation that only adds to the trace, and at most [n] requests
    of kind [HEAD]. *)
Definition appendsAtMost {A} (m : M A) (n : nat) : Prop :=
  forall t, exists evs, (m t).2 = t ++ evs /\ (headCount evs <= n)%nat.

End Measures.

Module EmailMeasures.
Import JS EmailDiscovery.

(** The validation result that the loop of [discoverEmails] writes for
    an address. *)
Definition verdictOf (hasMX : bool) (email : string) : validation :=
  if negb (isValidEmailFormat email) then invalid
  else if negb hasMX then invalid else unknown.

(** The two source tags that [discoverEmails] hands out. *)
Definition knownSource (source : string) : Prop :=
  source = "scraped-html" \/ source = "pattern-common".

(** The state of the candidate set and of the source tags while the
    addresses are collected: every candidate has a tag, and every tag is
    one of the two. *)
Definition collected (st : list string * gmap string string) : Prop :=
  (forall e, e ∈ st.1 -> is_Some (st.2 !! e)) /\
  (forall k v, st.2 !! k = Some v -> knownSource v).

End EmailMeasures.

(** ** Concrete inputs and environments *)

Module Examples.
Import JS.

(** The candidate of the end-to-end example: no website, 3 reviews,
    rating 3.2, no phone, operational. *)
Definition candidate67 : Scoring.ScoreInput :=
  {| Scoring.rating := Some (Fin 3.2);
     Scoring.user_ratings_total := Some (ofZ 3);
     Scoring.website := None;
     Scoring.phone := None;
     Scoring.business_status := Some "OPERATIONAL" |}.

(** A server that answers every request with one page. *)
Definition serve (page : string) (u : string) : outcome Response :=
  Returned {| ok := true; status := 200; statusText := "OK"; url := u;
              text := Returned page; header := fun _ => None |}.

(** The response of a server that answers with status 200 at the
    address that was asked for. *)
Definition okResponse (u : string) : Response :=
  {| ok := true; status := 200; statusText := "OK"; url := u;
     text := Returned ""; header := fun _ => None |}.

(** A server that answers every request with 404. *)
Definition notFound (u : string) : outcome Response :=
  Returned {| ok := false; status := 404; statusText := "Not Found"; url := u;
              text := Returned ""; header := fun _ => None |}.

(** A page with one [mailto:] link and one address in its text, and
    what the two address patterns find in it. *)
Definition acmePage : string :=
  "<a href='mailto:Owner@acme.com'>Write us</a> or sales@acme.com".
Definition acmeTextMatches (html : string) : list string :=
  ["Owner@acme.com"; "sales@acme.com"].
Definition acmeMailtoMatches (html : string) : list string :=
  ["Owner@acme.com"].
Definition oneMxRecord (domain : string) : outcome nat := Returned 1%nat.
Definition noMxRecord (domain : string) : outcome nat := Returned 0%nat.

(** A network on which only Instagram pages exist, and a page whose
    only profile link is a LinkedIn link. *)
Definition probeInstagramOnly (past : list SocialVerifier.event) (u : string)
  : outcome Response :=
  if includes u "instagram" then serve "" u else notFound u.
Definition linkOnlyLinkedIn (p : SocialVerifier.platform) (html : string)
  : option string :=
  match p with
  | SocialVerifier.linkedin => Some "https://www.linkedin.com/company/acme"
  | _ => None
  end.

(** The two profiles that the verifier finds on that network. *)
Definition acmeLinkedInLink : SocialVerifier.VerifiedSocialProfile :=
  {| SocialVerifier.url := "https://www.linkedin.com/company/acme";
     SocialVerifier.platform_ := SocialVerifier.linkedin;
     SocialVerifier.exists_ := true;
     SocialVerifier.confidence := 95;
     SocialVerifier.metrics := None |}.
Definition acmeInstagramGuess : SocialVerifier.VerifiedSocialProfile :=
  {| SocialVerifier.url := "https://www.instagram.com/acme_roofing/";
     SocialVerifier.platform_ := SocialVerifier.instagram;
     SocialVerifier.exists_ := true;
     SocialVerifier.confidence := 75;
     SocialVerifier.metrics := None |}.

Definition acmeDiscovery : EmailDiscovery.EmailDiscoveryResult :=
  EmailDiscovery.discoverEmails plainHostname (serve acmePage)
    acmeTextMatches acmeMailtoMatches oneMxRecord
    "Acme Roofing LLC" "www.acme.com".

(** A search that finds two places on one page: one with a plain
    website, one whose website is a shortener link. *)
Definition acmeResult : Orchestrator.SearchResult :=
  {| Orchestrator.result_place_id := "place-acme";
     Orchestrator.result_name := "Acme Roofing";
     Orchestrator.result_rating := Some (Fin 4.1);
     Orchestrator.result_user_ratings_total := Some (ofZ 12);
     Orchestrator.result_business_status := Some "OPERATIONAL" |}.
Definition shortenerResult : Orchestrator.SearchResult :=
  {| Orchestrator.result_place_id := "place-short";
     Orchestrator.result_name := "Quick Loans";
     Orchestrator.result_rating := None;
     Orchestrator.result_user_ratings_total := None;
     Orchestrator.result_business_status := None |}.
Definition acmeDetails (placeId : string) : outcome Orchestrator.PlaceDetails :=
  Returned
    {| Orchestrator.details_website :=
         Some (if String.eqb placeId "place-acme" then "https://acme-roofing.com"
               else "http://bit.ly/xyz");
       Orchestrator.details_phone := Some "555-0100";
       Orchestrator.details_business_status := None |}.
Definition onePage (token : option string)
  : outcome (list Orchestrator.SearchResult * option string) :=
  Returned ([acmeResult; shortenerResult], None).
(** The counters after the search of that one page with every policy
    switched on. *)
Definition onePageCounters : Orchestrator.Counters :=
  {| Orchestrator.totalSeen := 2; Orchestrator.totalInserted := 1;
     Orchestrator.totalSkippedSpam := 1; Orchestrator.totalSkippedScore := 0 |}.

(** A page with a CMS signature, a form, a Calendly link, a founding
    year and service areas, and what the patterns with captures find
    in it. *)
Definition techPage : string :=
  "<html>wp-content <form> calendly.com/acme Certified since 1998. Serving Miami and Tampa. tel:1</html>".
Definition techSearch (p : WebsiteIntelligence.pattern) (html : string)
  : option (list string) :=
  match p with
  | WebsiteIntelligence.CalendlyLink => Some ["calendly.com/acme"; "acme"]
  | WebsiteIntelligence.FoundedWord => Some ["since 1998"; "1998"]
  | _ => None
  end.
Definition techSearchAll (p : WebsiteIntelligence.pattern) (html : string)
  : list (list string) :=
  match p with
  | WebsiteIntelligence.Serving => [["Serving Miami and Tampa"; "Miami and Tampa"]]
  | WebsiteIntelligence.CityNames => [["Miami"]; ["Tampa"]]
  | _ => []
  end.
Definition techSnapshot : WebsiteIntelligence.WebsiteIntelligenceResult :=
  WebsiteIntelligence.analyse techSearch techSearchAll 2026 techPage (fun _ => None)
    ["Fetching https://acme.com..."].

Definition allEnrichments : Orchestrator.SearchConfig :=
  {| Orchestrator.minScore := None; Orchestrator.enrichEmails := true;
     Orchestrator.enrichSocial := true; Orchestrator.enrichIntelligence := true;
     Orchestrator.skipSuspicious := true |}.

End Examples.

(** * Properties *)

(** ** Facts about the built-ins *)

Module JSFacts.
Import JS.

Ltac each_char c := destruct c as [[] [] [] [] [] [] [] []]; vm_compute; try reflexivity.

(** Settles a decidable closed proposition by evaluating its decision. *)
Ltac compute_decision :=
  match goal with
  | |- ?P => apply (bool_decide_unpack P); vm_compute; exact I
  end.

Lemma isSpace_upperChar c : isSpace (upperChar c) = isSpace c.
Proof. each_char c. Qed.

Lemma startsWith_nil s : startsWith s "" = true.
Proof. by destruct s. Qed.

Lemma includes_cons c s p : includes s p = true -> includes (String c s) p = true.
Proof. intros H. cbn [includes]. rewrite H. apply orb_true_r. Qed.

Lemma includes_empty p : includes "" p = true -> p = "".
Proof. destruct p; [done | discriminate]. Qed.

Lemma toUpperCase_trimStart s : toUpperCase (trimStart s) = trimStart (toUpperCase s).
Proof.
  induction s as [|c s IH]; [done |].
  cbn. rewrite isSpace_upperChar. by destruct (isSpace c).
Qed.

Lemma isEmpty_mapChars f s : isEmpty (mapChars f s) = isEmpty s.
Proof. by destruct s. Qed.

Lemma toUpperCase_trimEnd s : toUpperCase (trimEnd s) = trimEnd (toUpperCase s).
Proof.
  induction s as [|c s IH]; [done |].
  cbn. rewrite isSpace_upperChar, <- IH.
  unfold toUpperCase. rewrite isEmpty_mapChars.
  by destruct (isSpace c && isEmpty (trimEnd s)).
Qed.

Lemma toUpperCase_trim s : toUpperCase (trim s) = trim (toUpperCase s).
Proof. unfold trim. by rewrite toUpperCase_trimEnd, toUpperCase_trimStart. Qed.

(** A pattern that starts with a visible character is not lost when
    leading whitespace is removed. *)
Lemma includes_trimStart s a p :
  isSpace a = false ->
  includes s (String a p) = true -> includes (trimStart s) (String a p) = true.
Proof.
  intros Ha. induction s as [|c s IH]; [done |].
  cbn [trimStart]. destruct (isSpace c) eqn:Hc; [| done].
  cbn [includes startsWith]. destruct (Ascii.eqb_spec a c) as [-> | _].
  - congruence.
  - cbn. exact IH.
Qed.

Lemma startsWith_trimEnd s p :
  allChars (fun c => negb (isSpace c)) p = true ->
  startsWith s p = true -> startsWith (trimEnd s) p = true.
Proof.
  revert p. induction s as [|c s IH]; intros [|a p] Hp H; try done.
  cbn in Hp, H. apply andb_true_iff in Hp as [Ha Hp].
  apply andb_true_iff in H as [Hac H].
  apply Ascii.eqb_eq in Hac as <-.
  cbn [trimEnd]. apply negb_true_iff in Ha. rewrite Ha. cbn.
  rewrite Ascii.eqb_refl. cbn. by apply IH.
Qed.

(** A non-empty pattern without whitespace is not lost when trailing
    whitespace is removed. *)
Lemma includes_trimEnd s a p :
  allChars (fun c => negb (isSpace c)) (String a p) = true ->
  includes s (String a p) = true -> includes (trimEnd s) (String a p) = true.
Proof.
  intros Hp. induction s as [|c s IH]; [done |].
  intros H. cbn [includes] in H. apply orb_true_iff in H as [H | H].
  - apply (startsWith_trimEnd _ _ Hp) in H.
    destruct (trimEnd (String c s)); cbn [includes]; by rewrite H.
  - specialize (IH H). cbn [trimEnd].
    destruct (trimEnd s) as [|d r] eqn:Hr; [done |].
    rewrite andb_false_r. by apply includes_cons.
Qed.

Lemma includes_trim s a p :
  allChars (fun c => negb (isSpace c)) (String a p) = true ->
  includes s (String a p) = true -> includes (trim s) (String a p) = true.
Proof.
  intros Hp H. unfold trim. apply includes_trimEnd; [done |].
  apply includes_trimStart; [| done].
  cbn in Hp. apply andb_true_iff in Hp as [Ha _]. by apply negb_true_iff.
Qed.

Lemma Math_round_integer z : Math_round (inject_Z z) = z.
Proof.
  unfold Math_round.
  assert (Hle : (inject_Z z <= inject_Z z + (1 # 2))%Q).
  { rewrite <- (Qplus_0_r (inject_Z z)) at 1. by apply Qplus_le_r. }
  assert (Hlt : (inject_Z z + (1 # 2) < inject_Z (z + 1))%Q).
  { rewrite inject_Z_plus. by apply Qplus_lt_r. }
  apply Qfloor_resp_le in Hle. rewrite Qfloor_Z in Hle.
  pose proof (Qfloor_le (inject_Z z + (1 # 2))) as Hfl.
  assert (Hlt' : (inject_Z (Qfloor (inject_Z z + (1 # 2))) < inject_Z (z + 1))%Q)
    by (eapply Qle_lt_trans; eauto).
  rewrite <- Zlt_Qlt in Hlt'. lia.
Qed.

(** [Array.from(new Set(xs))] keeps exactly the members of [xs], once each. *)
Lemma Set_add_elem seen x y : y ∈ Set_add seen x <-> y ∈ seen \/ y = x.
Proof.
  unfold Set_add. case_bool_decide as Hx.
  - split; [by left | intros [H | ->]; done].
  - rewrite elem_of_app, list_elem_of_singleton. tauto.
Qed.

Lemma foldl_Set_add_elem xs seen y :
  y ∈ foldl Set_add seen xs <-> y ∈ seen \/ y ∈ xs.
Proof.
  revert seen. induction xs as [|x xs IH]; intros seen; cbn.
  - rewrite elem_of_nil. tauto.
  - rewrite IH, Set_add_elem, elem_of_cons. tauto.
Qed.

Lemma Array_from_Set_elem xs y : y ∈ Array_from_Set xs <-> y ∈ xs.
Proof.
  unfold Array_from_Set. rewrite foldl_Set_add_elem, elem_of_nil. tauto.
Qed.

Section SortFacts.
Context {A : Type} (key : A -> Z).

Lemma insertSorted_perm x l : insertSorted (descending key) x l ≡ₚ x :: l.
Proof.
  induction l as [|y l IH]; cbn; [done |].
  destruct (descending key x y <=? 0); [done |].
  rewrite IH. apply Permutation_swap.
Qed.

Lemma sort_perm l : sort (descending key) l ≡ₚ l.
Proof.
  induction l as [|x l IH]; cbn; [done |].
  by rewrite insertSorted_perm, IH.
Qed.

Lemma insertSorted_sorted x l :
  StronglySorted (fun a b => key b <= key a) l ->
  StronglySorted (fun a b => key b <= key a) (insertSorted (descending key) x l).
Proof.
  induction 1 as [|y l Hl IH Hy]; cbn.
  - repeat constructor.
  - unfold descending at 1. destruct (Z.leb_spec (key y - key x) 0) as [Hle | Hgt].
    + constructor; [by constructor |].
      constructor; [lia |].
      eapply Forall_impl; [exact Hy |]. cbn. intros; lia.
    + constructor; [done |].
      rewrite insertSorted_perm. constructor; [lia | done].
Qed.

Lemma sort_sorted l : StronglySorted (fun a b => key b <= key a) (sort (descending key) l).
Proof.
  induction l as [|x l IH]; cbn; [constructor | by apply insertSorted_sorted].
Qed.

Lemma insertSorted_stable k x l :
  filter (fun a => key a = k) (insertSorted (descending key) x l)
  = filter (fun a => key a = k) (x :: l).
Proof.
  induction l as [|y l IH]; cbn [insertSorted]; [done |].
  unfold descending at 1. destruct (Z.leb_spec (key y - key x) 0) as [Hle | Hgt]; [done |].
  rewrite (filter_cons _ y), IH, !(filter_cons _ x), !(filter_cons _ y).
  repeat case_decide; try done; lia.
Qed.

(** Stability: the elements of any one key keep their order. *)
Lemma sort_stable k l :
  filter (fun a => key a = k) (sort (descending key) l) = filter (fun a => key a = k) l.
Proof.
  induction l as [|x l IH]; cbn [sort]; [done |].
  rewrite insertSorted_stable, !(filter_cons _ x), IH. done.
Qed.
End SortFacts.

End JSFacts.

(** ** The automation-need scorer *)

Module ScoringFacts.
Import JS JSFacts Scoring Pipeline Examples.

(** The status test sees through the trimming of the status string. *)
Lemma closed_status_detected (s : string) :
  includes (toUpperCase s) "CLOSED_PERMANENTLY" = true ->
  isPermanentlyClosed (trim s) = true.
Proof.
  intros H. unfold isPermanentlyClosed. rewrite toUpperCase_trim.
  by apply includes_trim.
Qed.

(** C2. Whenever the upper-cased [business_status] contains
    ["CLOSED_PERMANENTLY"], the score is exactly 0, whatever the
    rating, the review count, the website and the phone are. *)
Theorem closed_permanently_scores_zero (input : ScoreInput) (status : string) :
  business_status input = Some status ->
  includes (toUpperCase status) "CLOSED_PERMANENTLY" = true ->
  score (computeAutomationNeedScoreDetailed input) = 0.
Proof.
  intros Hs Hc. unfold computeAutomationNeedScoreDetailed.
  rewrite Hs. change (default "" (Some status)) with status.
    by rewrite (closed_status_detected _ Hc).
Qed.

Lemma closed_permanently_scores_zero_witness :
  score (computeAutomationNeedScoreDetailed
           {| rating := Some (Fin 4.9); user_ratings_total := Some (ofZ 500);
              website := None; phone := None;
              business_status := Some " closed_Permanently " |}) = 0.
Proof.
  apply (closed_permanently_scores_zero _ " closed_Permanently "); reflexivity.
Defined.

(** C3, as the specification words it, fails: a status that contains
    the phrase "permanently closed" is not cut short, and the other
    signals are evaluated. *)
Lemma permanently_closed_phrase_not_cut_short :
  let out := computeAutomationNeedScoreDetailed
               {| rating := None; user_ratings_total := None; website := None;
                  phone := None; business_status := Some "Permanently closed" |} in
  includes (toLowerCase "Permanently closed") "permanently closed" = true /\
  score out = 57 /\
  length (reasons out) = 4%nat /\
  signals out !! "no_website" = Some 25.
Proof. vm_compute. done. Qed.

(** C3, amended. Whenever the status contains the marker
    ["CLOSED_PERMANENTLY"] in any letter case, the scorer returns score
    0 with the single reason "Permanently closed (skip)", and the
    signals hold the entry [closed] and nothing else. *)
Theorem closed_permanently_short_circuit (input : ScoreInput) (status : string) :
  business_status input = Some status ->
  includes (toUpperCase status) "CLOSED_PERMANENTLY" = true ->
  computeAutomationNeedScoreDetailed input
  = {| score := 0;
       reasons := ["Permanently closed (skip)"];
       signals := {["closed" := 100]} |}
  /\ forall key, key <> "closed" ->
       signals (computeAutomationNeedScoreDetailed input) !! key = None.
Proof.
  intros Hs Hc.
  assert (Heq : computeAutomationNeedScoreDetailed input
                = {| score := 0; reasons := ["Permanently closed (skip)"];
                     signals := {["closed" := 100]} |}).
  { unfold computeAutomationNeedScoreDetailed.
    rewrite Hs. change (default "" (Some status)) with status.
    by rewrite (closed_status_detected _ Hc). }
  split; [done |].
  intros key Hkey. rewrite Heq. cbn. by apply lookup_singleton_ne.
Qed.

Lemma closed_permanently_short_circuit_witness :
  let input := {| rating := Some (Fin 3.2); user_ratings_total := Some (ofZ 3);
                  website := None; phone := None;
                  business_status := Some "Closed_Permanently" |} in
  computeAutomationNeedScoreDetailed input
  = {| score := 0;
       reasons := ["Permanently closed (skip)"];
       signals := {["closed" := 100]} |}
  /\ forall key, key <> "closed" ->
       signals (computeAutomationNeedScoreDetailed input) !! key = None.
Proof.
  apply (closed_permanently_short_circuit _ "Closed_Permanently"); reflexivity.
Defined.

(** C6, as stated, fails: the score is 67, but five reasons are
    recorded before deduplication, not four. *)
Lemma candidate67_not_four_reasons :
  ~ (score (computeAutomationNeedScoreDetailed candidate67) = 67 /\
     length (t_reasons (accumulate candidate67)) = 4%nat).
Proof. vm_compute. intros [_ H]. discriminate H. Qed.

(** C6, amended. The candidate scores exactly 67 = 25 + 18 + 18 + 8 - 2
    and records exactly five reasons before deduplication, one for
    each of the four positive signals and the operational-discount
    reason last. *)
Theorem candidate67_score_and_reasons :
  score (computeAutomationNeedScoreDetailed candidate67) = 67 /\
  t_score (accumulate candidate67) = 25 + 18 + 18 + 8 - 2 /\
  t_reasons (accumulate candidate67)
  = ["No website (big automation + marketing gap)";
     "Very low review volume (weak online footprint)";
     "Poor rating (major ops / CX gap)";
     "No phone listed (conversion friction)";
     "Currently operational (active business)"] /\
  reasons (computeAutomationNeedScoreDetailed candidate67)
  = t_reasons (accumulate candidate67).
Proof. vm_compute. done. Qed.

(** The contribution of each signal is bounded by its largest band. *)
Lemma websiteSignal_bound w t : t_score (websiteSignal w t) <= t_score t + 25.
Proof.
  unfold websiteSignal, builderPenalty.
  repeat match goal with |- context [if ?b then _ else _] => destruct b end;
    cbn; lia.
Qed.

Lemma reviewSignal_bound n t : t_score (reviewSignal n t) <= t_score t + 18.
Proof.
  unfold reviewSignal, reviewTier.
  repeat match goal with |- context [if ?b then _ else _] => destruct b end;
    cbn; lia.
Qed.

Lemma ratingSignal_bound n t : t_score (ratingSignal n t) <= t_score t + 18.
Proof.
  unfold ratingSignal, ratingTier.
  repeat match goal with |- context [if ?b then _ else _] => destruct b end;
    cbn; lia.
Qed.

Lemma phoneSignal_bound p t : t_score (phoneSignal p t) <= t_score t + 8.
Proof. unfold phoneSignal. destruct (isEmpty p); cbn; lia. Qed.

Lemma operationalSignal_bound s t : t_score (operationalSignal s t) <= t_score t.
Proof.
  unfold operationalSignal.
  repeat match goal with |- context [if ?b then _ else _] => destruct b end;
    cbn; lia.
Qed.

Lemma accumulate_bound input : t_score (accumulate input) <= 69.
Proof.
  unfold accumulate.
  etransitivity; [apply operationalSignal_bound |].
  etransitivity; [apply phoneSignal_bound |].
  etransitivity; [apply Z.add_le_mono_r, ratingSignal_bound |].
  etransitivity; [do 2 apply Z.add_le_mono_r; apply reviewSignal_bound |].
  etransitivity; [do 3 apply Z.add_le_mono_r; apply websiteSignal_bound |].
  cbn. lia.
Qed.

Lemma score_bound input : 0 <= score (computeAutomationNeedScoreDetailed input) <= 69.
Proof.
  unfold computeAutomationNeedScoreDetailed.
  destruct (isPermanentlyClosed _); cbn [score]; [lia |].
  rewrite Math_round_integer. pose proof (accumulate_bound input).
  unfold clamp. lia.
Qed.

(** C10. The score never exceeds 69 = 25 + 18 + 18 + 8; the upper
    clamp at 100 therefore never changes the accumulated total; and a
    minimum-score policy above 69 skips every candidate. *)
Theorem score_at_most_69 (input : ScoreInput) :
  score (computeAutomationNeedScoreDetailed input) <= 25 + 18 + 18 + 8 /\
  Z.min 100 (Math_round (inject_Z (t_score (accumulate input))))
  = Math_round (inject_Z (t_score (accumulate input))) /\
  forall minScore : number,
    lt (ofZ 69) minScore = true ->
    skippedForScore (Some minScore) input = true.
Proof.
  pose proof (score_bound input) as Hs.
  pose proof (accumulate_bound input) as Ha.
  split; [lia |]. split; [rewrite Math_round_integer; lia |].
  intros m Hm. unfold skippedForScore.
  destruct m as [| |q|]; try done.
  cbn in *. unfold Qltb in *. apply negb_true_iff in Hm. apply negb_true_iff.
  destruct (Qle_bool q (inject_Z (score (computeAutomationNeedScoreDetailed input))))
    eqn:Hq; [| done].
  apply Qle_bool_iff in Hq.
  assert (H69 : (q <= inject_Z 69)%Q).
  { eapply Qle_trans; [exact Hq |]. rewrite <- Zle_Qle. lia. }
  apply Qle_bool_iff in H69. congruence.
Qed.

Lemma score_at_most_69_witness :
  skippedForScore (Some (ofZ 70))
    {| rating := Some (Fin 3.2); user_ratings_total := Some (ofZ 3);
       website := None; phone := None; business_status := None |} = true.
Proof.
  refine (proj2 (proj2 (score_at_most_69 _)) (ofZ 70) _). reflexivity.
Defined.

End ScoringFacts.

(** ** The website trust classifier *)

Module WebsiteVerificationFacts.
Import JS WebsiteVerification.

(** The verdict computed from a clamped score obeys the thresholds. *)
Lemma thresholds_of_clamped (z : Z) :
  let trustScore := Z.max 0 (Z.min 100 z) in
  0 <= trustScore <= 100 /\
  ((50 <=? trustScore) = true <-> trustScore >= 50) /\
  ((trustScore <? 30) = true <-> trustScore < 30) /\
  ((trustScore <? 50) = true <-> trustScore < 50).
Proof. cbn zeta. rewrite Z.leb_le, !Z.ltb_lt. lia. Qed.

Lemma isEmpty_true (s : string) : isEmpty s = true <-> s = "".
Proof. destruct s; cbn; split; congruence. Qed.

(** Splits a statement about a verdict into its clauses and closes
    those that hold by the hypotheses at hand. *)
Ltac verdict_cases :=
  repeat split; intros;
  repeat match goal with
         | H : Some _ = Some _ |- _ => injection H as <-
         | H : _ \/ _ |- _ => destruct H
         | H : exists _, _ |- _ => destruct H as (? & ? & ?)
         end;
  try done; try lia; try tauto.

(** C1, as stated, fails on [null]: the verdict has score 0, yet it is
    flagged neither likely spam nor suspicious. *)
Lemma quickVerify_null_breaks_thresholds :
  let v := quickVerifyWebsite plainHostname None in
  trustScore v = 0 /\
  ~ (isLikelySpam v = true <-> trustScore v < 30) /\
  ~ (isSuspicious v = true <-> trustScore v < 50).
Proof.
  cbn. split; [done |].
  split; intros [_ H]; discriminate H; lia.
Qed.

(** C1, amended. For every input and every URL parser the trust score
    lies in [0,100] and [isValid] holds exactly when the score is at
    least 50.  When the input is not blank and its host name parses,
    [isLikelySpam] holds exactly when the score is below 30 and
    [isSuspicious] exactly when it is below 50.  On a [null] or blank
    input the score is 0 and both flags are false; on an input whose
    host name does not parse the score is 0, [isLikelySpam] is false
    and [isSuspicious] is true. *)
Theorem quickVerify_thresholds (hostname : string -> option string)
    (url : option string) :
  let v := quickVerifyWebsite hostname url in
  (0 <= trustScore v <= 100) /\
  (isValid v = true <-> trustScore v >= 50) /\
  (forall u, url = Some u -> trim u <> "" ->
     extractDomain hostname (trim u) <> "" ->
     (isLikelySpam v = true <-> trustScore v < 30) /\
     (isSuspicious v = true <-> trustScore v < 50)) /\
  (url = None \/ (exists u, url = Some u /\ trim u = "") ->
     trustScore v = 0 /\ isLikelySpam v = false /\ isSuspicious v = false) /\
  (forall u, url = Some u -> trim u <> "" ->
     extractDomain hostname (trim u) = "" ->
     trustScore v = 0 /\ isLikelySpam v = false /\ isSuspicious v = true).
Proof.
  cbn zeta. unfold quickVerifyWebsite.
  destruct url as [u |]; [| cbn; verdict_cases].
  destruct (isEmpty u || isEmpty (trim u)) eqn:Hblank.
  { assert (Htrim : trim u = "").
    { apply orb_true_iff in Hblank as [H | H]; apply isEmpty_true in H; [| done].
      by subst u. }
    cbn; verdict_cases. }
  apply orb_false_iff in Hblank as [_ Hblank].
  assert (Htrim : trim u <> "").
  { intros H. apply isEmpty_true in H. congruence. }
  destruct (isEmpty (extractDomain hostname (trim u))) eqn:Hdom.
  { apply isEmpty_true in Hdom. cbn; verdict_cases. }
  assert (Hd : extractDomain hostname (trim u) <> "").
  { intros H. apply isEmpty_true in H. congruence. }
  cbn zeta. cbn [trustScore isValid isLikelySpam isSuspicious].
  match goal with |- context [Z.min 100 ?z] =>
    destruct (thresholds_of_clamped z) as (Hr & Hv & Hs & Hp)
  end.
  cbn zeta in Hr, Hv, Hs, Hp. verdict_cases.
Qed.

Lemma quickVerify_thresholds_witness :
  let v := quickVerifyWebsite plainHostname (Some "http://bit.ly/xyz") in
  (isLikelySpam v = true <-> trustScore v < 30) /\
  (isSuspicious v = true <-> trustScore v < 50).
Proof.
  refine (proj1 (proj2 (proj2
            (quickVerify_thresholds plainHostname (Some "http://bit.ly/xyz"))))
            "http://bit.ly/xyz" eq_refl _ _);
    vm_compute; discriminate.
Defined.

End WebsiteVerificationFacts.

(** ** E-mail discovery *)

Module EmailDiscoveryFacts.
Import JS JSFacts EmailDiscovery.

Section WithPlatform.
Variable hostname : string -> option string.
Variable fetch : string -> outcome Response.
Variable matchEmails : string -> list string.
Variable matchMailto : string -> list string.
Variable resolveMx : string -> outcome nat.

Abbreviation discover := (discoverEmails hostname fetch matchEmails matchMailto resolveMx).
Abbreviation scrape := (scrapeEmailsFromWebsite fetch matchEmails matchMailto).
Abbreviation candidates := (emailArray hostname fetch matchEmails matchMailto).

(** *** Source tags *)

Lemma addScraped_keeps l st k :
  st.2 !! k = Some "scraped-html" ->
  (foldl addScraped st l).2 !! k = Some "scraped-html".
Proof.
  revert st. induction l as [|x l IH]; intros st H; cbn [foldl]; [done |].
  apply IH. cbn. rewrite lookup_insert. by case_decide.
Qed.

Lemma addScraped_tags l st e :
  e ∈ l -> (foldl addScraped st l).2 !! toLowerCase e = Some "scraped-html".
Proof.
  revert st. induction l as [|x l IH]; intros st H; [by apply elem_of_nil in H |].
  cbn [foldl]. apply elem_of_cons in H as [-> | H]; [| by apply IH].
  apply addScraped_keeps. cbn. apply lookup_insert_eq.
Qed.

Lemma addPattern_keeps l st k :
  st.2 !! k = Some "scraped-html" ->
  (foldl addPattern st l).2 !! k = Some "scraped-html".
Proof.
  revert st. induction l as [|x l IH]; intros st H; cbn [foldl]; [done |].
  apply IH. cbn.
  destruct (falsy (st.2 !! toLowerCase x)) eqn:Hf; [| done].
  rewrite lookup_insert. case_decide as Hk; [| done].
  subst k. rewrite H in Hf. discriminate Hf.
Qed.

Lemma collect_tags scraped patterns e :
  e ∈ scraped ->
  (collect scraped patterns).2 !! toLowerCase e = Some "scraped-html".
Proof. intros H. unfold collect. by apply addPattern_keeps, addScraped_tags. Qed.

Lemma sources_discover businessName website :
  falsy (extractDomain hostname website) = false ->
  sources (discover businessName website)
  = (collect (scrape website)
             (generateEmailPatterns hostname businessName website)).2.
Proof.
  intros Hd. unfold discoverEmails. rewrite Hd.
  destruct (collect _ _) as [allEmails srcs].
  by destruct (foldl _ _ allEmails).
Qed.

(** C5, on the code: an address found in a [mailto:] link of the
    fetched page is recorded with the tag ["scraped-html"], the tag
    of a plain text match, and so never with ["scraped-mailto"]. *)
Theorem mailto_address_tagged_scraped_html
    (businessName website : string) (response : Response) (html e : string) :
  falsy (extractDomain hostname website) = false ->
  fetch (if startsWith website "http" then website else "https://" +:+ website)
  = Returned response ->
  ok response = true ->
  text response = Returned html ->
  e ∈ matchMailto html ->
  sources (discover businessName website) !! toLowerCase e = Some "scraped-html".
Proof.
  intros Hd Hf Hok Ht He.
  rewrite sources_discover by done. apply collect_tags.
  unfold scrapeEmailsFromWebsite. rewrite Hf, Hok, Ht. cbn.
  apply Array_from_Set_elem. unfold pageEmails.
  apply elem_of_app. by right.
Qed.

(** *** The final list *)

Lemma head_is_largest (key : string -> Z) (l : list string) (e : string) :
  StronglySorted (fun a b => key b <= key a) l ->
  head l = Some e -> forall e', e' ∈ l -> key e' <= key e.
Proof.
  intros Hs Hh e' He'. destruct Hs as [|x l Hl Hx]; [done |].
  injection Hh as ->. apply elem_of_cons in He' as [-> | He']; [lia |].
  rewrite Forall_forall in Hx. by apply Hx.
Qed.

(** C4. The list [emails] of a discovery result holds no address
    whose validation result is [invalid]; it is sorted by descending
    confidence, the addresses of equal confidence in the order in
    which they entered the candidate set; [getBestEmail] returns
    nothing exactly when the list is empty, and otherwise its first
    element, whose confidence is the largest of the list. *)
Theorem discoverEmails_sorted_without_invalid (businessName website : string) :
  let r := discover businessName website in
  let conf := confidenceOf (confidence r) in
  (forall e, e ∈ emails r -> validationResults r !! e <> Some invalid) /\
  StronglySorted (fun a b => conf b <= conf a) (emails r) /\
  (falsy (extractDomain hostname website) = false ->
   forall k,
     filter (fun e => conf e = k) (emails r)
     = filter (fun e => conf e = k)
         (filter (fun e => notInvalid (validationResults r) e = true)
                 (candidates businessName website))) /\
  (getBestEmail r = None <-> emails r = []) /\
  (forall e, getBestEmail r = Some e ->
     head (emails r) = Some e /\
     forall e', e' ∈ emails r -> conf e' <= conf e).
Proof.
  cbn zeta.
  assert (Hbest : forall r : EmailDiscoveryResult,
             (getBestEmail r = None <-> emails r = []) /\
             (forall e, getBestEmail r = Some e -> head (emails r) = Some e)).
  { intros r. unfold getBestEmail. destruct (emails r) as [|x l]; cbn; [done |].
    split; [done |]. by intros e [= ->]. }
  assert (Hsorted :
    StronglySorted
      (fun a b => confidenceOf (confidence (discover businessName website)) b
                  <= confidenceOf (confidence (discover businessName website)) a)
      (emails (discover businessName website))).
  { unfold discoverEmails. destruct (falsy _); [constructor |].
    destruct (collect _ _) as [allEmails srcs].
    destruct (foldl _ _ allEmails) as [conf vals]. cbn [emails confidence].
    apply (sort_sorted (confidenceOf conf)). }
  split; [| split; [exact Hsorted | split; [| split]]].
  - unfold discoverEmails. destruct (falsy _); [intros e H; by apply elem_of_nil in H |].
    destruct (collect _ _) as [allEmails srcs].
    destruct (foldl _ _ allEmails) as [conf vals]. cbn [emails validationResults].
    intros e He.
    change (byConfidence conf) with (descending (confidenceOf conf)) in He.
    rewrite sort_perm in He. apply list_elem_of_filter in He as [He _].
    unfold notInvalid in He. intros Hinv. rewrite Hinv in He. discriminate He.
  - intros Hd k. unfold discoverEmails, emailArray. rewrite Hd.
    destruct (collect _ _) as [allEmails srcs].
    destruct (foldl _ _ allEmails) as [conf vals].
    cbn [emails validationResults confidence fst].
    apply (sort_stable (confidenceOf conf)).
  - apply Hbest.
  - intros e He. apply Hbest in He. split; [done |].
    by apply (head_is_largest _ _ _ Hsorted).
Qed.

(** *** Generated addresses *)

Lemma allChars_impl (P Q : ascii -> bool) s :
  (forall c, P c = true -> Q c = true) ->
  allChars P s = true -> allChars Q s = true.
Proof.
  intros HPQ. induction s as [|c s IH]; [done |]. cbn.
  rewrite !andb_true_iff. intros [Hc Hs]. auto.
Qed.

Lemma allChars_keepAlnumSpace s :
  allChars (fun c => isLower c || isDigit c || isSpace c) (keepAlnumSpace s) = true.
Proof.
  induction s as [|c s IH]; [done |]. cbn.
  destruct (isLower c || isDigit c || isSpace c) eqn:Hc; [| done].
  cbn. by rewrite Hc.
Qed.

Lemma allChars_trimStart P s :
  allChars P s = true -> allChars P (trimStart s) = true.
Proof.
  induction s as [|c s IH]; [done |]. cbn [trimStart].
  destruct (isSpace c); [| done].
  cbn. rewrite andb_true_iff. intros [_ Hs]. auto.
Qed.

Lemma allChars_trimEnd P s :
  allChars P s = true -> allChars P (trimEnd s) = true.
Proof.
  induction s as [|c s IH]; [done |]. cbn.
  rewrite andb_true_iff. intros [Hc Hs].
  destruct (isSpace c && isEmpty (trimEnd s)); [done |].
  cbn. rewrite Hc. auto.
Qed.

Lemma allChars_firstField P s :
  allChars P s = true -> allChars P (firstField s) = true.
Proof.
  induction s as [|c s IH]; [done |]. cbn.
  rewrite andb_true_iff. intros [Hc Hs].
  destruct (isSpace c); [done |].
  cbn. rewrite Hc. auto.
Qed.

Lemma cleanName_has_no_at businessName :
  allChars (fun c => negb (Ascii.eqb c "@")) (cleanName businessName) = true.
Proof.
  unfold cleanName, trim.
  apply allChars_firstField, allChars_trimEnd, allChars_trimStart.
  eapply allChars_impl; [| apply allChars_keepAlnumSpace].
  intros c. each_char c; done.
Qed.

Lemma afterAt_app local domain :
  allChars (fun c => negb (Ascii.eqb c "@")) local = true ->
  afterAt (local +:+ "@" +:+ domain) = domain.
Proof.
  induction local as [|c s IH]; [done |].
  cbn [allChars]. rewrite andb_true_iff. intros [Hc Hs].
  apply negb_true_iff in Hc.
  change (afterAt (String c s +:+ "@" +:+ domain))
    with (if Ascii.eqb c "@" then s +:+ "@" +:+ domain
          else afterAt (s +:+ "@" +:+ domain)).
  rewrite Hc. auto.
Qed.

Lemma prefixed_at_domain (prefixes : list string) (domain e : string) :
  Forall (fun p => allChars (fun c => negb (Ascii.eqb c "@")) p = true) prefixes ->
  e ∈ (fun prefix => prefix +:+ "@" +:+ domain) <$> prefixes ->
  afterAt e = domain.
Proof.
  intros Hp He. apply list_elem_of_fmap in He as (prefix & -> & Hin).
  rewrite Forall_forall in Hp. by apply afterAt_app, Hp.
Qed.

(** C9, amended. Every generated address is an address at the
    extracted domain of the website, except for the one address
    ["contact@" + cleanName + ".com"] that is built from the first
    word of the business name. *)
Theorem generated_addresses_at_domain
    (businessName website domain e : string) :
  extractDomain hostname website = Some domain ->
  e ∈ generateEmailPatterns hostname businessName website ->
  afterAt e = domain \/
  e = "contact@" +:+ cleanName businessName +:+ ".com".
Proof.
  intros Hd He. unfold generateEmailPatterns in He. rewrite Hd in He.
  destruct (falsy (Some domain)); [by apply elem_of_nil in He |].
  rewrite Array_from_Set_elem in He.
  change (default "" (Some domain)) with domain in He.
  assert (Hcommon : e ∈ (fun prefix => prefix +:+ "@" +:+ domain) <$> EMAIL_PATTERNS ->
                    afterAt e = domain).
  { apply prefixed_at_domain. unfold EMAIL_PATTERNS. by repeat constructor. }
  apply elem_of_app in He as [He | He].
  - destruct (_ && _); [| by left; apply Hcommon].
    apply elem_of_app in He as [He | He]; [by left; apply Hcommon |].
    apply elem_of_cons in He as [-> | He].
    { left. apply afterAt_app, cleanName_has_no_at. }
    apply elem_of_cons in He as [-> | He]; [by right |].
    by apply elem_of_nil in He.
  - left. repeat (apply elem_of_cons in He as [-> | He]; [done |]).
    by apply elem_of_nil in He.
Qed.
End WithPlatform.

Import Examples.

Lemma mailto_address_tagged_scraped_html_witness :
  "Owner@acme.com" ∈ acmeMailtoMatches acmePage /\
  sources acmeDiscovery !! "owner@acme.com" = Some "scraped-html".
Proof.
  assert (Hin : "Owner@acme.com" ∈ acmeMailtoMatches acmePage)
    by compute_decision.
  split; [exact Hin |].
  exact (mailto_address_tagged_scraped_html plainHostname (serve acmePage)
           acmeTextMatches acmeMailtoMatches oneMxRecord
           "Acme Roofing LLC" "www.acme.com" _ acmePage "Owner@acme.com"
           eq_refl eq_refl eq_refl eq_refl Hin).
Defined.

Lemma discoverEmails_sorted_without_invalid_witness :
  validationResults acmeDiscovery !! "owner@acme.com" <> Some invalid /\
  head (emails acmeDiscovery) = Some "sales@acme.com".
Proof.
  pose proof (discoverEmails_sorted_without_invalid plainHostname (serve acmePage)
                acmeTextMatches acmeMailtoMatches oneMxRecord
                "Acme Roofing LLC" "www.acme.com") as (Hvalid & _ & _ & _ & Hbest).
  split.
  - apply Hvalid. compute_decision.
  - apply Hbest. vm_compute. reflexivity.
Defined.

(** C9, as stated, fails: for the business "Acme Roofing" with the
    website [https://example.org/] the generated list holds
    [contact@acme.com], an address at another domain. *)
Lemma generated_address_off_domain :
  extractDomain plainHostname "https://example.org/" = Some "example.org" /\
  "contact@acme.com"
    ∈ generateEmailPatterns plainHostname "Acme Roofing" "https://example.org/" /\
  afterAt "contact@acme.com" <> "example.org".
Proof.
  split; [by vm_compute |].
  split; [compute_decision |].
  vm_compute. discriminate.
Qed.

Lemma generated_addresses_at_domain_witness :
  afterAt "info@example.org" = "example.org" \/
  "info@example.org" = "contact@" +:+ cleanName "Acme Roofing" +:+ ".com".
Proof.
  apply (generated_addresses_at_domain plainHostname
           "Acme Roofing" "https://example.org/" "example.org" "info@example.org").
  - vm_compute. reflexivity.
  - compute_decision.
Defined.

End EmailDiscoveryFacts.

(** ** The website intelligence extractor *)

Module WebsiteIntelligenceFacts.
Import JS WebsiteIntelligence.

Lemma createEmptyResult_allEmpty rawFindings :
  allEmpty (createEmptyResult rawFindings).
Proof. by repeat split. Qed.

Section WithPlatform.
Variable search : pattern -> string -> option (list string).
Variable searchAll : pattern -> string -> list (list string).
Variable currentYear : Z.
Variable fetch : string -> outcome Response.

Abbreviation extract := (extractWebsiteIntelligence search searchAll currentYear fetch).

(** C7. [extractWebsiteIntelligence] always returns to its caller
    and never throws.  When the fetch fails, when the response is
    not a 2xx response, or when reading the body fails, the result
    is the all-empty snapshot and its findings end with a line that
    names the failure. *)
Theorem extract_never_throws (website : string) :
  let u := if startsWith website "http" then website else "https://" +:+ website in
  (exists r, extract website = Returned r) /\
  (forall message, fetch u = Thrown message ->
     exists r, extract website = Returned r /\ allEmpty r /\
       rawFindings r = ["Fetching " +:+ u +:+ "..."; "Error: " +:+ message]) /\
  (forall response, fetch u = Returned response -> ok response = false ->
     exists r, extract website = Returned r /\ allEmpty r /\
       rawFindings r
       = ["Fetching " +:+ u +:+ "...";
          "HTTP " +:+ pretty (status response) +:+ ": " +:+ statusText response]) /\
  (forall response message,
     fetch u = Returned response -> ok response = true ->
     text response = Thrown message ->
     exists r, extract website = Returned r /\ allEmpty r /\
       rawFindings r = ["Fetching " +:+ u +:+ "..."; "Error: " +:+ message]).
Proof.
  cbn zeta. unfold extractWebsiteIntelligence, tryBlock.
  set (u := if startsWith website "http" then website else "https://" +:+ website).
  repeat split.
  - destruct (fetch u) as [response | message]; [| by eexists].
    destruct (ok response); cbn; [| by eexists].
    destruct (text response); by eexists.
  - intros message ->. eexists. split; [done |].
    split; [apply createEmptyResult_allEmpty | done].
  - intros response -> ->. cbn. eexists. split; [done |].
    split; [apply createEmptyResult_allEmpty | done].
  - intros response message -> -> ->. cbn. eexists. split; [done |].
    split; [apply createEmptyResult_allEmpty | done].
Qed.
End WithPlatform.

Import Examples.

Lemma extract_never_throws_witness :
  exists r,
    extractWebsiteIntelligence (fun _ _ => None) (fun _ _ => []) 2026 notFound "acme.com"
    = Returned r /\
    allEmpty r /\
    rawFindings r = ["Fetching https://acme.com..."; "HTTP 404: Not Found"].
Proof.
  exact (proj1 (proj2 (proj2
           (extract_never_throws (fun _ _ => None) (fun _ _ => []) 2026 notFound
              "acme.com")))
           _ eq_refl eq_refl).
Defined.

End WebsiteIntelligenceFacts.

(** ** The social profile verifier *)

Module SocialVerifierFacts.
Import JS JSFacts SocialVerifier.

(** *** Traces *)

Lemma bind_run {A B} (m : M A) (k : A -> M B) t :
  bind m k t = k (m t).1 (m t).2.
Proof. unfold bind. by destruct (m t). Qed.

Lemma appends_ret {A} (a : A) P : appends (ret a) P.
Proof. intros t. exists []. by rewrite app_nil_r. Qed.

Lemma appends_emit e (P : event -> Prop) : P e -> appends (emit e) P.
Proof. intros He t. exists [e]. split; [done | by constructor]. Qed.

Lemma appends_history P : appends history P.
Proof. intros t. exists []. by rewrite app_nil_r. Qed.

Lemma appends_bind {A B} (m : M A) (k : A -> M B) P :
  appends m P -> (forall a, appends (k a) P) -> appends (bind m k) P.
Proof.
  intros Hm Hk t. rewrite bind_run.
  destruct (Hm t) as (evs & Ht & Hp).
  destruct (Hk (m t).1 (m t).2) as (evs' & Ht' & Hp').
  exists (evs ++ evs'). rewrite Ht', Ht, app_assoc.
  split; [done | by apply Forall_app].
Qed.

Lemma probeCount_app p t evs :
  probeCount p (t ++ evs) = (probeCount p t + probeCount p evs)%nat.
Proof. unfold probeCount. by rewrite filter_app, length_app. Qed.

Lemma probeCount_quiet p evs : Forall (notProbeOf p) evs -> probeCount p evs = 0%nat.
Proof.
  unfold probeCount, notProbeOf. induction 1 as [|e evs He _ IH]; [done |].
  rewrite filter_cons. case_decide; [congruence | done].
Qed.

(** A computation that appends no probe of [p] leaves its count alone. *)
Lemma appends_probeCount {A} (m : M A) p t :
  appends m (notProbeOf p) -> probeCount p (m t).2 = probeCount p t.
Proof.
  intros Hm. destruct (Hm t) as (evs & -> & Hq).
  rewrite probeCount_app, (probeCount_quiet _ _ Hq). lia.
Qed.

(** *** Candidate URLs *)

Lemma linkedIn_page x : probedPlatform (linkedInBase +:+ x) = Some linkedin.
Proof. reflexivity. Qed.

Lemma facebook_page x : probedPlatform (facebookBase +:+ x) = Some facebook.
Proof. reflexivity. Qed.

Lemma instagram_page x : probedPlatform (instagramBase +:+ x) = Some instagram.
Proof. reflexivity. Qed.

Lemma linkedIn_url_platform businessName u :
  u ∈ generateLinkedInUrls businessName -> probedPlatform u = Some linkedin.
Proof.
  unfold generateLinkedInUrls, withFirstWord. rewrite Array_from_Set_elem.
  destruct (_ && _); cbn [app]; intros H;
    repeat (apply elem_of_cons in H as [-> | H]; [apply linkedIn_page |]);
    by apply elem_of_nil in H.
Qed.

Lemma facebook_url_platform businessName u :
  u ∈ generateFacebookUrls businessName -> probedPlatform u = Some facebook.
Proof.
  unfold generateFacebookUrls, withFirstWord. rewrite Array_from_Set_elem.
  destruct (_ && _); cbn [app]; intros H;
    repeat (apply elem_of_cons in H as [-> | H]; [apply facebook_page |]);
    by apply elem_of_nil in H.
Qed.

Lemma instagram_url_platform businessName u :
  u ∈ generateInstagramUrls businessName -> probedPlatform u = Some instagram.
Proof.
  unfold generateInstagramUrls, withFirstWord. rewrite Array_from_Set_elem.
  destruct (_ && _); cbn [app]; intros H;
    repeat (apply elem_of_cons in H as [-> | H]; [apply instagram_page |]);
    by apply elem_of_nil in H.
Qed.

Lemma hasPlatform_elem q profiles :
  hasPlatform q profiles = true <-> q ∈ platform_ <$> profiles.
Proof.
  unfold hasPlatform, some. induction profiles as [|x l IH]; cbn.
  - split; [done | by intros ?%elem_of_nil].
  - rewrite orb_true_iff, IH, elem_of_cons, bool_decide_eq_true.
    split; intros [H | H]; auto.
Qed.

Section WithPlatform.
Variable httpGet : trace -> string -> outcome Response.
Variable httpHead : trace -> string -> outcome Response.
Variable profileLink : platform -> string -> option string.
Variable followerText : followerPattern -> string -> option string.

Abbreviation run := (verifySocialProfiles httpGet httpHead profileLink followerText).
Abbreviation fromWebsite := (websiteStep httpGet profileLink).

(** *** What each step adds to the trace *)

Lemma fetchGet_appends u p : appends (fetchGet httpGet u) (notProbeOf p).
Proof.
  unfold fetchGet. apply appends_bind; [apply appends_history |]. intros t.
  apply appends_bind; [by apply appends_emit |]. intros _. apply appends_ret.
Qed.

Lemma checkUrlExists_appends u p :
  probedPlatform u <> Some p -> appends (checkUrlExists httpHead u) (notProbeOf p).
Proof.
  intros Hu. unfold checkUrlExists, fetchHead.
  apply appends_bind; [| intros; apply appends_ret].
  apply appends_bind; [apply appends_history |]. intros t.
  apply appends_bind; [| intros; apply appends_ret].
  apply appends_emit. unfold notProbeOf. cbn. by apply bool_decide_eq_false.
Qed.

Lemma probeInOrder_appends found urls p :
  (forall u, u ∈ urls -> probedPlatform u <> Some p) ->
  (forall u, appends (found u) (notProbeOf p)) ->
  appends (probeInOrder httpHead found urls) (notProbeOf p).
Proof.
  intros Hu Hf. induction urls as [|u rest IH]; cbn [probeInOrder].
  - apply appends_ret.
  - apply appends_bind.
    { apply checkUrlExists_appends, Hu. by left. }
    intros [|].
    + apply appends_bind; [apply Hf | intros; apply appends_ret].
    + apply appends_bind; [by apply appends_emit |]. intros _.
      apply IH. intros u' Hu'. apply Hu. by right.
Qed.

Lemma probeInOrder_platform found urls q :
  (forall u t, platform_ (found u t).1 = q) ->
  forall t x, (probeInOrder httpHead found urls t).1 = Some x -> platform_ x = q.
Proof.
  intros Hf. induction urls as [|u rest IH]; intros t x; cbn [probeInOrder].
  - by cbn.
  - rewrite bind_run. destruct ((checkUrlExists httpHead u t).1).
    + rewrite bind_run. cbn. intros [= <-]. apply Hf.
    + rewrite bind_run. apply IH.
Qed.

Lemma verifyLinkedIn_appends businessName p :
  p <> linkedin -> appends (verifyLinkedIn httpGet httpHead followerText businessName)
                           (notProbeOf p).
Proof.
  intros Hp. apply probeInOrder_appends.
  - intros u Hu. rewrite (linkedIn_url_platform _ _ Hu). congruence.
  - intros u. apply appends_bind; [| intros; apply appends_ret].
    unfold scrapeLinkedInMetrics.
    apply appends_bind; [apply fetchGet_appends | intros; apply appends_ret].
Qed.

Lemma verifyFacebook_appends businessName p :
  p <> facebook -> appends (verifyFacebook httpGet httpHead followerText businessName)
                           (notProbeOf p).
Proof.
  intros Hp. apply probeInOrder_appends.
  - intros u Hu. rewrite (facebook_url_platform _ _ Hu). congruence.
  - intros u. apply appends_bind; [| intros; apply appends_ret].
    unfold scrapeFacebookMetrics.
    apply appends_bind; [apply fetchGet_appends | intros; apply appends_ret].
Qed.

Lemma verifyInstagram_appends businessName p :
  p <> instagram -> appends (verifyInstagram httpHead businessName) (notProbeOf p).
Proof.
  intros Hp. apply probeInOrder_appends.
  - intros u Hu. rewrite (instagram_url_platform _ _ Hu). congruence.
  - intros u. apply appends_ret.
Qed.

Lemma websiteStep_appends website p : appends (fromWebsite website) (notProbeOf p).
Proof.
  unfold websiteStep. destruct (falsy website); [apply appends_ret |].
  unfold extractSocialsFromWebsite.
  apply appends_bind; [apply fetchGet_appends | intros; apply appends_ret].
Qed.

Lemma websiteStep_NoDup website t :
  NoDup (platform_ <$> (fromWebsite website t).1).
Proof.
  unfold websiteStep. destruct (falsy website); [constructor |].
  unfold extractSocialsFromWebsite. rewrite bind_run. cbn [ret fst].
  destruct ((fetchGet httpGet _ t).1) as [response |]; [| constructor].
  destruct (ok response); cbn [negb]; [| constructor].
  destruct (text response) as [html |]; [| constructor].
  unfold linkedProfile.
  destruct (profileLink linkedin html), (profileLink facebook html),
    (profileLink instagram html), (profileLink twitter html);
    cbn; apply NoDup_ListNoDup; repeat constructor;
    cbn; intuition congruence.
Qed.

(** *** One of the steps 2 to 4 *)

Section Step.
Variable q : platform.
Variable verify : M (option VerifiedSocialProfile).
Hypothesis verify_platform : forall t x, (verify t).1 = Some x -> platform_ x = q.
Hypothesis verify_appends : forall p, p <> q -> appends verify (notProbeOf p).

Lemma unlessFound_grows profiles t :
  (unlessFound q verify profiles t).1 = profiles \/
  exists x, (unlessFound q verify profiles t).1 = profiles ++ [x] /\
            platform_ x = q /\ hasPlatform q profiles = false.
Proof.
  unfold unlessFound. destruct (hasPlatform q profiles) eqn:Hq; [by left |].
  rewrite bind_run. cbn [ret fst].
  destruct ((verify t).1) as [x |] eqn:Hx; [| by left].
  right. exists x. eauto.
Qed.

Lemma unlessFound_keeps p profiles t :
  hasPlatform p profiles = true ->
  hasPlatform p (unlessFound q verify profiles t).1 = true.
Proof.
  intros Hp. destruct (unlessFound_grows profiles t) as [-> | (x & -> & _)]; [done |].
  apply hasPlatform_elem. rewrite fmap_app. apply elem_of_app. left.
  by apply hasPlatform_elem.
Qed.

Lemma unlessFound_NoDup profiles t :
  NoDup (platform_ <$> profiles) ->
  NoDup (platform_ <$> (unlessFound q verify profiles t).1).
Proof.
  intros Hnd. destruct (unlessFound_grows profiles t) as [-> | (x & -> & Hx & Hq)];
    [done |].
  rewrite fmap_app. apply NoDup_app. split; [done |].
  split; [| cbn; apply NoDup_singleton].
  intros y Hy Hy'. cbn in Hy'. apply list_elem_of_singleton in Hy'. subst y.
  rewrite Hx in Hy. apply hasPlatform_elem in Hy. congruence.
Qed.

(** A platform that is already in the list is not probed by the step. *)
Lemma unlessFound_quiet p profiles t :
  hasPlatform p profiles = true ->
  probeCount p (unlessFound q verify profiles t).2 = probeCount p t.
Proof.
  intros Hp. unfold unlessFound. destruct (hasPlatform q profiles) eqn:Hq; [done |].
  assert (Hpq : p <> q) by congruence.
  apply (appends_probeCount _ p t).
  apply appends_bind; [by apply verify_appends | intros; apply appends_ret].
Qed.
End Step.

(** C8. In one run of [verifySocialProfiles], a platform whose
    profile was found by the website-link extraction receives no
    existence probe, and the result holds at most one profile for
    each platform. *)
Theorem found_on_website_never_probed
    (businessName : string) (website : option string) (p : platform) :
  let outcome := run businessName website [] in
  (hasPlatform p (fromWebsite website []).1 = true ->
   probeCount p outcome.2 = 0%nat) /\
  NoDup (platform_ <$> profiles outcome.1).
Proof.
  cbn zeta. unfold verifySocialProfiles. rewrite !bind_run. cbn [ret fst snd profiles].
  set (s0 := fromWebsite website []).
  set (s1 := unlessFound linkedin _ s0.1 s0.2).
  set (s2 := unlessFound facebook _ s1.1 s1.2).
  set (s3 := unlessFound instagram _ s2.1 s2.2).
  assert (HL : forall t x,
             (verifyLinkedIn httpGet httpHead followerText businessName t).1 = Some x ->
             platform_ x = linkedin).
  { apply probeInOrder_platform. intros u t. by rewrite bind_run. }
  assert (HF : forall t x,
             (verifyFacebook httpGet httpHead followerText businessName t).1 = Some x ->
             platform_ x = facebook).
  { apply probeInOrder_platform. intros u t. by rewrite bind_run. }
  assert (HI : forall t x,
             (verifyInstagram httpHead businessName t).1 = Some x ->
             platform_ x = instagram).
  { apply probeInOrder_platform. by intros u t. }
  split.
  - intros H0.
    assert (H1 : hasPlatform p s1.1 = true) by by apply unlessFound_keeps.
    assert (H2 : hasPlatform p s2.1 = true) by by apply unlessFound_keeps.
    subst s3. rewrite unlessFound_quiet;
      [| apply verifyInstagram_appends | done].
    subst s2. rewrite unlessFound_quiet;
      [| apply verifyFacebook_appends | done].
    subst s1. rewrite unlessFound_quiet;
      [| apply verifyLinkedIn_appends | done].
    subst s0. rewrite (appends_probeCount _ p []); [done |].
    apply websiteStep_appends.
  - match goal with |- NoDup (platform_ <$> sort ?c ?l) =>
      change c with (descending confidence)
    end.
    rewrite sort_perm.
    do 3 (apply unlessFound_NoDup; [done |]).
    apply websiteStep_NoDup.
Qed.
End WithPlatform.

Import Examples.

Lemma found_on_website_never_probed_witness :
  probeCount linkedin
    (verifySocialProfiles (fun _ => serve acmePage) probeInstagramOnly
       linkOnlyLinkedIn (fun _ _ => None) "Acme Roofing" (Some "acme.com") []).2
  = 0%nat.
Proof.
  refine (proj1 (found_on_website_never_probed (fun _ => serve acmePage)
                   probeInstagramOnly linkOnlyLinkedIn (fun _ _ => None)
                   "Acme Roofing" (Some "acme.com") linkedin) _).
  vm_compute. reflexivity.
Defined.

End SocialVerifierFacts.


(** ** The embedding at work

    The analyzers evaluated on small inputs, next to what the source
    gives on them. *)

Module Runs.
Import JS JSFacts Examples.

Example trim_and_split :
  trim "  a b  " = "a b" /\
  splitChar "." "a.b..c" = ["a"; "b"; ""; "c"] /\
  firstField " a" = "" /\
  replaceSpaceRuns "-" " a  b c  " = "-a-b-c-".
Proof. by vm_compute. Qed.

Example email_formats :
  EmailDiscovery.isValidEmailFormat <$>
    ["a@b.co"; "a.b+c@x-y.z.com"; "a@b..com"; "a@b.c"; "a@b"; "@b.com"; "a b@c.com"]
  = [true; true; true; false; false; false; false].
Proof. by vm_compute. Qed.

Example dotted_quads :
  WebsiteVerification.looksLikeIPv4 <$>
    ["192.168.1.1"; "1.22.333.4x"; "1.2.3.4567"; "1234.2.3.4"; "1.2.3."; "a.b.c.d"]
  = [true; true; true; false; false; false].
Proof. by vm_compute. Qed.

Example shortener_is_flagged :
  let v := WebsiteVerification.quickVerifyWebsite plainHostname (Some "http://bit.ly/xyz") in
  WebsiteVerification.flags v = ["Known spam/redirect domain"] /\
  WebsiteVerification.trustScore v = 20 /\
  WebsiteVerification.isLikelySpam v = true.
Proof. by vm_compute. Qed.

Example long_url_is_flagged :
  WebsiteVerification.flags
    (WebsiteVerification.quickVerifyWebsite plainHostname
       (Some ("http://" +:+ String.concat "" (replicate 250 "a") +:+ ".com")))
  = ["Unusually long URL"].
Proof. by vm_compute. Qed.

Example linkedin_candidates :
  SocialVerifier.generateLinkedInUrls "Acme Roofing, LLC"
  = ["https://www.linkedin.com/company/acme-roofing-llc";
     "https://www.linkedin.com/company/acme";
     "https://www.linkedin.com/company/acmeroofingllc";
     "https://www.linkedin.com/company/acme-roofing"].
Proof. by vm_compute. Qed.

Example acme_best_email :
  EmailDiscovery.getBestEmail acmeDiscovery = Some "sales@acme.com" /\
  EmailDiscovery.confidence acmeDiscovery !! "sales@acme.com" = Some 95 /\
  EmailDiscovery.confidence acmeDiscovery !! "owner@acme.com" = Some 80.
Proof. by vm_compute. Qed.

Example acme_run_trace :
  (SocialVerifier.verifySocialProfiles (fun _ => serve acmePage) probeInstagramOnly
     linkOnlyLinkedIn (fun _ _ => None) "Acme Roofing" (Some "acme.com") []).2
  = [SocialVerifier.Get "https://acme.com";
     SocialVerifier.Head "https://www.facebook.com/acmeroofing";
     SocialVerifier.Sleep 500;
     SocialVerifier.Head "https://www.facebook.com/acme.roofing";
     SocialVerifier.Sleep 500;
     SocialVerifier.Head "https://www.facebook.com/acme";
     SocialVerifier.Sleep 500;
     SocialVerifier.Head "https://www.instagram.com/acme_roofing/"].
Proof. by vm_compute. Qed.

End Runs.


(** * Further properties *)

(** ** More on the built-ins *)

Module JSMore.
Import JS JSFacts.

Lemma Set_add_NoDup seen x : NoDup seen -> NoDup (Set_add seen x).
Proof.
  intros Hnd. unfold Set_add. case_bool_decide as Hx; [done |].
  apply NoDup_app. split; [done |]. split; [| apply NoDup_singleton].
  intros y Hy ->%list_elem_of_singleton. done.
Qed.

Lemma foldl_Set_add_NoDup xs seen : NoDup seen -> NoDup (foldl Set_add seen xs).
Proof.
  revert seen. induction xs as [|x xs IH]; intros seen Hnd; cbn; [done |].
  by apply IH, Set_add_NoDup.
Qed.

Lemma Array_from_Set_NoDup xs : NoDup (Array_from_Set xs).
Proof. apply foldl_Set_add_NoDup. constructor. Qed.

Lemma Set_add_length seen x : (length (Set_add seen x) <= S (length seen))%nat.
Proof.
  unfold Set_add. case_bool_decide; [lia |]. rewrite length_app. cbn. lia.
Qed.

Lemma foldl_Set_add_length xs seen :
  (length (foldl Set_add seen xs) <= length seen + length xs)%nat.
Proof.
  revert seen. induction xs as [|x xs IH]; intros seen; cbn; [lia |].
  etransitivity; [apply IH |]. pose proof (Set_add_length seen x). lia.
Qed.

Lemma Array_from_Set_length xs : (length (Array_from_Set xs) <= length xs)%nat.
Proof. apply (foldl_Set_add_length xs []). Qed.

Lemma trimStart_blank s : allChars isSpace s = true -> trimStart s = "".
Proof.
  induction s as [|c s IH]; [done |]. cbn.
  intros [Hc Hs]%andb_true_iff. rewrite Hc. auto.
Qed.

Lemma trim_blank s : allChars isSpace s = true -> trim s = "".
Proof. intros H. unfold trim. by rewrite trimStart_blank. Qed.

Lemma le_trans (a b c : number) : le a b = true -> le b c = true -> le a c = true.
Proof.
  destruct a as [| |x|], b as [| |y|], c as [| |z|]; cbn; try done.
  rewrite !Qle_bool_iff. apply Qle_trans.
Qed.

End JSMore.

(** ** More on the scorer *)

Module ScoringMore.
Import JS JSFacts JSMore Scoring Measures.

Lemma builderPenalty_cases w : builderPenalty w = 0 \/ builderPenalty w = 8.
Proof. unfold builderPenalty. destruct (_ || _); auto. Qed.

Lemma reviewTier_cases n : fst (reviewTier n) ∈ [18; 14; 10; 6; 2].
Proof.
  unfold reviewTier.
  repeat match goal with |- context [if ?b then _ else _] => destruct b end;
    cbn; set_solver.
Qed.

Lemma ratingTier_cases n : fst (ratingTier n) ∈ [18; 14; 9; 4; 1; 6].
Proof.
  unfold ratingTier.
  repeat match goal with |- context [if ?b then _ else _] => destruct b end;
    cbn; set_solver.
Qed.

Lemma websiteSignal_score w t :
  t_score (websiteSignal w t) = t_score t + websitePoints w.
Proof.
  unfold websiteSignal, websitePoints. destruct (isEmpty w); [done |].
  destruct (builderPenalty_cases w) as [-> | ->]; cbn; lia.
Qed.

Lemma reviewSignal_score n t :
  t_score (reviewSignal n t) = t_score t + fst (reviewTier n).
Proof. unfold reviewSignal. by destruct (reviewTier n). Qed.

Lemma ratingSignal_score n t :
  t_score (ratingSignal n t) = t_score t + fst (ratingTier n).
Proof. unfold ratingSignal. by destruct (ratingTier n). Qed.

Lemma phoneSignal_score p t : t_score (phoneSignal p t) = t_score t + phonePoints p.
Proof. unfold phoneSignal, phonePoints. destruct (isEmpty p); cbn; lia. Qed.

Lemma operationalSignal_score s t :
  t_score (operationalSignal s t) = t_score t + operationalPoints s.
Proof.
  unfold operationalSignal, operationalPoints.
  destruct (includes _ _); [| lia]. by destruct (_ <? _).
Qed.

(** The accumulated total is the sum of five independent contributions. *)
Lemma accumulate_score input :
  t_score (accumulate input)
  = websitePoints (trim (default "" (website input)))
    + fst (reviewTier (default (ofZ 0) (user_ratings_total input)))
    + fst (ratingTier (default (ofZ 0) (rating input)))
    + phonePoints (trim (default "" (phone input)))
    + operationalPoints (trim (default "" (business_status input))).
Proof.
  unfold accumulate.
  rewrite operationalSignal_score, phoneSignal_score, ratingSignal_score,
    reviewSignal_score, websiteSignal_score. cbn. lia.
Qed.

Lemma accumulate_range input : 1 <= t_score (accumulate input) <= 69.
Proof.
  rewrite accumulate_score.
  pose proof (reviewTier_cases (default (ofZ 0) (user_ratings_total input))) as Hr.
  pose proof (ratingTier_cases (default (ofZ 0) (rating input))) as Hg.
  unfold websitePoints, phonePoints, operationalPoints.
  destruct (builderPenalty_cases (trim (default "" (website input)))) as [-> | ->];
    repeat match goal with |- context [if ?b then _ else _] => destruct b end;
    set_unfold; lia.
Qed.

Lemma open_score input :
  closedInput input = false ->
  score (computeAutomationNeedScoreDetailed input) = t_score (accumulate input).
Proof.
  unfold closedInput, computeAutomationNeedScoreDetailed. intros ->. cbn [score].
  rewrite Math_round_integer. pose proof (accumulate_range input).
  unfold clamp. lia.
Qed.

(** X1. The score is 0 exactly when the business is permanently closed:
    every other input scores at least 1. *)
Theorem score_zero_iff_closed (input : ScoreInput) :
  (score (computeAutomationNeedScoreDetailed input) = 0 <-> closedInput input = true) /\
  (closedInput input = false -> 1 <= score (computeAutomationNeedScoreDetailed input)).
Proof.
  destruct (closedInput input) eqn:Hc.
  - split; [| done]. split; [done |]. intros _.
    unfold computeAutomationNeedScoreDetailed. unfold closedInput in Hc. by rewrite Hc.
  - rewrite (open_score _ Hc). pose proof (accumulate_range input).
    split; [| lia]. split; [lia | done].
Qed.

Lemma score_zero_iff_closed_witness :
  1 <= score (computeAutomationNeedScoreDetailed
                {| rating := Some (Fin 4.9); user_ratings_total := Some (ofZ 900);
                   website := Some "https://acme.com"; phone := Some "555-0100";
                   business_status := Some "OPERATIONAL" |}).
Proof.
  refine (proj2 (score_zero_iff_closed _) _). reflexivity.
Defined.

(** The reasons that the signals can record. *)
Lemma note_recorded reason t r :
  r ∈ t_reasons (note reason t) <-> r ∈ t_reasons t \/ r = reason.
Proof. cbn. rewrite elem_of_app, list_elem_of_singleton. tauto. Qed.

Lemma review_reason_recorded input :
  snd (reviewTier (default (ofZ 0) (user_ratings_total input)))
    ∈ t_reasons (accumulate input).
Proof.
  unfold accumulate, operationalSignal, phoneSignal, ratingSignal, reviewSignal.
  destruct (reviewTier _) as [pts reason], (ratingTier _) as [pts' reason'].
  repeat match goal with |- context [if ?b then _ else _] => destruct b end;
    cbn; rewrite ?elem_of_app, ?list_elem_of_singleton; tauto.
Qed.

Lemma fallback_not_recorded input :
  "Automation opportunity detected" ∉ t_reasons (accumulate input).
Proof.
  unfold accumulate, operationalSignal, phoneSignal, ratingSignal, reviewSignal,
    websiteSignal, reviewTier, ratingTier.
  repeat match goal with |- context [if ?b then _ else _] => destruct b end;
    cbn; rewrite ?elem_of_app, ?elem_of_cons, ?elem_of_nil;
    intros H; repeat destruct H as [H | H]; done.
Qed.

(** X2. The list of reasons is never empty and never holds the fallback
    reason "Automation opportunity detected": the review signal always
    records a reason, so the fallback of the scorer cannot fire. *)
Theorem reasons_never_empty (input : ScoreInput) :
  reasons (computeAutomationNeedScoreDetailed input) <> [] /\
  "Automation opportunity detected" ∉ reasons (computeAutomationNeedScoreDetailed input).
Proof.
  unfold computeAutomationNeedScoreDetailed.
  destruct (isPermanentlyClosed _); cbn [reasons].
  { split; [done |]. rewrite list_elem_of_singleton. done. }
  pose proof (review_reason_recorded input) as Hin.
  apply Array_from_Set_elem in Hin.
  destruct (Array_from_Set (t_reasons (accumulate input))) as [|r l] eqn:Hd.
  { by apply elem_of_nil in Hin. }
  rewrite andb_false_r. split; [done |].
  rewrite <- Hd, Array_from_Set_elem. apply fallback_not_recorded.
Qed.

Lemma signalTotal_insert key points (signals : gmap string Z) :
  signals !! key = None ->
  signalTotal (<[key := points]> signals) = signalTotal signals + points.
Proof.
  intros Hk. unfold signalTotal.
  rewrite map_fold_insert_L; [done | intros; lia | done].
Qed.

(** X3. Unless the business is permanently closed, the score is the sum
    of the contributions recorded in the signals map. *)
Theorem score_is_sum_of_signals (input : ScoreInput) :
  closedInput input = false ->
  score (computeAutomationNeedScoreDetailed input)
  = signalTotal (signals (computeAutomationNeedScoreDetailed input)).
Proof.
  intros Hc. rewrite (open_score _ Hc).
  unfold closedInput in Hc. unfold computeAutomationNeedScoreDetailed.
  rewrite Hc. cbn [signals]. clear Hc.
  unfold accumulate, operationalSignal, phoneSignal, ratingSignal, reviewSignal,
    websiteSignal.
  destruct (reviewTier _) as [pts reason], (ratingTier _) as [pts' reason'].
  destruct (builderPenalty_cases (trim (default "" (website input)))) as [-> | ->];
    repeat match goal with |- context [if ?b then _ else _] => destruct b end;
    cbn;
    repeat (rewrite signalTotal_insert; [| by simplify_map_eq]);
    unfold signalTotal; rewrite map_fold_empty; lia.
Qed.

Lemma score_is_sum_of_signals_witness :
  score (computeAutomationNeedScoreDetailed Examples.candidate67)
  = signalTotal (signals (computeAutomationNeedScoreDetailed Examples.candidate67)).
Proof. apply score_is_sum_of_signals. reflexivity. Defined.



Lemma reviewTier_antitone a b :
  le a b = true -> fst (reviewTier b) <= fst (reviewTier a).
Proof.
  intros Hab. unfold reviewTier.
  pose proof (le_trans a b (ofZ 5) Hab) as H5.
  pose proof (le_trans a b (ofZ 20) Hab) as H20.
  pose proof (le_trans a b (ofZ 60) Hab) as H60.
  pose proof (le_trans a b (ofZ 150) Hab) as H150.
  destruct (le b (ofZ 5)); [rewrite H5 by done; done |].
  destruct (le b (ofZ 20));
    [rewrite H20 by done; destruct (le a (ofZ 5)); cbn; lia |].
  destruct (le b (ofZ 60));
    [rewrite H60 by done;
     destruct (le a (ofZ 5)), (le a (ofZ 20)); cbn; lia |].
  destruct (le b (ofZ 150));
    [rewrite H150 by done;
     destruct (le a (ofZ 5)), (le a (ofZ 20)), (le a (ofZ 60)); cbn; lia |].
  destruct (le a (ofZ 5)), (le a (ofZ 20)), (le a (ofZ 60)), (le a (ofZ 150));
    cbn; lia.
Qed.

(** X5. All else equal, a business with more reviews never scores
    higher than one with fewer. *)
Theorem more_reviews_never_score_higher
    (r : option number) (few many : number) (w p status : option string) :
  le few many = true ->
  score (computeAutomationNeedScoreDetailed
           {| rating := r; user_ratings_total := Some many; website := w;
              phone := p; business_status := status |})
  <= score (computeAutomationNeedScoreDetailed
              {| rating := r; user_ratings_total := Some few; website := w;
                 phone := p; business_status := status |}).
Proof.
  intros Hle.
  set (a := {| user_ratings_total := Some many |}).
  set (b := {| user_ratings_total := Some few |}).
  destruct (closedInput a) eqn:Hc.
  - unfold computeAutomationNeedScoreDetailed. unfold closedInput in Hc.
    cbn in Hc |- *. by rewrite Hc.
  - assert (Hc' : closedInput b = false) by exact Hc.
    rewrite (open_score _ Hc), (open_score _ Hc'), !accumulate_score.
    subst a b.
    cbn [website phone business_status rating user_ratings_total from_option id].
    pose proof (reviewTier_antitone few many Hle). lia.
Qed.

Lemma more_reviews_never_score_higher_witness :
  score (computeAutomationNeedScoreDetailed
           {| rating := None; user_ratings_total := Some (ofZ 200); website := None;
              phone := None; business_status := None |})
  <= score (computeAutomationNeedScoreDetailed
              {| rating := None; user_ratings_total := Some (ofZ 3); website := None;
                 phone := None; business_status := None |}).
Proof. apply more_reviews_never_score_higher. reflexivity. Defined.

(** X6. All else equal, and unless the business is permanently closed,
    a business without a website scores at least 17 points more than
    one with any website: 25 against at most 8. *)
Theorem no_website_scores_17_more
    (r n : option number) (w : string) (p status : option string) :
  trim w <> "" ->
  isPermanentlyClosed (trim (default "" status)) = false ->
  score (computeAutomationNeedScoreDetailed
           {| rating := r; user_ratings_total := n; website := Some w;
              phone := p; business_status := status |}) + 17
  <= score (computeAutomationNeedScoreDetailed
              {| rating := r; user_ratings_total := n; website := None;
                 phone := p; business_status := status |}).
Proof.
  intros Hw Hc.
  rewrite !open_score by exact Hc. rewrite !accumulate_score.
  cbn [website phone business_status rating user_ratings_total from_option id].
  change (websitePoints (trim "")) with 25.
  unfold websitePoints. destruct (isEmpty (trim w)) eqn:He.
  { destruct (trim w); [done | discriminate He]. }
  destruct (builderPenalty_cases (trim w)) as [-> | ->]; lia.
Qed.

Lemma no_website_scores_17_more_witness :
  score (computeAutomationNeedScoreDetailed
           {| rating := None; user_ratings_total := None;
              website := Some "https://acme.wixsite.com/home";
              phone := None; business_status := None |}) + 17
  <= score (computeAutomationNeedScoreDetailed
              {| rating := None; user_ratings_total := None; website := None;
                 phone := None; business_status := None |}).
Proof. apply no_website_scores_17_more; [vm_compute; discriminate | reflexivity]. Defined.

End ScoringMore.

(** ** More on the trust classifier *)

Module WebsiteVerificationMore.
Import JS JSFacts JSMore WebsiteVerification DeepVerification Measures.

Lemma isEmpty_false (s : string) : isEmpty s = false <-> s <> "".
Proof. destruct s; cbn; split; congruence. Qed.

Lemma trimStart_fixed s : leadingSpace s = false -> trimStart s = s.
Proof. destruct s as [|c s]; [done |]. cbn. by intros ->. Qed.

Lemma leadingSpace_trimStart s : leadingSpace (trimStart s) = false.
Proof.
  induction s as [|c s IH]; [done |]. cbn.
  destruct (isSpace c) eqn:Hc; [done |]. cbn. exact Hc.
Qed.

Lemma leadingSpace_trimEnd s : leadingSpace s = false -> leadingSpace (trimEnd s) = false.
Proof. destruct s as [|c s]; [done |]. cbn. intros Hc. rewrite Hc. cbn. exact Hc. Qed.

Lemma trimEnd_idempotent s : trimEnd (trimEnd s) = trimEnd s.
Proof.
  induction s as [|c s IH]; [done |]. cbn [trimEnd].
  destruct (isSpace c && isEmpty (trimEnd s)) eqn:Hc; [done |].
  cbn [trimEnd]. by rewrite IH, Hc.
Qed.

Lemma trim_idempotent s : trim (trim s) = trim s.
Proof.
  unfold trim.
  rewrite (trimStart_fixed (trimEnd (trimStart s))).
  - apply trimEnd_idempotent.
  - apply leadingSpace_trimEnd, leadingSpace_trimStart.
Qed.

Section WithURL.
Variable hostname : string -> option string.

Abbreviation quick := (quickVerifyWebsite hostname).

(** Brings [quickVerifyWebsite] on a non-blank URL with a host name to
    the part of its body after the two early returns. *)
Ltac main_path u Hu Hd :=
  unfold quickVerifyWebsite;
  let H := fresh in
  assert (H : isEmpty u || isEmpty (trim u) = false)
    by (apply orb_false_iff; split; apply isEmpty_false;
        [intros -> | idtac]; apply Hu; reflexivity || exact Hu);
  rewrite H; clear H;
  let H := fresh in
  assert (H : isEmpty (extractDomain hostname (trim u)) = false)
    by (apply isEmpty_false; exact Hd);
  rewrite H; clear H.

Lemma spam_domain_not_empty d : isSpamDomain d = true -> d <> "".
Proof. intros H ->. discriminate H. Qed.

(** X7. A URL whose host name contains one of the known spam or
    shortener domains is always classified as likely spam: its trust
    score is at most 20 and it is not valid, whatever else the URL
    holds. *)
Theorem spam_domain_is_likely_spam (u : string) :
  trim u <> "" ->
  isSpamDomain (extractDomain hostname (trim u)) = true ->
  let v := quick (Some u) in
  trustScore v <= 20 /\ isLikelySpam v = true /\ isValid v = false /\
  "Known spam/redirect domain" ∈ flags v.
Proof.
  intros Hu Hs. pose proof (spam_domain_not_empty _ Hs) as Hd.
  cbn zeta. main_path u Hu Hd. rewrite Hs.
  unfold penalize.
  repeat match goal with |- context [if ?b then _ else _] => destruct b end;
    cbn; repeat split; try lia; try done; set_solver.
Qed.

(** X8. For a non-blank URL whose host name parses, the trust score is
    100 exactly when no flag is raised; one flag already brings it to
    85 or less. *)
Theorem clean_iff_no_flag (u : string) :
  trim u <> "" ->
  extractDomain hostname (trim u) <> "" ->
  let v := quick (Some u) in
  (flags v = [] <-> trustScore v = 100) /\
  (flags v <> [] -> trustScore v <= 85).
Proof.
  intros Hu Hd. cbn zeta. main_path u Hu Hd.
  unfold penalize.
  repeat match goal with |- context [if ?b then _ else _] => destruct b end;
    cbn; repeat split; intros; try lia; try done.
Qed.

(** X9. Whitespace around the URL does not change the verdict. *)
Theorem verdict_ignores_outer_whitespace (u : string) :
  quick (Some u) = quick (Some (trim u)).
Proof.
  unfold quickVerifyWebsite. rewrite trim_idempotent.
  destruct (isEmpty (trim u)) eqn:Ht.
  - by rewrite !orb_true_r.
  - rewrite !orb_false_r. destruct (isEmpty u) eqn:Hu; [| done].
    destruct u; [discriminate Ht | discriminate Hu].
Qed.

End WithURL.

Import Examples.

Lemma spam_domain_is_likely_spam_witness :
  let v := quickVerifyWebsite plainHostname (Some " https://bit.ly/3xYz ") in
  trustScore v <= 20 /\ isLikelySpam v = true /\ isValid v = false /\
  "Known spam/redirect domain" ∈ flags v.
Proof.
  apply (spam_domain_is_likely_spam plainHostname " https://bit.ly/3xYz ");
    [vm_compute; discriminate | reflexivity].
Defined.

Lemma clean_iff_no_flag_witness :
  let v := quickVerifyWebsite plainHostname (Some "acme-roofing.com") in
  (flags v = [] <-> trustScore v = 100) /\
  (flags v <> [] -> trustScore v <= 85).
Proof.
  apply (clean_iff_no_flag plainHostname "acme-roofing.com");
    vm_compute; discriminate.
Defined.

Section WithNetwork.
Variable hostname : string -> option string.
Variable fetchHead : string -> fetched.

Abbreviation quick := (quickVerifyWebsite hostname).
Abbreviation deep := (deepVerifyWebsite hostname fetchHead).

Lemma quick_range url : 0 <= trustScore (quick url) <= 100.
Proof.
  unfold quickVerifyWebsite. destruct url as [u |]; [| cbn; lia].
  destruct (_ || _); [cbn; lia |]. destruct (isEmpty _); cbn; lia.
Qed.

(** A verdict flagged likely spam comes from the main path of the quick
    check, where the three flags follow the thresholds. *)
Lemma quick_spam_thresholds url :
  isLikelySpam (quick url) = true ->
  (isValid (quick url) = true <-> trustScore (quick url) >= 50) /\
  (isLikelySpam (quick url) = true <-> trustScore (quick url) < 30) /\
  (isSuspicious (quick url) = true <-> trustScore (quick url) < 50).
Proof.
  unfold quickVerifyWebsite. destruct url as [u |]; [| discriminate].
  destruct (_ || _); [discriminate |]. destruct (isEmpty _); [discriminate |].
  intros _. cbn zeta. cbn [trustScore isValid isLikelySpam isSuspicious].
  match goal with |- context [Z.min 100 ?z] =>
    destruct (WebsiteVerificationFacts.thresholds_of_clamped z) as (_ & Hv & Hs & Hp)
  end.
  cbn zeta in Hv, Hs, Hp. tauto.
Qed.

Lemma penalize_score guard flag pts st :
  (penalize guard flag pts st).2 = st.2 - (if guard then pts else 0).
Proof. unfold penalize. destruct guard; cbn; lia. Qed.

Lemma spam_domain_flagged u :
  trim u <> "" ->
  isSpamDomain (extractDomain hostname (trim u)) = true ->
  isLikelySpam (quick (Some u)) = true.
Proof.
  intros Hu Hs. pose proof (spam_domain_not_empty _ Hs) as Hd.
  unfold quickVerifyWebsite.
  assert (H : isEmpty u || isEmpty (trim u) = false).
  { apply orb_false_iff. split; apply isEmpty_false; [by intros -> | done]. }
  rewrite H. clear H.
  assert (H : isEmpty (extractDomain hostname (trim u)) = false)
    by by apply isEmpty_false.
  rewrite H, Hs. clear H. unfold penalize.
  repeat match goal with |- context [if ?b then _ else _] => destruct b end;
    reflexivity.
Qed.

(** X10. For a URL on a known spam or shortener domain the deep
    verification sends no request: whatever the network would answer,
    it returns the verdict of the quick check, without details. *)
Theorem spam_domain_skips_request (u : string) :
  trim u <> "" ->
  isSpamDomain (extractDomain hostname (trim u)) = true ->
  deep u = {| verdict := quick (Some u); details := None |}.
Proof.
  intros Hu Hs. unfold deepVerifyWebsite.
  by rewrite (spam_domain_flagged u Hu Hs).
Qed.

(** X11. The deep verification never reports a higher trust score than
    the quick check of the same URL. *)
Theorem deep_never_raises_trust (u : string) :
  trustScore (verdict (deepVerifyWebsite hostname fetchHead u))
  <= trustScore (quickVerifyWebsite hostname (Some u)).
Proof.
  pose proof (quick_range (Some u)) as Hq. unfold deepVerifyWebsite.
  destruct (isLikelySpam (quick (Some u))); [done |].
  destruct (fetchHead _) as [response | name message];
    cbn [verdict trustScore].
  - repeat match goal with
           | |- context [if ?b then penalize _ _ _ _ else _] => destruct b
           end;
      rewrite !penalize_score; cbn [snd];
      repeat match goal with |- context [if ?b then _ else _] => destruct b end;
      lia.
  - destruct (String.eqb name "AbortError"); rewrite penalize_score; cbn; lia.
Qed.

(** X12. Whenever the network answers the request, the deep verdict
    has its score in [0,100] and its three flags follow the thresholds
    50, 30 and 50; this also holds when the quick check flagged spam
    and the request is not sent. *)
Theorem answered_verdict_follows_thresholds (u : string) (response : Response) :
  fetchHead (if startsWith u "http" then u else "https://" +:+ u) = Answered response ->
  let v := verdict (deep u) in
  0 <= trustScore v <= 100 /\
  (isValid v = true <-> trustScore v >= 50) /\
  (isLikelySpam v = true <-> trustScore v < 30) /\
  (isSuspicious v = true <-> trustScore v < 50).
Proof.
  intros Hf. cbn zeta. unfold deepVerifyWebsite.
  destruct (isLikelySpam (quick (Some u))) eqn:Hs.
  - cbn [verdict]. split; [apply quick_range | by apply quick_spam_thresholds].
  - rewrite Hf. cbn [verdict trustScore isValid isLikelySpam isSuspicious].
    match goal with |- context [Z.min 100 ?z] =>
      destruct (WebsiteVerificationFacts.thresholds_of_clamped z) as (Hr & Hv & Hl & Hp)
    end.
    cbn zeta in Hr, Hv, Hl, Hp. tauto.
Qed.

(** X13. When the request fails after a quick check that did not flag
    spam, the deep verdict is never likely spam and always suspicious,
    and its score is the quick score minus 20 for a timeout and minus 15
    for any other error, without clamping: it is negative when the quick
    score was 0. *)
Theorem failed_request_verdict (u name message : string) :
  isLikelySpam (quick (Some u)) = false ->
  fetchHead (if startsWith u "http" then u else "https://" +:+ u) = Failed name message ->
  let v := verdict (deep u) in
  isLikelySpam v = false /\ isSuspicious v = true /\
  trustScore v
  = trustScore (quick (Some u)) - (if String.eqb name "AbortError" then 20 else 15) /\
  (isValid v = true <-> trustScore v >= 50) /\
  (trustScore (quick (Some u)) = 0 -> trustScore v < 0) /\
  details (deep u) = None.
Proof.
  intros Hs Hf. cbn zeta. unfold deepVerifyWebsite. rewrite Hs, Hf.
  cbn [verdict details trustScore isValid isLikelySpam isSuspicious].
  destruct (String.eqb name "AbortError"); rewrite penalize_score; cbn [snd];
    rewrite Z.leb_le; repeat split; intros; lia.
Qed.
End WithNetwork.

Lemma spam_domain_skips_request_witness :
  deepVerifyWebsite plainHostname (fun u => Answered (okResponse u)) "http://tinyurl.com/abc"
  = {| verdict := quickVerifyWebsite plainHostname (Some "http://tinyurl.com/abc");
       details := None |}.
Proof.
  apply spam_domain_skips_request; [vm_compute; discriminate | reflexivity].
Defined.

Lemma answered_verdict_follows_thresholds_witness :
  let v := verdict (deepVerifyWebsite plainHostname (fun u => Answered (okResponse u))
                      "acme-roofing.com") in
  0 <= trustScore v <= 100 /\
  (isValid v = true <-> trustScore v >= 50) /\
  (isLikelySpam v = true <-> trustScore v < 30) /\
  (isSuspicious v = true <-> trustScore v < 50).
Proof.
  exact (answered_verdict_follows_thresholds plainHostname
           (fun u => Answered (okResponse u)) "acme-roofing.com" _ eq_refl).
Defined.

Lemma failed_request_verdict_witness :
  let v := verdict (deepVerifyWebsite plainHostname (fun _ => Failed "TypeError" "Invalid URL")
                      "not a url") in
  isLikelySpam v = false /\ isSuspicious v = true /\ trustScore v = -15.
Proof.
  pose proof (failed_request_verdict plainHostname (fun _ => Failed "TypeError" "Invalid URL")
                "not a url" "TypeError" "Invalid URL" eq_refl eq_refl)
    as (H1 & H2 & H3 & _).
  exact (conj H1 (conj H2 H3)).
Defined.

End WebsiteVerificationMore.

(** ** More on e-mail discovery *)

Module EmailDiscoveryMore.
Import JS JSFacts JSMore EmailDiscovery EmailValidation EmailMeasures.

(** X14. The confidence of an address grows with the trust of its
    source and with its validation result, all else equal: pattern
    guess, then text match, then [mailto:] link; invalid, then unknown,
    then valid. *)
Theorem confidence_monotone (email domain : string) :
  (forall v,
     scoreEmailConfidence email (Some "pattern-common") v domain
     <= scoreEmailConfidence email (Some "scraped-html") v domain
     <= scoreEmailConfidence email (Some "scraped-mailto") v domain) /\
  (forall source,
     scoreEmailConfidence email source invalid domain
     <= scoreEmailConfidence email source unknown domain
     <= scoreEmailConfidence email source valid domain).
Proof.
  unfold scoreEmailConfidence. split.
  - intros v. repeat case_bool_decide; try done; destruct v, (includes email domain); lia.
  - intros source. repeat case_bool_decide; destruct (includes email domain); lia.
Qed.

Lemma filter_all {A} (P : A -> Prop) `{forall x, Decision (P x)} (l : list A) :
  Forall P l -> filter P l = l.
Proof.
  induction 1 as [|x l Hx _ IH]; [done |].
  rewrite filter_cons. case_decide; [by rewrite IH | done].
Qed.

Lemma filter_none {A} (P : A -> Prop) `{forall x, Decision (P x)} (l : list A) :
  Forall (fun x => ~ P x) l -> filter P l = [].
Proof.
  induction 1 as [|x l Hx _ IH]; [done |].
  rewrite filter_cons. case_decide; [done | exact IH].
Qed.

(** In a list sorted by descending key, the elements whose key reaches a
    threshold form a prefix. *)
Lemma sorted_filter_prefix {A} (key : A -> Z) (threshold : Z) (l : list A) :
  StronglySorted (fun a b => key b <= key a) l ->
  filter (fun e => threshold <= key e) l `prefix_of` l.
Proof.
  induction 1 as [|x l Hl IH Hx]; [done |].
  rewrite filter_cons. case_decide as Ht.
  - by apply prefix_cons.
  - rewrite filter_none; [apply prefix_nil |].
    eapply Forall_impl; [exact Hx |]. cbn. intros; lia.
Qed.

Section WithPlatform.
Variable hostname : string -> option string.
Variable fetch : string -> outcome Response.
Variable matchEmails : string -> list string.
Variable matchMailto : string -> list string.
Variable resolveMx : string -> outcome nat.

Abbreviation discover := (discoverEmails hostname fetch matchEmails matchMailto resolveMx).
Abbreviation scrape := (scrapeEmailsFromWebsite fetch matchEmails matchMailto).
Abbreviation generate := (generateEmailPatterns hostname).

(** *** The validation loop *)

Lemma validateOne_keeps hasMX domain sources l st e :
  st.2 !! e = Some (verdictOf hasMX e) ->
  st.1 !! e = Some (if negb (isValidEmailFormat e) then 0
                    else scoreEmailConfidence e (sources !! e) (verdictOf hasMX e) domain) ->
  let st' := foldl (validateOne hasMX domain sources) st l in
  st'.2 !! e = Some (verdictOf hasMX e) /\
  st'.1 !! e = Some (if negb (isValidEmailFormat e) then 0
                     else scoreEmailConfidence e (sources !! e) (verdictOf hasMX e) domain).
Proof.
  cbn zeta. revert st. induction l as [|x l IH]; intros st H2 H1; cbn [foldl]; [done |].
  apply IH; unfold validateOne, verdictOf in *.
  - destruct (negb (isValidEmailFormat x)) eqn:Hx; cbn;
      rewrite lookup_insert; case_decide as Hk; subst; rewrite ?Hx; done.
  - destruct (negb (isValidEmailFormat x)) eqn:Hx; cbn;
      rewrite lookup_insert; case_decide as Hk; subst; rewrite ?Hx; done.
Qed.

Lemma validate_all hasMX domain sources l st e :
  e ∈ l ->
  let st' := foldl (validateOne hasMX domain sources) st l in
  st'.2 !! e = Some (verdictOf hasMX e) /\
  st'.1 !! e = Some (if negb (isValidEmailFormat e) then 0
                     else scoreEmailConfidence e (sources !! e) (verdictOf hasMX e) domain).
Proof.
  cbn zeta. revert st. induction l as [|x l IH]; intros st He;
    [by apply elem_of_nil in He |].
  cbn [foldl]. apply elem_of_cons in He as [-> | He]; [| by apply IH].
  apply validateOne_keeps; unfold validateOne, verdictOf;
    destruct (negb (isValidEmailFormat x)) eqn:Hx; cbn;
    rewrite lookup_insert_eq, ?Hx; done.
Qed.

(** *** The candidate set *)

Lemma collected_addScraped l st : collected st -> collected (foldl addScraped st l).
Proof.
  revert st. induction l as [|x l IH]; intros st [Hin Hv]; cbn [foldl]; [done |].
  apply IH. split; cbn.
  - intros e [He | ->]%Set_add_elem.
    + rewrite lookup_insert. case_decide; [done | by apply Hin].
    + by rewrite lookup_insert_eq.
  - intros k v. rewrite lookup_insert. case_decide.
    + intros [= <-]. by left.
    + apply Hv.
Qed.

Lemma collected_addPattern l st : collected st -> collected (foldl addPattern st l).
Proof.
  revert st. induction l as [|x l IH]; intros st [Hin Hv]; cbn [foldl]; [done |].
  apply IH. split; cbn.
  - intros e [He | ->]%Set_add_elem.
    + destruct (falsy _); [| by apply Hin].
      rewrite lookup_insert. case_decide; [done | by apply Hin].
    + destruct (st.2 !! toLowerCase x) as [s |] eqn:Hs; cbn.
      * destruct (isEmpty s); [by rewrite lookup_insert_eq | by rewrite Hs].
      * by rewrite lookup_insert_eq.
  - intros k v. destruct (falsy _); [| apply Hv].
    rewrite lookup_insert. case_decide.
    + intros [= <-]. by right.
    + apply Hv.
Qed.

Lemma collected_collect scraped patterns : collected (collect scraped patterns).
Proof.
  unfold collect. apply collected_addPattern, collected_addScraped.
  split; [by intros e ?%elem_of_nil |].
  intros k v H. cbn in H. by rewrite lookup_empty in H.
Qed.

Lemma known_source_confidence email source domain :
  knownSource source ->
  60 <= scoreEmailConfidence email (Some source) unknown domain <= 95.
Proof.
  unfold scoreEmailConfidence.
  intros [-> | ->]; repeat case_bool_decide; try done;
    destruct (includes email domain); lia.
Qed.

(** What [discoverEmails] computes when the domain parses. *)
Lemma discover_unfold businessName website domain :
  extractDomain hostname website = Some domain -> domain <> "" ->
  let st := collect (scrape website) (generate businessName website) in
  let hasMX := checkMXRecords resolveMx domain in
  let vs := foldl (validateOne hasMX domain st.2) (∅, ∅) st.1 in
  discover businessName website
  = {| emails := sort (byConfidence vs.1)
                   (filter (fun e => notInvalid vs.2 e = true) st.1);
       patterns := generate businessName website;
       confidence := vs.1; validationResults := vs.2; sources := st.2 |}.
Proof.
  intros Hd Hne. cbn zeta. unfold discoverEmails. rewrite Hd.
  assert (Hf : falsy (Some domain) = false) by (by destruct domain).
  rewrite Hf. change (default "" (Some domain)) with domain.
  destruct (collect _ _) as [allEmails srcs]. cbn [fst snd].
  by destruct (foldl _ _ allEmails).
Qed.

(** X15. When the domain of the website has no MX record, or the lookup
    fails, [discoverEmails] returns no address at all, while the
    generated patterns are still listed. *)
Theorem no_mx_no_emails (businessName website domain : string) :
  extractDomain hostname website = Some domain -> domain <> "" ->
  checkMXRecords resolveMx domain = false ->
  emails (discover businessName website) = [] /\
  patterns (discover businessName website) = generate businessName website /\
  patterns (discover businessName website) <> [].
Proof.
  intros Hd Hne Hmx. rewrite (discover_unfold _ _ _ Hd Hne). cbn [emails patterns].
  rewrite Hmx. split; [| split; [done |]].
  - rewrite filter_none; [done |]. apply Forall_forall. intros e He.
    destruct (validate_all false domain
                (collect (scrape website) (generate businessName website)).2
                _ (∅, ∅) e He) as [Hv _].
    unfold notInvalid. rewrite Hv. unfold verdictOf.
    by destruct (negb (isValidEmailFormat e)).
  - unfold generateEmailPatterns. rewrite Hd.
    assert (Hf : falsy (Some domain) = false) by (by destruct domain).
    rewrite Hf. intros Hnil.
    assert (Hin : "estimate@" +:+ default "" (Some domain) ∈ @nil string).
    { rewrite <- Hnil. apply Array_from_Set_elem.
      apply elem_of_app. right. by left. }
    by apply elem_of_nil in Hin.
Qed.

(** X16. Every address that [discoverEmails] returns has a valid format
    and the validation result [unknown] (never [valid]), carries one of
    the two source tags, and has a confidence between 60 and 95.  The
    filter at the threshold 60, the one the orchestrator applies,
    therefore keeps the whole list. *)
Theorem returned_emails_score_60_to_95 (businessName website : string) :
  let r := discover businessName website in
  (forall e, e ∈ emails r ->
     isValidEmailFormat e = true /\
     validationResults r !! e = Some unknown /\
     (exists source, sources r !! e = Some source /\ knownSource source) /\
     60 <= confidenceOf (confidence r) e <= 95) /\
  getEmailsByConfidence r 60 = emails r.
Proof.
  cbn zeta.
  assert (Hall : forall e, e ∈ emails (discover businessName website) ->
     isValidEmailFormat e = true /\
     validationResults (discover businessName website) !! e = Some unknown /\
     (exists source, sources (discover businessName website) !! e = Some source /\
                     knownSource source) /\
     60 <= confidenceOf (confidence (discover businessName website)) e <= 95).
  { destruct (extractDomain hostname website) as [domain |] eqn:Hd.
    2: { unfold discoverEmails. rewrite Hd. cbn. by intros e ?%elem_of_nil. }
    destruct (decide (domain = "")) as [-> | Hne].
    { unfold discoverEmails. rewrite Hd. cbn. by intros e ?%elem_of_nil. }
    rewrite (discover_unfold _ _ _ Hd Hne).
    cbn [emails validationResults sources confidence].
    intros e He.
    change (byConfidence ?c) with (descending (confidenceOf c)) in He.
    rewrite sort_perm in He. apply list_elem_of_filter in He as [Hok He].
    destruct (validate_all (checkMXRecords resolveMx domain) domain
                (collect (scrape website) (generate businessName website)).2
                _ (∅, ∅) e He) as [Hv Hc].
    destruct (collected_collect (scrape website) (generate businessName website))
      as [Hin Hknown].
    destruct (Hin e He) as [source Hs].
    unfold notInvalid in Hok. rewrite Hv in Hok. unfold verdictOf in Hok, Hv, Hc.
    destruct (isValidEmailFormat e); cbn in Hok, Hv, Hc; [| done].
    destruct (checkMXRecords resolveMx domain); cbn in Hok, Hv, Hc; [| done].
    split; [done |]. split; [done |]. split; [eauto |].
    unfold confidenceOf. rewrite Hc, Hs. cbn.
    apply known_source_confidence. eauto. }
  split; [exact Hall |].
  unfold getEmailsByConfidence. apply filter_all, Forall_forall.
  intros e He. destruct (Hall e He) as (_ & _ & _ & Hc). lia.
Qed.

(** X17. For every threshold the addresses that reach it are the first
    addresses of the returned list, so when there is any, the first of
    them is the best address. *)
Theorem confident_emails_are_a_prefix (businessName website : string) (threshold : Z) :
  let r := discover businessName website in
  getEmailsByConfidence r threshold `prefix_of` emails r /\
  (getEmailsByConfidence r threshold <> [] ->
   head (getEmailsByConfidence r threshold) = getBestEmail r).
Proof.
  cbn zeta.
  assert (Hp : getEmailsByConfidence (discover businessName website) threshold
               `prefix_of` emails (discover businessName website)).
  { unfold getEmailsByConfidence. apply sorted_filter_prefix.
    unfold discoverEmails. destruct (falsy _); [constructor |].
    destruct (collect _ _) as [allEmails srcs].
    destruct (foldl _ _ allEmails) as [conf vals]. cbn [emails confidence].
    apply (sort_sorted (confidenceOf conf)). }
  split; [exact Hp |].
  intros Hne. destruct Hp as [rest Hp]. unfold getBestEmail. rewrite Hp.
  destruct (getEmailsByConfidence _ threshold) as [|x l]; [done |]. done.
Qed.

(** The generated addresses are pairwise distinct; when the domain
    of the website parses they include the role address [info@domain],
    and otherwise there is none. *)
Lemma generated_addresses_distinct (businessName website : string) :
  NoDup (generate businessName website) /\
  (forall domain, extractDomain hostname website = Some domain -> domain <> "" ->
     "info@" +:+ domain ∈ generate businessName website) /\
  (falsy (extractDomain hostname website) = true -> generate businessName website = []).
Proof.
  split; [| split].
  - unfold generateEmailPatterns. destruct (falsy _); [constructor |].
    apply Array_from_Set_NoDup.
  - intros domain Hd Hne. unfold generateEmailPatterns. rewrite Hd.
    assert (Hf : falsy (Some domain) = false) by (by destruct domain).
    rewrite Hf. apply Array_from_Set_elem.
    change (default "" (Some domain)) with domain.
    apply elem_of_app. left. destruct (_ && _).
    + apply elem_of_app. left. by left.
    + by left.
  - intros Hf. unfold generateEmailPatterns. by rewrite Hf.
Qed.


(** X19. When the page is served, the scraped addresses are exactly the
    text matches that pass the junk filter together with all [mailto:]
    targets - the junk filter does not apply to those - and none occurs
    twice.  When the fetch fails, the response is not ok or the body
    cannot be read, nothing is scraped. *)
Theorem scraped_addresses (website : string) :
  let u := if startsWith website "http" then website else "https://" +:+ website in
  NoDup (scrape website) /\
  (forall response html, fetch u = Returned response -> ok response = true ->
     text response = Returned html ->
     forall e, e ∈ scrape website <->
               (e ∈ matchEmails html /\ notJunk e = true) \/ e ∈ matchMailto html) /\
  (forall message, fetch u = Thrown message -> scrape website = []) /\
  (forall response, fetch u = Returned response -> ok response = false ->
     scrape website = []) /\
  (forall response message, fetch u = Returned response ->
     text response = Thrown message -> scrape website = []).
Proof.
  clear hostname resolveMx. cbn zeta. unfold scrapeEmailsFromWebsite.
  split; [| split; [| split; [| split]]].
  - destruct (fetch _) as [response |]; [| constructor].
    destruct (ok response); cbn; [| constructor].
    destruct (text response); [apply Array_from_Set_NoDup | constructor].
  - intros response html -> -> -> e. cbn.
    rewrite Array_from_Set_elem. unfold pageEmails.
    rewrite elem_of_app, list_elem_of_filter. tauto.
  - by intros message ->.
  - by intros response -> ->.
  - intros response message -> ->. by destruct (ok response).
Qed.
End WithPlatform.

Import Examples.

Lemma no_mx_no_emails_witness :
  emails (discoverEmails plainHostname (serve acmePage) acmeTextMatches
            acmeMailtoMatches noMxRecord "Acme Roofing LLC" "www.acme.com") = [].
Proof.
  refine (proj1 (no_mx_no_emails plainHostname (serve acmePage) acmeTextMatches
                   acmeMailtoMatches noMxRecord "Acme Roofing LLC" "www.acme.com"
                   "acme.com" eq_refl _ eq_refl)).
  discriminate.
Defined.

Lemma returned_emails_score_60_to_95_witness :
  60 <= confidenceOf (confidence acmeDiscovery) "owner@acme.com" <= 95.
Proof.
  refine (proj2 (proj2 (proj2
            (proj1 (returned_emails_score_60_to_95 plainHostname (serve acmePage)
                      acmeTextMatches acmeMailtoMatches oneMxRecord
                      "Acme Roofing LLC" "www.acme.com") "owner@acme.com" _)))).
  compute_decision.
Defined.

Lemma confident_emails_are_a_prefix_witness :
  head (getEmailsByConfidence acmeDiscovery 85) = getBestEmail acmeDiscovery.
Proof.
  refine (proj2 (confident_emails_are_a_prefix plainHostname (serve acmePage)
                   acmeTextMatches acmeMailtoMatches oneMxRecord
                   "Acme Roofing LLC" "www.acme.com" 85) _).
  vm_compute. discriminate.
Defined.

Lemma generated_addresses_distinct_witness :
  "info@acme.com" ∈ generateEmailPatterns plainHostname "Acme Roofing LLC" "www.acme.com".
Proof.
  refine (proj1 (proj2 (generated_addresses_distinct plainHostname
                          "Acme Roofing LLC" "www.acme.com")) "acme.com" eq_refl _).
  discriminate.
Defined.


Lemma scraped_addresses_witness :
  "noreply@acme.com"
    ∈ scrapeEmailsFromWebsite (serve acmePage) acmeTextMatches
        (fun _ => ["noreply@acme.com"]) "www.acme.com".
Proof.
  refine (proj2 (proj1 (proj2 (scraped_addresses (serve acmePage) acmeTextMatches
                                 (fun _ => ["noreply@acme.com"]) "www.acme.com"))
                   _ acmePage eq_refl eq_refl eq_refl "noreply@acme.com") _).
  right. compute_decision.
Defined.

End EmailDiscoveryMore.

(** ** More on the website intelligence extractor *)

Module WebsiteIntelligenceMore.
Import JS JSFacts JSMore WebsiteIntelligence.

(** *** Substrings *)

Lemma startsWith_spec s p : startsWith s p = true <-> exists b, s = p +:+ b.
Proof.
  revert s. induction p as [|a p IH]; intros s; cbn.
  - split; [by exists s | done].
  - destruct s as [|c s].
    + split; [done | by intros [b Hb]].
    + rewrite andb_true_iff, IH, Ascii.eqb_eq. split.
      * intros [-> [b ->]]. by exists b.
      * intros [b [= -> ->]]. eauto.
Qed.

Lemma append_assoc (a b c : string) : (a +:+ b) +:+ c = a +:+ b +:+ c.
Proof.
  induction a as [|x a IH]; [done |].
  change (String x ((a +:+ b) +:+ c) = String x (a +:+ b +:+ c)). by rewrite IH.
Qed.

Lemma includes_spec s p : includes s p = true <-> exists a b, s = a +:+ p +:+ b.
Proof.
  induction s as [|c s IH]; cbn [includes]; rewrite orb_true_iff, startsWith_spec.
  - split.
    + intros [[b Hb] | H]; [by exists "", b | done].
    + intros (a & b & H). left. destruct a; [by exists b | done].
  - rewrite IH. split.
    + intros [[b Hb] | (a & b & ->)]; [by exists "", b |].
      by exists (String c a), b.
    + intros ([|x a] & b & H); [left; by exists b |].
      right. injection H as -> ->. eauto.
Qed.

(** A text that holds a phrase holds every part of the phrase. *)
Lemma includes_trans s p q :
  includes s p = true -> includes p q = true -> includes s q = true.
Proof.
  rewrite !includes_spec. intros (a & b & ->) (a' & b' & ->).
  exists (a +:+ a'), (b' +:+ b). by rewrite !append_assoc.
Qed.

(** X20. The certification labels overlap: a page that shows "ISO
    Certified" or "Green Certified" is also reported as "Certified", and
    one that shows "Licensed & Insured" also as "Insured". *)
Theorem certifications_overlap (html : string) :
  ("ISO Certified" ∈ extractCertifications html ->
   "Certified" ∈ extractCertifications html) /\
  ("Green Certified" ∈ extractCertifications html ->
   "Certified" ∈ extractCertifications html) /\
  ("Licensed & Insured" ∈ extractCertifications html ->
   "Insured" ∈ extractCertifications html).
Proof.
  unfold extractCertifications. rewrite !list_elem_of_filter.
  split; [| split]; intros [H _];
    (split; [eapply includes_trans; [exact H | reflexivity] | compute_decision]).
Qed.

Lemma certifications_overlap_witness :
  "Certified" ∈ extractCertifications "<p>We are ISO certified.</p>".
Proof.
  refine (proj1 (certifications_overlap "<p>We are ISO certified.</p>") _).
  compute_decision.
Defined.

Lemma finding_prefix cond line l : l `prefix_of` finding cond line l.
Proof. unfold finding. destruct cond; [by eexists | done]. Qed.

Lemma nonEmpty_true {A} (l : list A) : nonEmpty l = true <-> l <> [].
Proof. by destruct l. Qed.

Section WithPlatform.
Variable search : pattern -> string -> option (list string).
Variable searchAll : pattern -> string -> list (list string).
Variable currentYear : Z.
Variable fetch : string -> outcome Response.

Abbreviation extract := (extractWebsiteIntelligence search searchAll currentYear fetch).
Abbreviation analysed := (analyse search searchAll currentYear).

(** Every result is the empty snapshot or the analysis of a page. *)
Lemma extract_cases website r :
  extract website = Returned r ->
  (exists findings, r = createEmptyResult findings /\
     exists rest, findings = ("Fetching " +:+
       (if startsWith website "http" then website else "https://" +:+ website)
       +:+ "...") :: rest /\ rest <> []) \/
  (exists html headers,
     r = analysed html headers
           ["Fetching " +:+
            (if startsWith website "http" then website else "https://" +:+ website)
            +:+ "..."]).
Proof.
  unfold extractWebsiteIntelligence, tryBlock.
  destruct (fetch _) as [response | message].
  - destruct (ok response); cbn [negb].
    + destruct (text response) as [html | message]; intros [= <-].
      * right. eauto.
      * left. eexists. split; [done |]. eexists. split; [done | done].
    + intros [= <-]. left. eexists. split; [done |]. eexists. split; [done | done].
  - intros [= <-]. left. eexists. split; [done |]. eexists. split; [done | done].
Qed.

(** X21. The completeness of every result lies between 0 and 100 and is
    a multiple of 5; the eight category weights add up to exactly 100,
    so the cap at 100 never changes the sum. *)
Theorem completeness_range (website : string) (r : WebsiteIntelligenceResult) :
  extract website = Returned r ->
  0 <= completeness r <= 100 /\ (5 | completeness r).
Proof.
  intros [(findings & -> & _) | (html & headers & ->)]%extract_cases.
  - cbn. split; [lia | by exists 0].
  - unfold analyse. cbn [completeness].
    repeat match goal with |- context [if ?b then _ else _] => destruct b end;
      cbn; (split; [lia |]);
      match goal with |- (5 | ?n) => exists (n / 5); reflexivity end.
Qed.

(** X22. In every result the contact flags agree with the technology
    lists: live chat is reported exactly when a chat widget is listed,
    a booking system exactly when one is listed, and a booking URL is
    given only when Calendly is among the booking systems. *)
Theorem flags_agree_with_lists (website : string) (r : WebsiteIntelligenceResult) :
  extract website = Returned r ->
  (hasLiveChat (contactMethods r) = true <->
   exists l, chatWidgets (technology r) = Some l /\ l <> []) /\
  (hasBookingSystem (contactMethods r) = true <->
   exists l, bookingSystems (technology r) = Some l /\ l <> []) /\
  (bookingUrl (contactMethods r) <> None ->
   exists l, bookingSystems (technology r) = Some l /\ "Calendly" ∈ l).
Proof.
  intros [(findings & -> & _) | (html & headers & ->)]%extract_cases.
  - cbn. repeat split; try done; by intros (l & Hl & _).
  - unfold analyse.
    cbn [contactMethods technology hasLiveChat hasBookingSystem bookingUrl
         chatWidgets bookingSystems].
    rewrite !nonEmpty_true. split; [| split].
    + split; [eauto | by intros (l & [= <-] & Hl)].
    + split; [eauto | by intros (l & [= <-] & Hl)].
    + intros Hu. eexists. split; [done |].
      unfold detectBookingSystems in *. cbn [fst snd] in *.
      destruct (includes (toLowerCase html) "calendly"); [by left | done].
Qed.

Lemma firstYear_range ps html p :
  firstYear search currentYear ps html = Some p ->
  exists year, p = Parsed year /\ 1900 <= year <= currentYear.
Proof.
  induction ps as [|q ps IH]; cbn; [done |].
  destruct (search q html) as [m |]; [| exact IH].
  destruct (parseInt (capture m)) as [| year]; [exact IH |].
  destruct (_ && _) eqn:Hr; [| exact IH].
  intros [= <-]. apply andb_true_iff in Hr as [H1 H2].
  exists year. split; [done | lia].
Qed.

(** X23. A founding year, when one is reported, lies between 1900 and
    the current year. *)
Theorem founded_year_in_range (website : string) (r : WebsiteIntelligenceResult)
    (p : parsed) :
  extract website = Returned r ->
  foundedYear (businessIntel r) = Some p ->
  exists year, p = Parsed year /\ 1900 <= year <= currentYear.
Proof.
  intros [(findings & -> & _) | (html & headers & ->)]%extract_cases; [done |].
  unfold analyse. cbn [businessIntel foundedYear]. apply firstYear_range.
Qed.

(** X24. At most ten service areas are reported, and none twice. *)
Theorem service_areas_capped (website : string) (r : WebsiteIntelligenceResult)
    (areas : list string) :
  extract website = Returned r ->
  serviceAreas (businessIntel r) = Some areas ->
  (length areas <= 10)%nat /\ NoDup areas.
Proof.
  intros [(findings & -> & _) | (html & headers & ->)]%extract_cases; [done |].
  unfold analyse. cbn [businessIntel serviceAreas]. intros [= <-].
  unfold extractServiceAreas. split.
  - rewrite length_take. lia.
  - eapply sublist_NoDup; [apply Array_from_Set_NoDup | apply sublist_take].
Qed.

(** The findings of every result start with the line that names
    the URL that was fetched, followed by at least one more line. *)
Lemma findings_start_with_url (website : string) (r : WebsiteIntelligenceResult) :
  extract website = Returned r ->
  exists rest,
    rawFindings r
    = ("Fetching " +:+
       (if startsWith website "http" then website else "https://" +:+ website)
       +:+ "...") :: rest /\
    rest <> [].
Proof.
  intros [(findings & -> & rest & -> & Hr) | (html & headers & ->)]%extract_cases.
  - by exists rest.
  - unfold analyse. cbn [rawFindings].
    set (first := "Fetching " +:+ _ +:+ "...").
    set (second := "Fetched " +:+ _ +:+ "KB of HTML").
    assert (Hp : [first; second] `prefix_of`
                 rawFindings (analysed html headers [first])).
    { unfold analyse. cbn [rawFindings]. subst first second.
      repeat (etransitivity; [| apply finding_prefix]). done. }
    destruct Hp as [more Hp]. unfold analyse in Hp. cbn [rawFindings] in Hp.
    exists (second :: more). split; [exact Hp | done].
Qed.
End WithPlatform.

Import Examples.

Lemma completeness_range_witness :
  0 <= completeness techSnapshot <= 100 /\ (5 | completeness techSnapshot).
Proof.
  exact (completeness_range techSearch techSearchAll 2026 (serve techPage)
           "acme.com" techSnapshot ltac:(vm_compute; reflexivity)).
Defined.

Lemma flags_agree_with_lists_witness :
  exists l, bookingSystems (technology techSnapshot) = Some l /\ "Calendly" ∈ l.
Proof.
  refine (proj2 (proj2 (flags_agree_with_lists techSearch techSearchAll 2026
                          (serve techPage) "acme.com" techSnapshot
                          ltac:(vm_compute; reflexivity))) _).
  vm_compute. discriminate.
Defined.

Lemma founded_year_in_range_witness :
  foundedYear (businessIntel techSnapshot) = Some (Parsed 1998) /\
  exists year, Parsed 1998 = Parsed year /\ 1900 <= year <= 2026.
Proof.
  split; [vm_compute; reflexivity |].
  exact (founded_year_in_range techSearch techSearchAll 2026 (serve techPage)
           "acme.com" techSnapshot (Parsed 1998)
           ltac:(vm_compute; reflexivity) ltac:(vm_compute; reflexivity)).
Defined.

Lemma service_areas_capped_witness :
  serviceAreas (businessIntel techSnapshot) = Some ["Miami"; "Tampa"] /\
  (length ["Miami"; "Tampa"] <= 10)%nat /\ NoDup ["Miami"; "Tampa"].
Proof.
  split; [vm_compute; reflexivity |].
  exact (service_areas_capped techSearch techSearchAll 2026 (serve techPage)
           "acme.com" techSnapshot ["Miami"; "Tampa"]
           ltac:(vm_compute; reflexivity) ltac:(vm_compute; reflexivity)).
Defined.

End WebsiteIntelligenceMore.

(** ** More on the social profile verifier *)

Module SocialVerifierMore.
Import JS JSFacts JSMore SocialVerifier SocialVerifierFacts Measures.

Lemma headCount_app t evs : headCount (t ++ evs) = (headCount t + headCount evs)%nat.
Proof. unfold headCount. by rewrite filter_app, length_app. Qed.

Lemma atMost_ret {A} (a : A) : appendsAtMost (ret a) 0.
Proof. intros t. exists []. by rewrite app_nil_r. Qed.

Lemma atMost_history : appendsAtMost history 0.
Proof. intros t. exists []. by rewrite app_nil_r. Qed.

Lemma atMost_emit e : appendsAtMost (emit e) (if isHead e then 1 else 0).
Proof.
  intros t. exists [e]. split; [done |].
  unfold headCount. rewrite filter_cons. destruct (isHead e); by case_decide.
Qed.

Lemma atMost_bind {A B} (m : M A) (k : A -> M B) n1 n2 :
  appendsAtMost m n1 -> (forall a, appendsAtMost (k a) n2) ->
  appendsAtMost (bind m k) (n1 + n2).
Proof.
  intros Hm Hk t. rewrite bind_run.
  destruct (Hm t) as (evs & Ht & Hn).
  destruct (Hk (m t).1 (m t).2) as (evs' & Ht' & Hn').
  exists (evs ++ evs'). rewrite Ht', Ht, app_assoc, headCount_app.
  split; [done | lia].
Qed.

Lemma atMost_weaken {A} (m : M A) n n' :
  (n <= n')%nat -> appendsAtMost m n -> appendsAtMost m n'.
Proof.
  intros Hn Hm t. destruct (Hm t) as (evs & Ht & Hc). exists evs. split; [done | lia].
Qed.

Lemma symbol_is_dropped c :
  negb (isLetter c || isDigit c || isSpace c) = true ->
  isLower (lowerChar c) || isDigit (lowerChar c) || isSpace (lowerChar c) = false.
Proof. each_char c; done. Qed.

Lemma cleanName_symbols businessName :
  symbolsOnly businessName -> cleanName businessName = "".
Proof.
  unfold symbolsOnly, cleanName.
  induction businessName as [|c s IH]; [done |]. cbn.
  intros [Hc Hs]%andb_true_iff. by rewrite (symbol_is_dropped c Hc), IH.
Qed.



Lemma linkedIn_urls_length businessName :
  (length (generateLinkedInUrls businessName) <= 4)%nat.
Proof.
  unfold generateLinkedInUrls, withFirstWord.
  etransitivity; [apply Array_from_Set_length |].
  destruct (_ && _); cbn; lia.
Qed.

Lemma facebook_urls_length businessName :
  (length (generateFacebookUrls businessName) <= 3)%nat.
Proof.
  unfold generateFacebookUrls, withFirstWord.
  etransitivity; [apply Array_from_Set_length |].
  destruct (_ && _); cbn; lia.
Qed.

Lemma instagram_urls_length businessName :
  (length (generateInstagramUrls businessName) <= 3)%nat.
Proof.
  unfold generateInstagramUrls, withFirstWord.
  etransitivity; [apply Array_from_Set_length |].
  destruct (_ && _); cbn; lia.
Qed.

Lemma probeCount_le_headCount p evs : (probeCount p evs <= headCount evs)%nat.
Proof.
  unfold probeCount, headCount. induction evs as [|e evs IH]; [done |].
  rewrite !filter_cons. destruct e; cbn; repeat case_decide; cbn; try done; lia.
Qed.

(** The events a computation adds, with their number of probes and the
    platforms they leave alone. *)
Lemma both_facts {A} (m : M A) n (Q : platform -> Prop) :
  appendsAtMost m n ->
  (forall p, Q p -> appends m (notProbeOf p)) ->
  forall t, exists evs,
    (m t).2 = t ++ evs /\ (headCount evs <= n)%nat /\
    forall p, Q p -> probeCount p evs = 0%nat.
Proof.
  intros Hm Hq t. destruct (Hm t) as (evs & Ht & Hn). exists evs.
  split; [done |]. split; [done |]. intros p Hp.
  destruct (Hq p Hp t) as (evs' & Ht' & Hf).
  rewrite Ht in Ht'. apply app_inv_head in Ht'. subst evs'.
  by apply probeCount_quiet.
Qed.

Lemma unlessFound_appends q verify profiles P :
  appends verify P -> appends (unlessFound q verify profiles) P.
Proof.
  intros Hv. unfold unlessFound. destruct (hasPlatform q profiles); [apply appends_ret |].
  apply appends_bind; [exact Hv | intros; apply appends_ret].
Qed.

Section WithPlatform.
Variable httpGet : list event -> string -> outcome Response.
Variable httpHead : list event -> string -> outcome Response.
Variable profileLink : platform -> string -> option string.
Variable followerText : followerPattern -> string -> option string.

Abbreviation run := (verifySocialProfiles httpGet httpHead profileLink followerText).

Lemma fetchGet_atMost u : appendsAtMost (fetchGet httpGet u) 0.
Proof.
  unfold fetchGet. apply (atMost_bind _ _ 0 0); [apply atMost_history |]. intros t.
  apply (atMost_bind _ _ 0 0); [apply (atMost_emit (Get u)) |]. intros _.
  apply atMost_ret.
Qed.

Lemma checkUrlExists_atMost u : appendsAtMost (checkUrlExists httpHead u) 1.
Proof.
  unfold checkUrlExists, fetchHead.
  apply (atMost_bind _ _ 1 0); [| intros; apply atMost_ret].
  apply (atMost_bind _ _ 0 1); [apply atMost_history |]. intros t.
  apply (atMost_bind _ _ 1 0); [apply (atMost_emit (Head u)) |]. intros _.
  apply atMost_ret.
Qed.

(** The loop sends at most one probe per candidate. *)
Lemma probeInOrder_atMost found urls :
  (forall u, appendsAtMost (found u) 0) ->
  appendsAtMost (probeInOrder httpHead found urls) (length urls).
Proof.
  intros Hf. induction urls as [|u rest IH]; cbn [probeInOrder length].
  - apply atMost_ret.
  - apply (atMost_bind _ _ 1 (length rest)); [apply checkUrlExists_atMost |].
    intros [|].
    + apply (atMost_weaken _ 0); [lia |].
      apply (atMost_bind _ _ 0 0); [apply Hf | intros; apply atMost_ret].
    + apply (atMost_bind _ _ 0 (length rest)); [apply (atMost_emit (Sleep 500)) |].
      intros _. exact IH.
Qed.

Lemma unlessFound_atMost q verify profiles n :
  appendsAtMost verify n -> appendsAtMost (unlessFound q verify profiles) n.
Proof.
  intros Hv. unfold unlessFound. destruct (hasPlatform q profiles).
  - apply (atMost_weaken _ 0); [lia | apply atMost_ret].
  - replace n with (n + 0)%nat by lia.
    apply atMost_bind; [exact Hv | intros; apply atMost_ret].
Qed.

(** X26. One run of [verifySocialProfiles] sends at most ten existence
    probes: four to LinkedIn, three to Facebook and three to Instagram
    at most, whatever the name and whatever the network answers. *)
Theorem at_most_ten_probes (businessName : string) (website : option string) :
  let t := (run businessName website []).2 in
  (headCount t <= 10)%nat /\
  (probeCount linkedin t <= 4)%nat /\
  (probeCount facebook t <= 3)%nat /\
  (probeCount instagram t <= 3)%nat.
Proof.
  cbn zeta. unfold verifySocialProfiles. rewrite !bind_run. cbn [ret snd].
  set (s0 := websiteStep httpGet profileLink website []).
  set (s1 := unlessFound linkedin _ s0.1 s0.2).
  set (s2 := unlessFound facebook _ s1.1 s1.2).
  set (s3 := unlessFound instagram _ s2.1 s2.2).
  destruct (both_facts (websiteStep httpGet profileLink website) 0 (fun _ => True))
    with (t := @nil event) as (e0 & H0 & Hn0 & Hq0).
  { unfold websiteStep. destruct (falsy website); [apply atMost_ret |].
    unfold extractSocialsFromWebsite.
    apply (atMost_bind _ _ 0 0); [apply fetchGet_atMost | intros; apply atMost_ret]. }
  { intros p _. apply websiteStep_appends. }
  destruct (both_facts
              (unlessFound linkedin
                 (verifyLinkedIn httpGet httpHead followerText businessName) s0.1)
              4 (fun p => p <> linkedin))
    with (t := s0.2) as (e1 & H1 & Hn1 & Hq1).
  { apply unlessFound_atMost.
    eapply atMost_weaken; [apply linkedIn_urls_length |].
    apply probeInOrder_atMost. intros u.
    apply (atMost_bind _ _ 0 0); [| intros; apply atMost_ret].
    unfold scrapeLinkedInMetrics.
    apply (atMost_bind _ _ 0 0); [apply fetchGet_atMost | intros; apply atMost_ret]. }
  { intros p Hp. apply unlessFound_appends. by apply verifyLinkedIn_appends. }
  destruct (both_facts
              (unlessFound facebook
                 (verifyFacebook httpGet httpHead followerText businessName) s1.1)
              3 (fun p => p <> facebook))
    with (t := s1.2) as (e2 & H2 & Hn2 & Hq2).
  { apply unlessFound_atMost.
    eapply atMost_weaken; [apply facebook_urls_length |].
    apply probeInOrder_atMost. intros u.
    apply (atMost_bind _ _ 0 0); [| intros; apply atMost_ret].
    unfold scrapeFacebookMetrics.
    apply (atMost_bind _ _ 0 0); [apply fetchGet_atMost | intros; apply atMost_ret]. }
  { intros p Hp. apply unlessFound_appends. by apply verifyFacebook_appends. }
  destruct (both_facts
              (unlessFound instagram (verifyInstagram httpHead businessName) s2.1)
              3 (fun p => p <> instagram))
    with (t := s2.2) as (e3 & H3 & Hn3 & Hq3).
  { apply unlessFound_atMost.
    eapply atMost_weaken; [apply instagram_urls_length |].
    apply probeInOrder_atMost. intros u. apply atMost_ret. }
  { intros p Hp. apply unlessFound_appends. by apply verifyInstagram_appends. }
  fold s0 in H0. fold s1 in H1. fold s2 in H2. fold s3 in H3.
  rewrite H3, H2, H1, H0. cbn [app].
  rewrite !headCount_app, !probeCount_app.
  pose proof (probeCount_le_headCount linkedin e1).
  pose proof (probeCount_le_headCount facebook e2).
  pose proof (probeCount_le_headCount instagram e3).
  rewrite (Hq0 linkedin), (Hq0 facebook), (Hq0 instagram) by done.
  rewrite (Hq1 facebook), (Hq1 instagram) by done.
  rewrite (Hq2 linkedin), (Hq2 instagram) by done.
  rewrite (Hq3 linkedin), (Hq3 facebook) by done.
  lia.
Qed.

Lemma sorted_head_largest (l : list VerifiedSocialProfile) p :
  StronglySorted (fun a b => confidence b <= confidence a) l ->
  head l = Some p -> forall q, q ∈ l -> confidence q <= confidence p.
Proof.
  intros Hs Hh q Hq. destruct Hs as [|x l Hl Hx]; [done |].
  injection Hh as ->. apply elem_of_cons in Hq as [-> | Hq]; [lia |].
  rewrite Forall_forall in Hx. by apply Hx.
Qed.

Lemma probeInOrder_result (P : VerifiedSocialProfile -> Prop) found urls :
  (forall u t, P (found u t).1) ->
  forall t x, (probeInOrder httpHead found urls t).1 = Some x -> P x.
Proof.
  intros Hf. induction urls as [|u rest IH]; intros t x; cbn [probeInOrder].
  - by cbn.
  - rewrite bind_run. destruct ((checkUrlExists httpHead u t).1).
    + rewrite bind_run. cbn. intros [= <-]. apply Hf.
    + rewrite bind_run. apply IH.
Qed.

Lemma unlessFound_Forall (P : VerifiedSocialProfile -> Prop) q verify profiles t :
  (forall t x, (verify t).1 = Some x -> P x) ->
  Forall P profiles -> Forall P (unlessFound q verify profiles t).1.
Proof.
  intros Hv Hp. unfold unlessFound. destruct (hasPlatform q profiles); [done |].
  rewrite bind_run. cbn [ret fst].
  destruct ((verify t).1) as [x |] eqn:Hx; [| done].
  apply Forall_app. split; [done |]. constructor; [by eapply Hv | constructor].
Qed.

Lemma websiteStep_tiers website t :
  Forall knownTier (websiteStep httpGet profileLink website t).1.
Proof.
  unfold websiteStep. destruct (falsy website); [constructor |].
  unfold extractSocialsFromWebsite. rewrite bind_run. cbn [ret fst].
  destruct ((fetchGet httpGet _ t).1) as [response |]; [| constructor].
  destruct (ok response); cbn [negb]; [| constructor].
  destruct (text response) as [html |]; [| constructor].
  unfold linkedProfile.
  repeat (apply Forall_app; split);
    destruct (profileLink _ html); repeat constructor; cbn; by left.
Qed.

(** X27. The profiles of a result are sorted by descending confidence
    and the summary describes them: their number, their platforms in
    order, and as best profile the URL of the first one, whose
    confidence is the largest.  Every profile is marked as existing and
    has confidence 95 when it was linked on the website, else 85, 80 or
    75 for a guessed LinkedIn, Facebook or Instagram page. *)
Theorem profiles_sorted_and_summarised (businessName : string) (website : option string) :
  let r := (run businessName website []).1 in
  StronglySorted (fun a b => confidence b <= confidence a) (profiles r) /\
  totalFound (summary r) = length (profiles r) /\
  platforms (summary r) = platform_ <$> profiles r /\
  bestProfile (summary r) = url <$> head (profiles r) /\
  (forall p, head (profiles r) = Some p ->
     forall q, q ∈ profiles r -> confidence q <= confidence p) /\
  Forall knownTier (profiles r).
Proof.
  cbn zeta. unfold verifySocialProfiles. rewrite !bind_run.
  cbn [ret fst profiles summary totalFound platforms bestProfile].
  match goal with |- context [sort ?c ?l] =>
    change c with (descending confidence); set (found := l)
  end.
  pose proof (sort_sorted confidence found) as Hs.
  split; [exact Hs |]. split; [done |]. split; [done |]. split; [done |].
  split; [intros p Hp; by apply (sorted_head_largest _ p Hs) |].
  rewrite sort_perm. subst found.
  apply unlessFound_Forall.
  { apply probeInOrder_result. intros u t. split; [done |]. right. right. by right. }
  apply unlessFound_Forall.
  { apply probeInOrder_result. intros u t. rewrite bind_run. split; [done |].
    right. right. by left. }
  apply unlessFound_Forall.
  { apply probeInOrder_result. intros u t. rewrite bind_run. split; [done |].
    right. by left. }
  apply websiteStep_tiers.
Qed.
End WithPlatform.

Import Examples.

Lemma profiles_sorted_and_summarised_witness :
  confidence acmeInstagramGuess <= confidence acmeLinkedInLink.
Proof.
  refine (proj1 (proj2 (proj2 (proj2 (proj2
            (profiles_sorted_and_summarised (fun _ => serve acmePage) probeInstagramOnly
               linkOnlyLinkedIn (fun _ _ => None) "Acme Roofing" (Some "acme.com"))))))
            acmeLinkedInLink _ acmeInstagramGuess _).
  - reflexivity.
  - vm_compute. apply list_elem_of_further, list_elem_of_here.
Defined.

End SocialVerifierMore.

(** ** The orchestrator *)

Module OrchestratorFacts.
Import JS JSFacts JSMore Scoring WebsiteVerification Orchestrator Measures.

Lemma quick_valid hostname url :
  isValid (quickVerifyWebsite hostname url) = true ->
  50 <= trustScore (quickVerifyWebsite hostname url) /\
  isLikelySpam (quickVerifyWebsite hostname url) = false /\
  isSuspicious (quickVerifyWebsite hostname url) = false.
Proof.
  unfold quickVerifyWebsite. destruct url as [u |]; [| discriminate].
  destruct (_ || _); [discriminate |]. destruct (isEmpty _); [discriminate |].
  cbn zeta. cbn [trustScore isValid isLikelySpam isSuspicious].
  rewrite Z.leb_le, !Z.ltb_ge. lia.
Qed.

Section WithPlatform.
Variable hostname : string -> option string.
Variable googlePlaceDetails : string -> outcome PlaceDetails.
Variable googleTextSearchPage :
  option string -> outcome (list SearchResult * option string).

Abbreviation fateOf := (candidateFate hostname googlePlaceDetails).

(** *** Counters *)

Lemma countPage_counts config results c :
  let c' := countPage hostname googlePlaceDetails config c results in
  totalSeen c' = (totalSeen c + length results)%nat /\
  totalInserted c' = (totalInserted c + fateCount (fateOf config) Saved results)%nat /\
  totalSkippedSpam c'
  = (totalSkippedSpam c + fateCount (fateOf config) SkippedSpam results)%nat /\
  totalSkippedScore c'
  = (totalSkippedScore c + fateCount (fateOf config) SkippedScore results)%nat.
Proof.
  cbn zeta. unfold countPage, fateCount. revert c.
  induction results as [|r results IH]; intros c; cbn [foldl length]; [cbn; lia |].
  destruct (IH (countCandidate hostname googlePlaceDetails config c r))
    as (H1 & H2 & H3 & H4).
  rewrite H1, H2, H3, H4, !(filter_cons _ r). clear H1 H2 H3 H4 IH.
  unfold countCandidate.
  destruct (fateOf config r) eqn:Hf; repeat case_decide; try done;
    cbn [length totalSeen totalInserted totalSkippedSpam totalSkippedScore]; lia.
Qed.

Lemma countPage_addsUp config results c :
  addsUp c -> addsUp (countPage hostname googlePlaceDetails config c results).
Proof.
  unfold addsUp, countPage. revert c.
  induction results as [|r results IH]; intros c Hc; cbn [foldl]; [done |].
  apply IH. unfold countCandidate. destruct (fateOf config r); cbn; lia.
Qed.

Lemma searchPages_facts config pagesLeft token c fetched c' fetched' :
  searchPages hostname googlePlaceDetails googleTextSearchPage config pagesLeft
    token c fetched = Returned (c', fetched') ->
  addsUp c ->
  addsUp c' /\ (fetched <= fetched' <= fetched + pagesLeft)%nat /\
  (totalSeen c <= totalSeen c')%nat.
Proof.
  revert token c fetched.
  induction pagesLeft as [|n IH]; intros token c fetched; cbn [searchPages].
  - intros [= <- <-] Hc. repeat split; [done | lia | lia | lia].
  - destruct (googleTextSearchPage token) as [[results next] |]; [| discriminate].
    destruct (length results =? 0)%nat.
    { intros [= <- <-] Hc. repeat split; [done | lia | lia | lia]. }
    pose proof (countPage_counts config results c) as (Hseen & _). cbn zeta in Hseen.
    destruct (falsy next).
    { intros [= <- <-] Hc. split; [by apply countPage_addsUp |]. lia. }
    intros Hrun Hc. apply IH in Hrun as (H1 & H2 & H3); [| by apply countPage_addsUp].
    split; [done |]. lia.
Qed.


(** *** Candidates without details *)

Lemma no_contact_signals input :
  closedInput input = false ->
  trim (default "" (website input)) = "" ->
  trim (default "" (phone input)) = "" ->
  signals (computeAutomationNeedScoreDetailed input) !! "no_website" = Some 25 /\
  signals (computeAutomationNeedScoreDetailed input) !! "no_phone" = Some 8 /\
  34 <= score (computeAutomationNeedScoreDetailed input).
Proof.
  intros Hc Hw Hp. split; [| split].
  - unfold closedInput in Hc. unfold computeAutomationNeedScoreDetailed.
    rewrite Hc. cbn [signals]. unfold accumulate. rewrite Hw, Hp.
    unfold operationalSignal, phoneSignal, ratingSignal, reviewSignal, websiteSignal.
    cbn [isEmpty].
    destruct (reviewTier _) as [pts reason], (ratingTier _) as [pts' reason'].
    repeat match goal with |- context [if ?b then _ else _] => destruct b end;
      cbn; by simplify_map_eq.
  - unfold closedInput in Hc. unfold computeAutomationNeedScoreDetailed.
    rewrite Hc. cbn [signals]. unfold accumulate. rewrite Hw, Hp.
    unfold operationalSignal, phoneSignal, ratingSignal, reviewSignal, websiteSignal.
    cbn [isEmpty].
    destruct (reviewTier _) as [pts reason], (ratingTier _) as [pts' reason'].
    repeat match goal with |- context [if ?b then _ else _] => destruct b end;
      cbn; by simplify_map_eq.
  - rewrite (ScoringMore.open_score _ Hc), ScoringMore.accumulate_score, Hw, Hp.
    pose proof (ScoringMore.reviewTier_cases
                  (default (ofZ 0) (user_ratings_total input))) as Hr.
    pose proof (ScoringMore.ratingTier_cases (default (ofZ 0) (rating input))) as Hg.
    change (websitePoints "") with 25. change (phonePoints "") with 8.
    unfold operationalPoints. destruct (includes _ _); set_unfold; lia.
Qed.

(** X29. When the details lookup of a result fails, the candidate has
    neither website nor phone: it is never skipped as spam, no e-mail
    discovery and no intelligence extraction run for it, and unless it
    is permanently closed it is scored with the no-website and no-phone
    signals, hence at least 34. *)
Theorem failed_lookup_scored_without_contact
    (config : SearchConfig) (r : SearchResult) (message : string) :
  googlePlaceDetails (result_place_id r) = Thrown message ->
  let merged := lookUp googlePlaceDetails r in
  let scored := computeAutomationNeedScoreDetailed (scoreInput merged) in
  place_website merged = None /\
  formatted_phone_number merged = None /\
  fateOf config r <> SkippedSpam /\
  emailGuard hostname config merged = false /\
  intelligenceGuard hostname config merged = false /\
  (closedInput (scoreInput merged) = false ->
   signals scored !! "no_website" = Some 25 /\
   signals scored !! "no_phone" = Some 8 /\
   34 <= score scored).
Proof.
  intros Hf. cbn zeta. unfold candidateFate, emailGuard, intelligenceGuard,
    skipsAsSpam, verifiedValid, websiteVerification.
  unfold lookUp. rewrite Hf. cbn [merge baseOf noDetails spread place_website
    formatted_phone_number details_website details_phone falsy].
  rewrite !andb_false_r.
  repeat split; try done.
  - by destruct (Pipeline.skippedForScore _ _).
  - by apply no_contact_signals.
  - by apply no_contact_signals.
  - by apply no_contact_signals.
Qed.

(** *** Enrichment *)

(** X30. E-mail discovery and intelligence extraction run only for a
    website whose quick verdict has a trust score of at least 50; such
    a candidate is not likely spam and is not skipped as spam.  A
    website on a known spam or shortener domain is never enriched, and
    it is skipped when the skip-suspicious policy is on. *)
Theorem enrichment_needs_trust (config : SearchConfig) (r : SearchResult) :
  let merged := lookUp googlePlaceDetails r in
  (emailGuard hostname config merged = true \/
   intelligenceGuard hostname config merged = true ->
   exists v, websiteVerification hostname merged = Some v /\
             50 <= trustScore v /\ isLikelySpam v = false /\
             skipsAsSpam hostname config merged = false) /\
  (forall u, place_website merged = Some u -> trim u <> "" ->
     isSpamDomain (WebsiteVerification.extractDomain hostname (trim u)) = true ->
     emailGuard hostname config merged = false /\
     intelligenceGuard hostname config merged = false /\
     (skipSuspicious config = true -> fateOf config r = SkippedSpam)).
Proof.
  cbn zeta. split.
  - unfold emailGuard, intelligenceGuard, skipsAsSpam, verifiedValid, websiteVerification.
    destruct (falsy (place_website _)); [rewrite !andb_false_r; by intros [? | ?] |].
    intros Hg. eexists. split; [done |].
    assert (Hv : isValid (quickVerifyWebsite hostname
                            (place_website (lookUp googlePlaceDetails r))) = true).
    { destruct Hg as [Hg | Hg]; by apply andb_true_iff in Hg as [_ Hg]. }
    destruct (quick_valid _ _ Hv) as (H50 & Hs & _).
    rewrite Hs, andb_false_r. done.
  - intros u Hu Ht Hs.
    pose proof (WebsiteVerificationMore.spam_domain_flagged hostname u Ht Hs) as Hspam.
    assert (Hne : u <> "") by (by intros ->).
    unfold candidateFate, emailGuard, intelligenceGuard, skipsAsSpam, verifiedValid,
      websiteVerification.
    rewrite Hu. assert (Hf : falsy (Some u) = false) by (by destruct u).
    rewrite Hf, Hspam.
    destruct (isValid (quickVerifyWebsite hostname (Some u))) eqn:Hv.
    { apply quick_valid in Hv as (_ & Hv & _). congruence. }
    rewrite !andb_false_r. repeat split; try done.
    by intros ->.
Qed.
End WithPlatform.

Import Examples.


Lemma failed_lookup_scored_without_contact_witness :
  candidateFate plainHostname (fun _ => Thrown "timeout") allEnrichments acmeResult
  <> SkippedSpam.
Proof.
  exact (proj1 (proj2 (proj2
           (failed_lookup_scored_without_contact plainHostname (fun _ => Thrown "timeout")
              allEnrichments acmeResult "timeout" eq_refl)))).
Defined.

Lemma enrichment_needs_trust_witness :
  exists v, websiteVerification plainHostname (lookUp acmeDetails acmeResult) = Some v /\
            50 <= trustScore v /\ isLikelySpam v = false /\
            skipsAsSpam plainHostname allEnrichments (lookUp acmeDetails acmeResult) = false.
Proof.
  refine (proj1 (enrichment_needs_trust plainHostname acmeDetails allEnrichments acmeResult) _).
  left. reflexivity.
Defined.

End OrchestratorFacts.
